(** * Super Bot (app.py): a shallow embedding of the command handlers

    The handlers of [app.py] are embedded as state-passing functions over
    a [World] that holds everything the program mutates: the module-level
    [finance_data] ledger, the per-user [context.user_data] dictionaries,
    the job list of the [schedule] module, the messages sent so far and
    the log.  What the program only reads from outside (environment
    variables, the Telegram membership query, HTTP responses, random
    draws) is collected in an [Env] of oracles.

    Conventions of the embedding:
    - a Python [str] is a [string] whose characters are code points below
      256; [str.lower] is the Unicode lower-casing on that range;
    - a Python [float] is a primitive binary64 [float]; [float(s)] follows
      the grammar of the builtin and rounds to nearest-even;
    - an exception is a value of [exn]; a computation returns [Ok] or
      [Raise] together with the world reached so far;
    - an f-string is kept as its list of fragments ([fstring]): literal
      text and the values substituted into it;
    - an update is a message of a user: [update.message] and its
      [from_user] are present;
    - [reply_text] is the fire-and-forget sink of the transport: it
      appends to [outbox]; the group send of [send_confession_to_group],
      which builds an [Updater] of its own, goes through or raises as
      the [send_message] oracle says;
    - time is a count of seconds that [time.sleep(1)] advances by one. *)

From Stdlib Require Import ZArith NArith String Ascii List Bool Lia Permutation.
From Stdlib Require Import Floats.
From stdpp Require Import gmap strings list fin_maps.

Local Open Scope Z_scope.

(** ** Text *)

Module Str.

Definition code (c : ascii) : N := N_of_ascii c.

(** Code points below 256 that [str.lower] changes: A-Z and the
    Latin-1 capitals U+00C0..U+00DE without the multiplication sign. *)
Definition is_upper (c : ascii) : bool :=
  let n := code c in
  ((65 <=? n) && (n <=? 90) ||
   (192 <=? n) && (n <=? 222) && negb (n =? 215))%N.

Definition lower_char (c : ascii) : ascii :=
  if is_upper c then ascii_of_N (code c + 32) else c.

(** [s.lower()] *)
Fixpoint lower (s : string) : string :=
  match s with
  | EmptyString => EmptyString
  | String c s' => String (lower_char c) (lower s')
  end.

(** [s.startswith(p)] *)
Fixpoint startswith (s p : string) : bool :=
  match p, s with
  | EmptyString, _ => true
  | String a p', String c s' => Ascii.eqb a c && startswith s' p'
  | String _ _, EmptyString => false
  end.

(** [s.split(sep)] for a one-character separator: every occurrence
    cuts, so the result is never empty and may hold empty pieces. *)
Fixpoint split (sep : ascii) (s : string) : list string :=
  match s with
  | EmptyString => [EmptyString]
  | String c s' =>
      if Ascii.eqb c sep then EmptyString :: split sep s'
      else match split sep s' with
           | h :: t => String c h :: t
           | [] => [String c EmptyString]
           end
  end.

(** [sep.join(l)] *)
Definition join (sep : string) (l : list string) : string :=
  String.concat sep l.

(** Truth value of a string in [if s:] *)
Definition truthy (s : string) : bool :=
  match s with EmptyString => false | _ => true end.

(** [needle in s] for strings *)
Fixpoint contains (s needle : string) : bool :=
  startswith s needle ||
  match s with
  | EmptyString => false
  | String _ s' => contains s' needle
  end.

(** Two characters that are the same letter in possibly different case. *)
Definition same_letter (a b : ascii) : bool :=
  Ascii.eqb a b
  || (is_upper a && (code b =? code a + 32)%N)
  || (is_upper b && (code a =? code b + 32)%N).

(** Two strings that are equal up to the case of their letters. *)
Fixpoint eq_upto_case (s t : string) : bool :=
  match s, t with
  | EmptyString, EmptyString => true
  | String a s', String b t' => same_letter a b && eq_upto_case s' t'
  | _, _ => false
  end.

(** Every character, in code order. *)
Definition all_ascii : list ascii := map ascii_of_nat (seq 0 256).

Definition space : ascii := " "%char.
Definition newline : ascii := ascii_of_N 10.

End Str.

(** ** Exceptions and results *)

Inductive exn : Type :=
| ValueError
| IndexError
| KeyError
| TypeError
| AttributeError
| OverflowError
| External (name : string).   (* raised by a collaborator: network, API *)

Inductive result (A : Type) : Type :=
| Ok (a : A)
| Raise (e : exn).
Arguments Ok {A} a.
Arguments Raise {A} e.

(** ** Numbers *)

Module Num.

Inductive pynum : Type :=
| NInt (z : Z)
| NFloat (f : float).

(** The binary64 nearest to [p / q], ties to even, for [0 <= p] and
    [0 < q]: the quotient is taken with two guard bits and a sticky
    bit, then rounded once. *)
Definition round_ratio (p q : Z) : float :=
  if p =? 0 then 0%float else
  let k := Z.max 0 (55 + Z.log2_up q - Z.log2 p) in
  let n := p * 2 ^ k / q in
  let s := if (p * 2 ^ k) mod q =? 0 then 0 else 1 in
  SF2Prim (binary_normalize prec emax (2 * n + s) (- k - 1) false).

(** The float [m * 10^e] for a natural mantissa. *)
Definition float_of_decimal (m e : Z) : float :=
  if 0 <=? e then round_ratio (m * 10 ^ e) 1
  else round_ratio m (10 ^ (- e)).

(** [float(z)] for an [int]: overflow raises. *)
Definition float_of_int (z : Z) : result float :=
  let f := round_ratio (Z.abs z) 1 in
  if is_infinity f then Raise OverflowError
  else Ok (if z <? 0 then (- f)%float else f).

Definition binop (fi : Z -> Z -> Z) (ff : float -> float -> float)
    (a b : pynum) : result pynum :=
  match a, b with
  | NInt x, NInt y => Ok (NInt (fi x y))
  | NFloat x, NFloat y => Ok (NFloat (ff x y))
  | NInt x, NFloat y =>
      match float_of_int x with
      | Ok fx => Ok (NFloat (ff fx y))
      | Raise e => Raise e
      end
  | NFloat x, NInt y =>
      match float_of_int y with
      | Ok fy => Ok (NFloat (ff x fy))
      | Raise e => Raise e
      end
  end.

(** [a + b] and [a - b] on Python numbers *)
Definition add : pynum -> pynum -> result pynum := binop Z.add PrimFloat.add.
Definition sub : pynum -> pynum -> result pynum := binop Z.sub PrimFloat.sub.

(** [a == z] for an integer literal [z] *)
Definition eq_int (a : pynum) (z : Z) : bool :=
  match a with
  | NInt x => x =? z
  | NFloat f =>
      match float_of_int z with
      | Ok fz => (f =? fz)%float
      | Raise _ => false
      end
  end.

End Num.
Export Num(pynum, NInt, NFloat).

(** ** The builtin [float(s)] on strings *)

Module PyFloat.

(** The characters [float] strips at both ends: the ASCII white space
    (tab to carriage return, and the space) and the two code points
    above 127 that the builtin turns into a space before parsing
    (U+0085, U+00A0).  The separators U+001C..U+001F are not stripped:
    [float(chr(28) + "1")] raises [ValueError]. *)
Definition is_space (c : ascii) : bool :=
  let n := Str.code c in
  ((9 <=? n) && (n <=? 13) || (n =? 32) || (n =? 133) || (n =? 160))%N.

Definition is_digit (c : ascii) : bool :=
  let n := Str.code c in ((48 <=? n) && (n <=? 57))%N.

Definition digit_val (c : ascii) : Z := Z.of_N (Str.code c - 48).

Definition is_underscore (c : ascii) : bool := Ascii.eqb c "_"%char.

Fixpoint lstrip (l : list ascii) : list ascii :=
  match l with
  | c :: l' => if is_space c then lstrip l' else l
  | [] => []
  end.

Definition strip (l : list ascii) : list ascii :=
  rev (lstrip (rev (lstrip l))).

(** An underscore is allowed only between two digits; the accepted
    string is parsed without its underscores. *)
Fixpoint drop_underscores (prev : option ascii) (l : list ascii)
    : option (list ascii) :=
  match l with
  | [] =>
      match prev with
      | Some p => if is_underscore p then None else Some []
      | None => Some []
      end
  | c :: l' =>
      if is_underscore c then
        match prev with
        | Some p => if is_digit p then drop_underscores (Some c) l' else None
        | None => None
        end
      else
        let after_underscore :=
          match prev with Some p => is_underscore p | None => false end in
        if after_underscore && negb (is_digit c) then None
        else option_map (cons c) (drop_underscores (Some c) l')
  end.

Definition take_sign (l : list ascii) : bool * list ascii :=
  match l with
  | c :: l' =>
      if Ascii.eqb c "-"%char then (true, l')
      else if Ascii.eqb c "+"%char then (false, l')
      else (false, l)
  | [] => (false, [])
  end.

Fixpoint span_digits (l : list ascii) : list ascii * list ascii :=
  match l with
  | c :: l' =>
      if is_digit c then
        let '(d, r) := span_digits l' in (c :: d, r)
      else ([], l)
  | [] => ([], [])
  end.

Definition digits_val (d : list ascii) : Z :=
  fold_left (fun acc c => 10 * acc + digit_val c) d 0.

(** The optional exponent part; [None] when an [e] is not followed by
    digits, which leaves unparsed characters behind. *)
Definition exponent (l : list ascii) : option (Z * list ascii) :=
  match l with
  | c :: l' =>
      if Ascii.eqb c "e"%char || Ascii.eqb c "E"%char then
        let '(neg, r) := take_sign l' in
        let '(d, r') := span_digits r in
        match d with
        | [] => None
        | _ => Some (if neg then - digits_val d else digits_val d, r')
        end
      else Some (0, l)
  | [] => Some (0, [])
  end.

(** Magnitude of a decimal literal: digits, optional point and digits,
    optional exponent, nothing after. *)
Definition decimal (l : list ascii) : option float :=
  let '(ip, r1) := span_digits l in
  let '(fp, r2) :=
    match r1 with
    | c :: r => if Ascii.eqb c "."%char then span_digits r else ([], r1)
    | [] => ([], [])
    end in
  match ip ++ fp with
  | [] => None
  | m =>
      match exponent r2 with
      | Some (x, []) =>
          Some (Num.float_of_decimal (digits_val m) (x - Z.of_nat (length fp)))
      | _ => None
      end
  end.

Definition special (l : list ascii) : option float :=
  let w := Str.lower (string_of_list_ascii l) in
  if String.eqb w "inf" || String.eqb w "infinity" then Some infinity
  else if String.eqb w "nan" then Some nan
  else None.

Definition parse (s : string) : option float :=
  match drop_underscores None (strip (list_ascii_of_string s)) with
  | None => None
  | Some l =>
      let '(neg, body) := take_sign l in
      let mag :=
        match decimal body with
        | Some f => Some f
        | None => special body
        end in
      option_map (fun f => if neg then (- f)%float else f) mag
  end.

(** [float(s)]: [ValueError] on anything outside the grammar. *)
Definition float (s : string) : result PrimFloat.float :=
  match parse s with
  | Some f => Ok f
  | None => Raise ValueError
  end.

End PyFloat.

(** ** Values decoded from JSON or held in dictionaries *)

#[warnings="-register-all"]
Inductive pyval : Type :=
| VNone
| VBool (b : bool)
| VNum (n : pynum)
| VStr (s : string)
| VList (l : list pyval)
| VDict (d : list (string * pyval)).

Inductive key : Type :=
| KStr (s : string)
| KIdx (i : nat).

Module Py.

Fixpoint assoc (k : string) (d : list (string * pyval)) : option pyval :=
  match d with
  | [] => None
  | (k', v) :: d' => if String.eqb k k' then Some v else assoc k d'
  end.

(** [v[k]] *)
Definition getitem (v : pyval) (k : key) : result pyval :=
  match v, k with
  | VDict d, KStr s =>
      match assoc s d with Some x => Ok x | None => Raise KeyError end
  | VDict _, KIdx _ => Raise KeyError
  | VList l, KIdx i =>
      match l !! i with Some x => Ok x | None => Raise IndexError end
  | VStr s, KIdx i =>
      match String.get i s with
      | Some c => Ok (VStr (String c EmptyString))
      | None => Raise IndexError
      end
  | _, _ => Raise TypeError
  end.

(** [a + b] where [b] is a list *)
Definition add_list (a : pyval) (b : list pyval) : result (list pyval) :=
  match a with
  | VList l => Ok (l ++ b)
  | _ => Raise TypeError
  end.

(** The items of [sep.join(l)]: every one must be a [str]. *)
Fixpoint strings (l : list pyval) : result (list string) :=
  match l with
  | [] => Ok []
  | VStr s :: l' =>
      match strings l' with
      | Ok r => Ok (s :: r)
      | Raise e => Raise e
      end
  | _ :: _ => Raise TypeError
  end.

(** [v.lower()]: only a [str] has the method. *)
Definition lower (v : pyval) : result string :=
  match v with
  | VStr s => Ok (Str.lower s)
  | _ => Raise AttributeError
  end.

(** [needle in v] *)
Definition contains (needle : string) (v : pyval) : result bool :=
  match v with
  | VDict d => Ok (bool_decide (is_Some (assoc needle d)))
  | VList l =>
      Ok (existsb (fun x => match x with
                            | VStr s => String.eqb s needle
                            | _ => false
                            end) l)
  | VStr s => Ok (Str.contains s needle)
  | _ => Raise TypeError
  end.

(** [v == z] for a small integer literal *)
Definition eq_int (v : pyval) (z : Z) : bool :=
  match v with
  | VNum n => Num.eq_int n z
  | VBool b => (if b then 1 else 0) =? z
  | _ => false
  end.

(** [l[1]] and [l[1:]] on a list of strings *)
Definition index {A} (l : list A) (i : nat) : result A :=
  match l !! i with Some x => Ok x | None => Raise IndexError end.

Definition of_option (o : option string) : pyval :=
  match o with Some s => VStr s | None => VNone end.

End Py.

(** ** Messages, environment and world *)

Inductive frag : Type :=
| Txt (s : string)
| Val (v : pyval).

Definition fstring : Type := list frag.

Inductive dest : Type :=
| Chat (c : N)          (* [update.message.reply_text] *)
| Group (g : pyval).    (* [send_message(chat_id=GROUP_ID)] *)

Inductive level : Type := ERROR | WARNING.

Record LogRecord : Type := { lvl : level; what : string; cause : exn }.

Record Env : Type := {
  getenv : string -> option string;
  (** [update.bot.get_chat_member(channel, user).status] *)
  get_chat_member : pyval -> N -> result string;
  (** [requests.get(url).json()] *)
  requests_get_json : fstring -> result pyval;
  (** [Updater(token, use_context=True).bot.send_message(chat_id, text)]:
      the Updater is built and the message goes out, or one of the two
      steps raises *)
  send_message : pyval -> pyval -> string -> result unit;
  (** the n-th draw of the random generator *)
  random_draw : nat -> nat;
}.

(** An update that carries a message: its sender, its chat and its
    text.  (An update without [message] is outside the embedding.) *)
Record Update : Type := { from_user : N; chat_id : N; text : string }.

Record Ledger : Type := { income : pynum; expenses : pynum }.

(** A job of the [schedule] module: [every(interval).minutes.do(f)],
    where [f] replies [job_text] to the message the job was made for. *)
Record Job : Type := {
  interval : N;
  job_chat : N;
  job_text : fstring;
  next_run : N;      (* seconds *)
}.

Record World : Type := {
  finance_data : Ledger;
  user_data : gmap N (gmap string pyval);
  jobs : list Job;
  clock : N;         (* seconds *)
  draws : nat;       (* random draws consumed *)
  outbox : list (dest * fstring);
  logged : list LogRecord;
}.

Definition set_finance_data (l : Ledger) (w : World) : World :=
  {| finance_data := l; user_data := user_data w; jobs := jobs w;
     clock := clock w; draws := draws w; outbox := outbox w;
     logged := logged w |}.

Definition set_user_data (d : gmap N (gmap string pyval)) (w : World) : World :=
  {| finance_data := finance_data w; user_data := d; jobs := jobs w;
     clock := clock w; draws := draws w; outbox := outbox w;
     logged := logged w |}.

Definition set_jobs (j : list Job) (w : World) : World :=
  {| finance_data := finance_data w; user_data := user_data w; jobs := j;
     clock := clock w; draws := draws w; outbox := outbox w;
     logged := logged w |}.

Definition set_clock (c : N) (w : World) : World :=
  {| finance_data := finance_data w; user_data := user_data w; jobs := jobs w;
     clock := c; draws := draws w; outbox := outbox w;
     logged := logged w |}.

Definition set_draws (n : nat) (w : World) : World :=
  {| finance_data := finance_data w; user_data := user_data w; jobs := jobs w;
     clock := clock w; draws := n; outbox := outbox w;
     logged := logged w |}.

Definition set_outbox (o : list (dest * fstring)) (w : World) : World :=
  {| finance_data := finance_data w; user_data := user_data w; jobs := jobs w;
     clock := clock w; draws := draws w; outbox := o;
     logged := logged w |}.

Definition set_logged (l : list LogRecord) (w : World) : World :=
  {| finance_data := finance_data w; user_data := user_data w; jobs := jobs w;
     clock := clock w; draws := draws w; outbox := outbox w;
     logged := l |}.

(** The world at program start: [finance_data = {"income": 0, "expenses": 0}],
    no user data, no jobs. *)
Definition world0 : World :=
  {| finance_data := {| income := NInt 0; expenses := NInt 0 |};
     user_data := ∅; jobs := []; clock := 0%N; draws := 0%nat;
     outbox := []; logged := [] |}.

(** ** Computations: state passing with exceptions *)

Definition M (A : Type) : Type := World -> result A * World.

Definition ret {A} (a : A) : M A := fun w => (Ok a, w).

Definition bind {A B} (m : M A) (k : A -> M B) : M B :=
  fun w =>
    match m w with
    | (Ok a, w') => k a w'
    | (Raise e, w') => (Raise e, w')
    end.

Definition lift {A} (r : result A) : M A := fun w => (r, w).

(** [try: m except <catches> [as e]: h e] *)
Definition try_except {A} (m : M A) (catches : exn -> bool) (h : exn -> M A)
    : M A :=
  fun w =>
    match m w with
    | (Raise e, w') => if catches e then h e w' else (Raise e, w')
    | r => r
    end.

Notation "'let*' x ':=' m 'in' k" := (bind m (fun x => k))
  (at level 10, x name, m at level 100, k at level 200).
Notation "m1 ;; m2" := (bind m1 (fun _ => m2))
  (at level 100, m2 at level 200, right associativity).

(** ** Primitive effects *)

(** A message handed to the transport: recorded in [outbox].  Whether
    the transport delivers it, or raises, is not modelled here; the
    group send of [send_confession_to_group] guards this step with the
    [send_message] oracle. *)
Definition send (d : dest) (t : fstring) : M unit :=
  fun w => (Ok tt, set_outbox (outbox w ++ [(d, t)]) w).

(** [update.message.reply_text(t)] *)
Definition reply_text (u : Update) (t : fstring) : M unit :=
  send (Chat (chat_id u)) t.

Definition log (l : level) (msg : string) (e : exn) : M unit :=
  fun w =>
    (Ok tt, set_logged (logged w ++ [{| lvl := l; what := msg; cause := e |}]) w).

(** [context.user_data] of the sender *)
Definition session (u : Update) (w : World) : gmap string pyval :=
  default ∅ (user_data w !! from_user u).

(** [context.user_data.get(k)] *)
Definition user_data_get (u : Update) (k : string) : M pyval :=
  fun w => (Ok (default VNone (session u w !! k)), w).

(** [context.user_data[k] = v] *)
Definition user_data_set (u : Update) (k : string) (v : pyval) : M unit :=
  fun w =>
    (Ok tt, set_user_data (<[from_user u := <[k := v]> (session u w)]> (user_data w)) w).

(** ** The [schedule] module *)

Module Schedule.

Definition period (j : Job) : N := (60 * interval j)%N.

(** [schedule.every(n).minutes.do(f)]: the job is due one period from
    now and is appended to the scheduler's list. *)
Definition every_minutes_do (n : N) (u : Update) (t : fstring) : M unit :=
  fun w =>
    let j := {| interval := n; job_chat := chat_id u; job_text := t;
                next_run := (clock w + 60 * n)%N |} in
    (Ok tt, set_jobs (jobs w ++ [j]) w).

Definition should_run (now : N) (j : Job) : bool := (next_run j <=? now)%N.

(** Indices of the jobs that are due, in list order. *)
Fixpoint runnable (now : N) (i : nat) (l : list Job) : list nat :=
  match l with
  | [] => []
  | j :: l' =>
      if should_run now j then i :: runnable now (S i) l'
      else runnable now (S i) l'
  end.

Fixpoint insert_by (k : nat -> N) (x : nat) (l : list nat) : list nat :=
  match l with
  | [] => [x]
  | y :: l' => if (k x <? k y)%N then x :: l else y :: insert_by k x l'
  end.

(** [sorted(...)]: stable, by [next_run]. *)
Definition sorted (k : nat -> N) (l : list nat) : list nat :=
  fold_left (fun acc x => insert_by k x acc) l [].

(** [job.run()]: call the job function, then schedule the next run. *)
Definition run_job (i : nat) (w : World) : World :=
  match jobs w !! i with
  | None => w
  | Some j =>
      let w1 := set_outbox (outbox w ++ [(Chat (job_chat j), job_text j)]) w in
      let j' := {| interval := interval j; job_chat := job_chat j;
                   job_text := job_text j;
                   next_run := (clock w + period j)%N |} in
      set_jobs (<[i := j']> (jobs w1)) w1
  end.

(** [schedule.run_pending()] *)
Definition run_pending (w : World) : World :=
  let due := runnable (clock w) 0 (jobs w) in
  let k i := match jobs w !! i with Some j => next_run j | None => 0%N end in
  fold_left (fun w i => run_job i w) (sorted k due) w.

(** [time.sleep(1)] *)
Definition sleep1 (w : World) : World := set_clock (clock w + 1)%N w.

(** What a job is, apart from when it runs next. *)
Definition spec (j : Job) : N * N * fstring :=
  (interval j, job_chat j, job_text j).

End Schedule.

(** ** The handlers *)

Inductive outcome : Type :=
| Returned
| Raised (e : exn)
| Looping.     (* still inside [while True] when the fuel ran out *)

Definition run (m : M unit) (w : World) : outcome * World :=
  match m w with
  | (Ok _, w') => (Returned, w')
  | (Raise e, w') => (Raised e, w')
  end.

Definition lit (s : string) : fstring := [Txt s].

Section Handlers.

Variable env : Env.

Definition CHANNEL_LINK : pyval := Py.of_option (getenv env "CHANNEL_LINK").
Definition TOKEN : pyval := Py.of_option (getenv env "TELEGRAM_TOKEN").
Definition GROUP_ID : pyval := Py.of_option (getenv env "GROUP_ID").

(** [send_confession_to_group]: a fresh [Updater] is built from [TOKEN]
    and its bot sends to [GROUP_ID]; the message is out only when both
    steps went through. *)
Definition send_confession_to_group (confession : string) : M unit :=
  lift (send_message env TOKEN GROUP_ID confession) ;;
  send (Group GROUP_ID) (lit confession).

Definition member_statuses : list string :=
  ["member"; "administrator"; "creator"].

Definition is_member_status (s : string) : bool :=
  existsb (String.eqb s) member_statuses.

(** [check_channel_member] *)
Definition check_channel_member (u : Update) : M bool :=
  try_except
    (let* status := lift (get_chat_member env CHANNEL_LINK (from_user u)) in
     ret (is_member_status status))
    (fun _ => true)
    (fun e =>
       log ERROR "Error checking channel membership: " e ;;
       ret false).

Definition join_prompt : fstring :=
  [Txt "Please join the channel first: "; Val CHANNEL_LINK].

(** The opening lines shared by every command handler:
    [if not check_channel_member(update): reply; return]. *)
Definition gated (u : Update) (body : M unit) : M unit :=
  let* ok := check_channel_member u in
  if negb ok then reply_text u join_prompt else body.

Definition welcome : string :=
  "Welcome to Super Bot! Choose a feature: /quiz, /finance, /study, /weather, /music, /fitness, /language, /confession".

(** [start] *)
Definition start (u : Update) (args : list string) : M unit :=
  gated u (reply_text u (lit welcome)).

(** [confession] *)
Definition confession (u : Update) (args : list string) : M unit :=
  gated u
    (let confession_text := Str.join " " args in
     if Str.truthy confession_text then
       send_confession_to_group confession_text ;;
       reply_text u (lit "Your confession has been sent anonymously!")
     else
       reply_text u (lit "Please provide a confession after the command.")).

(** [random.shuffle(x)]: for [i] from [len(x) - 1] down to 1, swap
    [x[i]] with [x[j]] for a random [j <= i]. *)
Definition swap (i j : nat) (x : list pyval) : list pyval :=
  match x !! i, x !! j with
  | Some a, Some b => <[j := a]> (<[i := b]> x)
  | _, _ => x
  end.

Fixpoint shuffle_from (i : nat) (x : list pyval) (n : nat)
    : list pyval * nat :=
  match i with
  | O => (x, n)
  | S i' =>
      let j := (random_draw env n mod (S i))%nat in
      shuffle_from i' (swap i j x) (S n)
  end.

Definition shuffle (x : list pyval) : M (list pyval) :=
  fun w =>
    let '(x', n) := shuffle_from (length x - 1) x (draws w) in
    (Ok x', set_draws n w).

Definition quiz_url : fstring :=
  lit "https://opentdb.com/api.php?amount=1&type=multiple".

(** [quiz] *)
Definition quiz (u : Update) (args : list string) : M unit :=
  gated u
    (let* question_data := lift (requests_get_json env quiz_url) in
     let* results := lift (Py.getitem question_data (KStr "results")) in
     let* question := lift (Py.getitem results (KIdx 0)) in
     let* question_text := lift (Py.getitem question (KStr "question")) in
     let* incorrect := lift (Py.getitem question (KStr "incorrect_answers")) in
     let* correct := lift (Py.getitem question (KStr "correct_answer")) in
     let* options := lift (Py.add_list incorrect [correct]) in
     let* correct_answer := lift (Py.getitem question (KStr "correct_answer")) in
     let* options := shuffle options in
     let* shown := lift (Py.strings options) in
     reply_text u
       [Txt "Question: "; Val question_text;
        Txt (String Str.newline "Options: "); Txt (Str.join ", " shown)] ;;
     user_data_set u "correct_answer" correct_answer).

Definition incorrect_prefix : string := "Incorrect! The correct answer was: ".

(** [check_answer] *)
Definition check_answer (u : Update) : M unit :=
  let user_answer := text u in
  let* correct_answer := user_data_get u "correct_answer" in
  let* lowered := lift (Py.lower correct_answer) in
  if String.eqb (Str.lower user_answer) lowered then
    reply_text u (lit "Correct!")
  else
    reply_text u [Txt incorrect_prefix; Val correct_answer].

(** The [except (ValueError, IndexError)] clause of [finance] *)
Definition bad_amount (e : exn) : bool :=
  match e with
  | ValueError | IndexError => true
  | _ => false
  end.

(** [finance_data["income"] += amount] *)
Definition add_income (amount : float) : M pynum :=
  fun w =>
    let l := finance_data w in
    match Num.add (income l) (NFloat amount) with
    | Ok t => (Ok t, set_finance_data {| income := t; expenses := expenses l |} w)
    | Raise e => (Raise e, w)
    end.

(** [finance_data["expenses"] += amount] *)
Definition add_expense (amount : float) : M pynum :=
  fun w =>
    let l := finance_data w in
    match Num.add (expenses l) (NFloat amount) with
    | Ok t => (Ok t, set_finance_data {| income := income l; expenses := t |} w)
    | Raise e => (Raise e, w)
    end.

Definition get_balance : M pynum :=
  fun w => (Num.sub (income (finance_data w)) (expenses (finance_data w)), w).

Definition usage_finance : string :=
  "Use /finance income <amount>, /finance expense <amount>, or /finance balance.".

(** [" ".join(context.args).lower()] *)
Definition command_of (args : list string) : string :=
  Str.lower (Str.join " " args).

(** [finance] after the gate *)
Definition finance_body (u : Update) (args : list string) : M unit :=
  let command := command_of args in
  if Str.startswith command "income" then
    try_except
      (let* token := lift (Py.index (Str.split Str.space command) 1) in
       let* amount := lift (PyFloat.float token) in
       let* total := add_income amount in
       reply_text u
         [Txt "Income of "; Val (VNum (NFloat amount));
          Txt " added. Total income: "; Val (VNum total)])
      bad_amount
      (fun _ => reply_text u (lit "Please provide a valid income amount."))
  else if Str.startswith command "expense" then
    try_except
      (let* token := lift (Py.index (Str.split Str.space command) 1) in
       let* amount := lift (PyFloat.float token) in
       let* total := add_expense amount in
       reply_text u
         [Txt "Expense of "; Val (VNum (NFloat amount));
          Txt " added. Total expenses: "; Val (VNum total)])
      bad_amount
      (fun _ => reply_text u (lit "Please provide a valid expense amount."))
  else if String.eqb command "balance" then
    let* balance := get_balance in
    reply_text u [Txt "Your balance is: "; Val (VNum balance)]
  else
    reply_text u (lit usage_finance).

(** [finance] *)
Definition finance (u : Update) (args : list string) : M unit :=
  gated u (finance_body u args).

Definition work_over : fstring := lit "Work session is over. Take a 5-minute break!".
Definition break_over : fstring := lit "Break time is over. Time to work!".

(** [study] up to its loop: [true] when the loop is entered. *)
Definition study_setup (u : Update) : M bool :=
  let* ok := check_channel_member u in
  if negb ok then reply_text u join_prompt ;; ret false
  else
    Schedule.every_minutes_do 25 u work_over ;;
    Schedule.every_minutes_do 5 u break_over ;;
    reply_text u
      (lit "Pomodoro timer started! Work for 25 minutes, then take a 5-minute break.") ;;
    ret true.

(** One turn of [while True: schedule.run_pending(); time.sleep(1)] *)
Definition study_turn (w : World) : World :=
  Schedule.sleep1 (Schedule.run_pending w).

(** [study]: the loop has no exit, so after any number [fuel] of turns
    the handler is still [Looping]. *)
Definition study (u : Update) (args : list string) (fuel : nat) (w : World)
    : outcome * World :=
  match study_setup u w with
  | (Ok true, w') => (Looping, Nat.iter fuel study_turn w')
  | (Ok false, w') => (Returned, w')
  | (Raise e, w') => (Raised e, w')
  end.

Definition WEATHER_API_KEY : pyval := Py.of_option (getenv env "WEATHER_API_KEY").
Definition LASTFM_API_KEY : pyval := Py.of_option (getenv env "LASTFM_API_KEY").

Definition weather_url (city : string) : fstring :=
  [Txt "http://api.openweathermap.org/data/2.5/weather?q="; Val (VStr city);
   Txt "&appid="; Val WEATHER_API_KEY; Txt "&units=metric"].

(** [weather] *)
Definition weather (u : Update) (args : list string) : M unit :=
  gated u
    (let city := Str.join " " args in
     if negb (Str.truthy city) then
       reply_text u (lit "Please provide a city name.")
     else
       let* weather_data := lift (requests_get_json env (weather_url city)) in
       let* cod := lift (Py.getitem weather_data (KStr "cod")) in
       if Py.eq_int cod 200 then
         let* main := lift (Py.getitem weather_data (KStr "main")) in
         let* w0 := lift (Py.getitem weather_data (KStr "weather")) in
         let* w1 := lift (Py.getitem w0 (KIdx 0)) in
         let* weather_desc := lift (Py.getitem w1 (KStr "description")) in
         let* temperature := lift (Py.getitem main (KStr "temp")) in
         reply_text u
           [Txt "Weather in "; Val (VStr city);
            Txt (String ":" (String Str.newline ""));
            Val weather_desc; Txt (String Str.newline "Temperature: ");
            Val temperature; Txt (String (ascii_of_N 176) "C")]
       else
         reply_text u (lit "City not found!")).

Definition music_url (genre : string) : fstring :=
  [Txt "http://ws.audioscrobbler.com/2.0/?method=tag.gettoptracks&tag=";
   Val (VStr genre); Txt "&api_key="; Val LASTFM_API_KEY; Txt "&format=json"].

(** [music] *)
Definition music (u : Update) (args : list string) : M unit :=
  gated u
    (let genre := Str.join " " args in
     if negb (Str.truthy genre) then
       reply_text u (lit "Please provide a genre (e.g., /music pop).")
     else
       let* music_data := lift (requests_get_json env (music_url genre)) in
       let* failed := lift (Py.contains "error" music_data) in
       if failed then
         reply_text u (lit "Could not find music for that genre.")
       else
         let* t0 := lift (Py.getitem music_data (KStr "tracks")) in
         let* t1 := lift (Py.getitem t0 (KStr "track")) in
         let* t2 := lift (Py.getitem t1 (KIdx 0)) in
         let* track := lift (Py.getitem t2 (KStr "name")) in
         let* a0 := lift (Py.getitem music_data (KStr "tracks")) in
         let* a1 := lift (Py.getitem a0 (KStr "track")) in
         let* a2 := lift (Py.getitem a1 (KIdx 0)) in
         let* a3 := lift (Py.getitem a2 (KStr "artist")) in
         let* artist := lift (Py.getitem a3 (KStr "name")) in
         reply_text u
           [Txt "Top "; Val (VStr genre); Txt " track: "; Val track;
            Txt " by "; Val artist]).

(** [fitness] *)
Definition fitness (u : Update) (args : list string) : M unit :=
  gated u
    (let command := Str.lower (Str.join " " args) in
     if Str.startswith command "log" then
       let workout := Str.join " " (drop 1 (Str.split Str.space command)) in
       reply_text u [Txt "Workout '"; Val (VStr workout); Txt "' logged!"]
     else
       reply_text u (lit "Use /fitness log <workout> to log a workout.")).

Definition word_url : fstring :=
  lit "https://api.dictionaryapi.dev/api/v2/entries/en/<word>".

(** [get_word_of_the_day] *)
Definition get_word_of_the_day : M pyval :=
  let* word_data := lift (requests_get_json env word_url) in
  lift (Py.getitem word_data (KStr "word")).

(** [language] *)
Definition language (u : Update) (args : list string) : M unit :=
  gated u
    (let* word_of_the_day := get_word_of_the_day in
     reply_text u [Txt "Word of the Day: "; Val word_of_the_day]).

(** [error]: the callback the dispatcher runs on an exception that left
    a handler. *)
Definition error (u : Update) (e : exn) : M unit :=
  log WARNING "Update caused error" e.

(** *** [main]: the dispatcher's handler table *)

Definition Handler : Type :=
  Update -> list string -> nat -> World -> outcome * World.

Definition plain (h : Update -> list string -> M unit) : Handler :=
  fun u args _ w => run (h u args) w.

(** The [CommandHandler]s in the order [main] adds them. *)
Definition command_handlers : list (string * Handler) :=
  [("start", plain start);
   ("confession", plain confession);
   ("quiz", plain quiz);
   ("finance", plain finance);
   ("study", study);
   ("weather", plain weather);
   ("music", plain music);
   ("fitness", plain fitness);
   ("language", plain language)].

Fixpoint find_handler (name : string) (l : list (string * Handler))
    : option Handler :=
  match l with
  | [] => None
  | (n, h) :: l' => if String.eqb name n then Some h else find_handler name l'
  end.

Inductive event : Type :=
| Command (name : string) (args : list string)
| Text.                  (* [filters.text & ~filters.command] *)

(** The handler an event is routed to; free text always goes to
    [check_answer]. *)
Definition route (ev : event) : option (Update -> nat -> World -> outcome * World) :=
  match ev with
  | Command name args =>
      match find_handler name command_handlers with
      | Some h => Some (fun u => h u args)
      | None => None
      end
  | Text => Some (fun u _ => run (check_answer u))
  end.

(** One update through the dispatcher: an exception that leaves the
    handler goes to [error] and is not raised further. *)
Definition dispatch (ev : event) (u : Update) (fuel : nat) (w : World)
    : outcome * World :=
  match route ev with
  | None => (Returned, w)
  | Some h =>
      match h u fuel w with
      | (Raised e, w') => run (error u e) w'
      | r => r
      end
  end.

End Handlers.


(** What the membership collaborator answered for the sender. *)
Definition membership (env : Env) (u : Update) : result string :=
  get_chat_member env (CHANNEL_LINK env) (from_user u).

(** The collaborator failed, or reported a status outside the three
    member statuses. *)
Definition refused (r : result string) : Prop :=
  match r with
  | Raise _ => True
  | Ok s => ~ In s member_statuses
  end.

(** The collaborator reported one of the member statuses. *)
Definition admitted (r : result string) : Prop :=
  match r with
  | Raise _ => False
  | Ok s => In s member_statuses
  end.

(** The record [check_channel_member] logs when the collaborator raises. *)
Definition gate_log (e : exn) : LogRecord :=
  {| lvl := ERROR; what := "Error checking channel membership: "; cause := e |}.

(** The world a sender leaves the gate with: the same, plus one log
    record when the collaborator raised. *)
Definition after_gate (env : Env) (u : Update) (w : World) : World :=
  match membership env u with
  | Ok _ => w
  | Raise e => set_logged (logged w ++ [gate_log e]) w
  end.

(** ** Sample collaborators and updates *)

Module Sample.

Definition trivia : pyval :=
  VDict [("response_code", VNum (NInt 0));
         ("results",
          VList [VDict [("question", VStr "What is the capital of France?");
                        ("correct_answer", VStr "Paris");
                        ("incorrect_answers",
                         VList [VStr "Rome"; VStr "Oslo"; VStr "Bern"])]])].

Definition environ (k : string) : option string :=
  if String.eqb k "CHANNEL_LINK" then Some "@superbot"
  else if String.eqb k "TELEGRAM_TOKEN" then Some "123456:token"
  else if String.eqb k "GROUP_ID" then Some "-1001234567890"
  else None.

(** The sender is a member and the trivia service answers. *)
Definition env_member : Env :=
  {| getenv := environ;
     get_chat_member := fun _ _ => Ok "member";
     requests_get_json := fun _ => Ok trivia;
     send_message := fun _ _ _ => Ok tt;
     random_draw := fun n => n |}.

(** The sender has left the channel. *)
Definition env_left : Env :=
  {| getenv := environ;
     get_chat_member := fun _ _ => Ok "left";
     requests_get_json := fun _ => Ok trivia;
     send_message := fun _ _ _ => Ok tt;
     random_draw := fun n => n |}.

(** The membership query fails. *)
Definition env_down : Env :=
  {| getenv := environ;
     get_chat_member := fun _ _ => Raise (External "NetworkError");
     requests_get_json := fun _ => Ok trivia;
     send_message := fun _ _ _ => Ok tt;
     random_draw := fun n => n |}.

(** The sender is a member and every HTTP request fails. *)
Definition env_offline : Env :=
  {| getenv := environ;
     get_chat_member := fun _ _ => Ok "member";
     requests_get_json := fun _ => Raise (External "ConnectionError");
     send_message := fun _ _ _ => Ok tt;
     random_draw := fun n => n |}.

(** The sender is a member and the group cannot be reached. *)
Definition env_group_down : Env :=
  {| getenv := environ;
     get_chat_member := fun _ _ => Ok "member";
     requests_get_json := fun _ => Ok trivia;
     send_message := fun _ _ _ => Raise (External "NetworkError");
     random_draw := fun n => n |}.

Definition says (t : string) : Update :=
  {| from_user := 7%N; chat_id := 7%N; text := t |}.

End Sample.

(** ** The ledger seen from outside *)

(** The amount the [try] block of [finance] obtains from the arguments:
    [None] when the command has no second piece ([IndexError]) or when
    [float] rejects it ([ValueError]). *)
Definition amount_of (args : list string) : option float :=
  match Str.split Str.space (command_of args) !! 1%nat with
  | Some token => PyFloat.parse token
  | None => None
  end.

(** The gate lets the sender in. *)
Definition lets_in (env : Env) (u : Update) : bool :=
  match membership env u with
  | Ok s => is_member_status s
  | Raise _ => false
  end.

Definition call : Type := Env * Update * list string.

(** A sequence of [/finance] commands, each with the collaborators it
    meets. *)
Definition finance_seq (calls : list call) (w : World) : World :=
  fold_left (fun w (c : call) => snd (finance c.1.1 c.1.2 c.2 w)) calls w.

(** The amount an income sub-command adds, if the call is one that adds. *)
Definition income_amount (c : call) : option float :=
  if lets_in c.1.1 c.1.2 && Str.startswith (command_of c.2) "income"
  then amount_of c.2 else None.

Definition expense_amount (c : call) : option float :=
  if lets_in c.1.1 c.1.2 && negb (Str.startswith (command_of c.2) "income")
     && Str.startswith (command_of c.2) "expense"
  then amount_of c.2 else None.

(** A total that started as the integer 0 and had [l] added to it. *)
Definition total (l : list float) : pynum :=
  match l with
  | [] => NInt 0
  | _ => NFloat (fold_left PrimFloat.add l 0%float)
  end.

(** The totals the program can hold: the initial [0] or a float. *)
Definition total_ok (t : pynum) : Prop :=
  t = NInt 0 \/ exists f, t = NFloat f.

Definition as_float (t : pynum) : float :=
  match t with
  | NInt _ => 0%float
  | NFloat f => f
  end.

Definition plus (t : pynum) (a : float) : pynum :=
  NFloat (as_float t + a)%float.

(** An amount that compares at or above zero. *)
Definition nonneg (a : float) : bool := (0 <=? a)%float.

(** ** Events and what a run sends *)

(** The event is the command [name]. *)
Definition is_command (name : string) (ev : event) : bool :=
  match ev with
  | Command n _ => String.eqb n name
  | Text => false
  end.

(** What a run added to the outbox. *)
Definition sent (w w' : World) (l : list (dest * fstring)) : Prop :=
  outbox w' = outbox w ++ l.

(** The messages of a list that went to a chat, with the chat. *)
Definition chat_messages (l : list (dest * fstring)) : list (N * fstring) :=
  omap (fun m : dest * fstring =>
          match m.1 with
          | Chat c => Some (c, m.2)
          | Group _ => None
          end) l.

(** What every handler but [study] leaves alone, whatever it returns. *)
Definition frame3 (w w' : World) : Prop :=
  finance_data w' = finance_data w /\ user_data w' = user_data w /\
  jobs w' = jobs w.

(** A plain handler that returns has sent exactly one message to a
    chat, the sender's. *)
Definition answers (u : Update) (m : M unit) : Prop :=
  forall w w',
    m w = (Ok tt, w') ->
    exists l t, sent w w' l /\ chat_messages l = [(chat_id u, t)].

(** One update through the dispatcher, with the collaborators it meets
    and, for [study], the number of loop turns observed. *)
Definition step : Type := Env * event * Update * nat.

Definition run_events (steps : list step) (w : World) : World :=
  fold_left (fun w (s : step) => snd (dispatch s.1.1.1 s.1.1.2 s.1.2 s.2 w))
            steps w.

(** A string without a space, as every item of [context.args] is. *)
Definition spaceless (s : string) : bool :=
  forallb (fun c => negb (Ascii.eqb c Str.space)) (list_ascii_of_string s).

(** The messages of a list that went to the group, with the group. *)
Definition group_messages (l : list (dest * fstring)) : list (pyval * fstring) :=
  omap (fun m : dest * fstring =>
          match m.1 with
          | Group g => Some (g, m.2)
          | Chat _ => None
          end) l.

(** What [check_answer] replies to the text [t] when [ans] is stored. *)
Definition verdict (ans t : string) : fstring :=
  if Str.eq_upto_case t ans then lit "Correct!"
  else [Txt incorrect_prefix; Val (VStr ans)].

(** A run of free-text messages, each through [check_answer]. *)
Definition answer_all (us : list Update) (w : World) : World :=
  fold_left (fun w u => snd (check_answer u w)) us w.

(** A character that can begin the magnitude of an amount: not a space
    of [float]'s, not a sign, not an underscore. *)
Definition plain_start (c : ascii) : bool :=
  negb (PyFloat.is_space c) && negb (Ascii.eqb c "-"%char)
  && negb (Ascii.eqb c "+"%char) && negb (PyFloat.is_underscore c).

(** A turn number that is a positive multiple of the period. *)
Definition due (period k : N) : bool := (0 <? k)%N && (k mod period =? 0)%N.

(** The Pomodoro messages the loop of [study] sends to chat [c] in its
    turn number [k] (from 0), when no other job is registered: the
    work-session-over message every 1500 turns, the break-over message
    every 300. *)
Definition fired (c : N) (k : nat) : list (dest * fstring) :=
  (if due 1500 (N.of_nat k) then [(Chat c, work_over)] else []) ++
  (if due 300 (N.of_nat k) then [(Chat c, break_over)] else []).

(** When a job of the given period, registered at time 0, runs next
    after [n] turns. *)
Definition next_due (period : N) (n : N) : N :=
  (period * (1 + (n - 1) / period))%N.

(** ** Sample payloads of the weather, music and dictionary services *)

Definition sample_not_found : pyval :=
  VDict [("cod", VStr "404"); ("message", VStr "city not found")].

Definition sample_music_error : pyval :=
  VDict [("error", VNum (NInt 6)); ("message", VStr "Tag not found")].

Definition env_with (payload : pyval) : Env :=
  {| getenv := Sample.environ;
     get_chat_member := fun _ _ => Ok "member";
     requests_get_json := fun _ => Ok payload;
     send_message := fun _ _ _ => Ok tt;
     random_draw := fun n => n |}.

(** ** Amounts as the specification and as [float] see them *)

(** What the specification admits as an amount, in its words a
    non-negative decimal number: digits, with an optional point and
    more digits. *)
Definition spec_amount (s : string) : bool :=
  match PyFloat.span_digits (list_ascii_of_string s) with
  | (_ :: _, []) => true
  | (_ :: _, c :: fp) =>
      Ascii.eqb c "."%char && negb (forallb (fun _ => false) fp)
      && forallb PyFloat.is_digit fp
  | _ => false
  end.

(** The letters and signs of a float literal, in lower case: the signs,
    the point, the underscore, the exponent letter and the letters of
    inf, infinity and nan. *)
Definition float_marks : list ascii := list_ascii_of_string "+-._eainfty".

(** A character that can occur in a string [float] accepts: white space
    at the ends, a digit, or one of the marks in either case. *)
Definition float_char (c : ascii) : bool :=
  PyFloat.is_space c || PyFloat.is_digit c
  || existsb (Ascii.eqb (Str.lower_char c)) float_marks.

(** * Properties *)

(** ** Text *)

Section StrFacts.

Lemma all_ascii_complete (c : ascii) : In c Str.all_ascii.
Proof.
  unfold Str.all_ascii. rewrite <- (ascii_nat_embedding c).
  apply in_map, in_seq. pose proof (nat_ascii_bounded c). lia.
Qed.

Lemma lower_char_same_letter_all :
  forallb (fun a => forallb (fun b =>
    Bool.eqb (Ascii.eqb (Str.lower_char a) (Str.lower_char b))
             (Str.same_letter a b)) Str.all_ascii) Str.all_ascii = true.
Proof. vm_compute. reflexivity. Qed.

Lemma lower_char_same_letter (a b : ascii) :
  Ascii.eqb (Str.lower_char a) (Str.lower_char b) = Str.same_letter a b.
Proof.
  pose proof lower_char_same_letter_all as H.
  rewrite forallb_forall in H. specialize (H a (all_ascii_complete a)).
  rewrite forallb_forall in H. specialize (H b (all_ascii_complete b)).
  apply Bool.eqb_prop in H. exact H.
Qed.

(** Comparing the lower-cased strings is comparing up to letter case. *)
Lemma lower_eqb_upto_case (s t : string) :
  String.eqb (Str.lower s) (Str.lower t) = Str.eq_upto_case s t.
Proof.
  revert t. induction s as [|a s IH]; intros [|b t]; simpl; try reflexivity.
  rewrite lower_char_same_letter, IH.
  destruct (Str.same_letter a b); reflexivity.
Qed.


Lemma eq_upto_case_refl (s : string) : Str.eq_upto_case s s = true.
Proof.
  rewrite <- lower_eqb_upto_case. apply String.eqb_refl.
Qed.

End StrFacts.

(** ** The membership gate *)

Section GateFacts.

Variable env : Env.

Lemma check_channel_member_ok (u : Update) (w : World) (s : string) :
  membership env u = Ok s ->
  check_channel_member env u w = (Ok (is_member_status s), w).
Proof.
  unfold membership, check_channel_member, try_except, bind, lift, ret.
  intros ->. reflexivity.
Qed.

Lemma check_channel_member_raise (u : Update) (w : World) (e : exn) :
  membership env u = Raise e ->
  check_channel_member env u w =
    (Ok false, set_logged (logged w ++ [gate_log e]) w).
Proof.
  unfold membership, check_channel_member, try_except, bind, lift, ret, log.
  intros ->. reflexivity.
Qed.

Lemma is_member_status_In (s : string) :
  is_member_status s = true <-> In s member_statuses.
Proof.
  unfold is_member_status. rewrite existsb_exists. split.
  - intros (x & Hx & Heq). apply String.eqb_eq in Heq. now subst.
  - intros H. exists s. split; [exact H | apply String.eqb_refl].
Qed.

Lemma check_channel_member_admitted (u : Update) (w : World) :
  admitted (membership env u) ->
  check_channel_member env u w = (Ok true, w).
Proof.
  destruct (membership env u) as [s|e] eqn:E; simpl; [|tauto].
  intros H. apply is_member_status_In in H.
  rewrite (check_channel_member_ok u w s E), H. reflexivity.
Qed.

Lemma check_channel_member_refused (u : Update) (w : World) :
  refused (membership env u) ->
  check_channel_member env u w = (Ok false, after_gate env u w).
Proof.
  unfold after_gate.
  destruct (membership env u) as [s|e] eqn:E; simpl; intros H.
  - rewrite (check_channel_member_ok u w s E).
    destruct (is_member_status s) eqn:Es; [|reflexivity].
    apply is_member_status_In in Es. contradiction.
  - apply check_channel_member_raise, E.
Qed.

Lemma gated_admitted (u : Update) (body : M unit) (w : World) :
  admitted (membership env u) -> gated env u body w = body w.
Proof.
  intros H. unfold gated, bind.
  rewrite (check_channel_member_admitted u w H). reflexivity.
Qed.

Lemma gated_refused (u : Update) (body : M unit) (w : World) :
  refused (membership env u) ->
  gated env u body w =
    (Ok tt, set_outbox (outbox (after_gate env u w)
                        ++ [(Chat (chat_id u), join_prompt env)])
              (after_gate env u w)).
Proof.
  intros H. unfold gated, bind.
  rewrite (check_channel_member_refused u w H). reflexivity.
Qed.

End GateFacts.

(** ** Shuffling and joining the options *)

Section OptionFacts.

Variable env : Env.




End OptionFacts.

(** ** The quiz slot *)

Section QuizFacts.

Variable env : Env.



(** [check_answer] when the slot holds a string. *)
Lemma check_answer_stored (u : Update) (w : World) (ans : string) :
  session u w !! "correct_answer" = Some (VStr ans) ->
  check_answer u w =
    (Ok tt,
     set_outbox (outbox w ++
                 [(Chat (chat_id u),
                   if Str.eq_upto_case (text u) ans then lit "Correct!"
                   else [Txt incorrect_prefix; Val (VStr ans)])]) w).
Proof.
  intros H. unfold check_answer, bind, user_data_get, lift.
  rewrite H. simpl. rewrite lower_eqb_upto_case.
  destruct (Str.eq_upto_case (text u) ans); reflexivity.
Qed.

(** [check_answer] when the slot is empty: [None.lower()]. *)
Lemma check_answer_empty (u : Update) (w : World) :
  session u w !! "correct_answer" = None ->
  check_answer u w = (Raise AttributeError, w).
Proof.
  intros H. unfold check_answer, bind, user_data_get, lift.
  rewrite H. reflexivity.
Qed.

Lemma check_answer_frame (u : Update) (w : World) :
  let w' := snd (check_answer u w) in
  user_data w' = user_data w /\ finance_data w' = finance_data w /\
  jobs w' = jobs w.
Proof.
  unfold check_answer, bind, user_data_get, lift. simpl.
  destruct (Py.lower _); simpl; [|auto].
  destruct (String.eqb _ _); simpl; auto.
Qed.

End QuizFacts.

(** ** Quiz and answer *)



(** C2: in a session where no quiz answer was ever stored, a free-text
    message makes [check_answer] raise [AttributeError] (the method
    [lower] is called on [None]); no reply is sent, and the dispatcher
    only logs the exception. *)
Theorem check_answer_without_quiz_raises :
  session (Sample.says "hello") world0 !! "correct_answer" = None /\
  check_answer (Sample.says "hello") world0 = (Raise AttributeError, world0) /\
  outbox (snd (dispatch Sample.env_member Text (Sample.says "hello") 0 world0)) = [] /\
  logged (snd (dispatch Sample.env_member Text (Sample.says "hello") 0 world0))
    = [{| lvl := WARNING; what := "Update caused error"; cause := AttributeError |}].
Proof.
  split; [reflexivity|]. split; [|split]; vm_compute; reflexivity.
Qed.

(** C3 as stated fails: after [quiz] stored "Paris", the matching answer
    "paris" is told "Correct!" and the slot still holds "Paris". *)
Lemma answer_slot_survives_match :
  let w1 := snd (quiz Sample.env_member (Sample.says "/quiz") [] world0) in
  let w2 := snd (check_answer (Sample.says "paris") w1) in
  session (Sample.says "paris") w1 !! "correct_answer" = Some (VStr "Paris") /\
  outbox w2 = outbox w1 ++ [(Chat 7%N, lit "Correct!")] /\
  session (Sample.says "paris") w2 !! "correct_answer" = Some (VStr "Paris") /\
  session (Sample.says "paris") w2 !! "correct_answer" <> None.
Proof.
  cbv zeta. repeat split; try (vm_compute; reflexivity).
  vm_compute. discriminate.
Qed.

(** C3, amended: [check_answer] never writes to the user data, so after
    it has evaluated a free-text message, matched or not, every session's
    slot holds what it held before; the ledger and the jobs are untouched
    as well. *)
Theorem check_answer_keeps_slot (u : Update) (w : World) :
  (forall u', session u' (snd (check_answer u w)) = session u' w) /\
  finance_data (snd (check_answer u w)) = finance_data w /\
  jobs (snd (check_answer u w)) = jobs w.
Proof.
  destruct (check_answer_frame u w) as (Hu & Hf & Hj).
  split; [|split]; try assumption.
  intros u'. unfold session. rewrite Hu. reflexivity.
Qed.

(** ** Order of binary64 addition *)

Section RoundingOrder.

Lemma digits2_log2 (p : positive) : Zpos (digits2_pos p) = Z.log2 (Zpos p) + 1.
Proof.
  induction p as [p IH|p IH|]; simpl digits2_pos.
  - rewrite Pos2Z.inj_succ, IH. change (Zpos p~1) with (2 * Zpos p + 1).
    rewrite Z.log2_succ_double by lia. lia.
  - rewrite Pos2Z.inj_succ, IH. change (Zpos p~0) with (2 * Zpos p).
    rewrite Z.log2_double by lia. lia.
  - reflexivity.
Qed.

Lemma digits2_bounds (p : positive) : 2 ^ (Zpos (digits2_pos p) - 1) <= Zpos p < 2 ^ Zpos (digits2_pos p).
Proof.
  rewrite digits2_log2. replace (Z.log2 (Zpos p) + 1 - 1) with (Z.log2 (Zpos p)) by lia.
  replace (Z.log2 (Zpos p) + 1) with (Z.succ (Z.log2 (Zpos p))) by lia.
  apply Z.log2_spec. lia.
Qed.

Lemma digits2_mono (p q : positive) : Zpos p <= Zpos q -> Zpos (digits2_pos p) <= Zpos (digits2_pos q).
Proof.
  intros H. rewrite !digits2_log2. pose proof (Z.log2_le_mono _ _ H). lia.
Qed.

Lemma iter_xO (m d : positive) : Zpos (Pos.iter xO m d) = Zpos m * 2 ^ Zpos d.
Proof.
  induction d as [|d IH] using Pos.peano_ind.
  - simpl. lia.
  - rewrite Pos.iter_succ, Pos2Z.inj_xO, IH, Pos2Z.inj_succ, Z.pow_succ_r by lia. lia.
Qed.

Lemma shl_align_val (m : positive) (e e' : Z) :
  e' <= e -> Zpos (fst (shl_align m e e')) = Zpos m * 2 ^ (e - e').
Proof.
  intros H. unfold shl_align. destruct (e' - e) as [|d|d] eqn:E; simpl fst.
  - replace (e - e') with 0 by lia. lia.
  - lia.
  - rewrite iter_xO. f_equal. f_equal. lia.
Qed.

Lemma shl_align_id (m : positive) (e e' : Z) :
  e <= e' -> shl_align m e e' = (m, e).
Proof.
  intros H. unfold shl_align. destruct (e' - e) as [|d|d] eqn:E; try reflexivity. lia.
Qed.

Lemma shr_1_m (mrs : shr_record) : 0 <= shr_m mrs -> shr_m (shr_1 mrs) = shr_m mrs / 2.
Proof.
  destruct mrs as [m r s]. simpl. intros H.
  destruct m as [|[p|p|]|p]; simpl; try reflexivity; try lia.
  - change (Zpos p~1) with (2 * Zpos p + 1).
    apply Z.div_unique with 1; lia.
  - change (Zpos p~0) with (2 * Zpos p).
    apply Z.div_unique with 0; lia.
Qed.

Lemma iter_shr_1_m (p : positive) (mrs : shr_record) :
  0 <= shr_m mrs -> shr_m (SpecFloat.iter_pos shr_1 p mrs) = shr_m mrs / 2 ^ Zpos p.
Proof.
  revert mrs. induction p as [p IH|p IH|]; intros mrs H; simpl SpecFloat.iter_pos.
  - assert (H1 : 0 <= shr_m (shr_1 mrs))
      by (rewrite shr_1_m by assumption; apply Z.div_pos; lia).
    assert (H2 : 0 <= shr_m (SpecFloat.iter_pos shr_1 p (shr_1 mrs)))
      by (rewrite IH by assumption; apply Z.div_pos; lia).
    assert (E : 2 ^ Zpos p~1 = 2 * (2 ^ Zpos p * 2 ^ Zpos p)).
    { replace (Zpos p~1) with (1 + Zpos p + Zpos p) by lia.
      rewrite !Z.pow_add_r by lia. lia. }
    rewrite IH, IH, shr_1_m, E by assumption.
    rewrite !Z.div_div by lia. reflexivity.
  - assert (H2 : 0 <= shr_m (SpecFloat.iter_pos shr_1 p mrs))
      by (rewrite IH by assumption; apply Z.div_pos; lia).
    assert (E : 2 ^ Zpos p~0 = 2 ^ Zpos p * 2 ^ Zpos p).
    { replace (Zpos p~0) with (Zpos p + Zpos p) by lia.
      rewrite !Z.pow_add_r by lia. lia. }
    rewrite IH, IH, E by assumption.
    rewrite !Z.div_div by lia. reflexivity.
  - rewrite shr_1_m by assumption. reflexivity.
Qed.

(** [shr] divides the mantissa by [2^n] and adds [n] to the exponent,
    for [n >= 0]; it does nothing for [n <= 0]. *)
Lemma shr_spec (mrs : shr_record) (e n : Z) :
  0 <= shr_m mrs ->
  shr_m (fst (shr mrs e n)) = shr_m mrs / 2 ^ Z.max n 0 /\
  snd (shr mrs e n) = e + Z.max n 0.
Proof.
  intros H. unfold shr. destruct n as [|p|p]; simpl fst; simpl snd.
  - rewrite Z.div_1_r. lia.
  - rewrite iter_shr_1_m by assumption. replace (Z.max (Zpos p) 0) with (Zpos p) by lia. split; reflexivity.
  - replace (Z.max (Zneg p) 0) with 0 by lia. rewrite Z.div_1_r. lia.
Qed.

Lemma shr_record_of_loc_m (m : Z) (l : location) : shr_m (shr_record_of_loc m l) = m.
Proof. destruct l as [|[]]; reflexivity. Qed.

Lemma round_nearest_even_ge (m : Z) (l : location) : m <= round_nearest_even m l.
Proof. destruct l as [|[]]; simpl; try lia. destruct (Z.even m); lia. Qed.


Lemma bounded_canonical (m : positive) (e : Z) :
  bounded prec emax m e = true ->
  Z.max (Zpos (digits2_pos m) + e - 53) (-1074) = e.
Proof.
  unfold bounded, canonical_mantissa, fexp, SpecFloat.emin, prec, emax.
  intros H. apply andb_prop in H. destruct H as [H _].
  apply Z.eqb_eq in H. exact H.
Qed.

Lemma pow2_pos (k : Z) : 0 <= k -> 0 < 2 ^ k.
Proof. intros H. apply Z.pow_pos_nonneg; lia. Qed.

Lemma digits2_shift (m M : positive) (k : Z) :
  0 <= k -> Zpos m * 2 ^ k <= Zpos M -> Zpos (digits2_pos m) + k <= Zpos (digits2_pos M).
Proof.
  intros Hk H. rewrite !digits2_log2.
  pose proof (pow2_pos k Hk).
  assert (L : Z.log2 (Zpos m * 2 ^ k) <= Z.log2 (Zpos M))
    by (apply Z.log2_le_mono; exact H).
  rewrite Z.log2_mul_pow2 in L by lia. lia.
Qed.

(** Rounding a positive [M * 2^ez] that is at least the canonical
    [mx * 2^ex] gives infinity or a finite number that [SFcompare] puts
    at or above it. *)
Lemma binary_round_ge (M mx : positive) (ez ex : Z) :
  bounded prec emax mx ex = true ->
  ez <= ex ->
  Zpos mx * 2 ^ (ex - ez) <= Zpos M ->
  binary_round prec emax false M ez = S754_infinity false \/
  exists m e,
    binary_round prec emax false M ez = S754_finite false m e /\
    (ex < e \/ (e = ex /\ Zpos mx <= Zpos m)).
Proof.
  intros Hb Hez HM.
  pose proof (bounded_canonical mx ex Hb) as Hc.
  pose proof (digits2_shift mx M (ex - ez) ltac:(lia) HM) as HD.
  pose proof (digits2_bounds M) as HMb.
  unfold binary_round.
  assert (Ht : fexp prec emax (Zpos (digits2_pos M) + ez) = Z.max (Zpos (digits2_pos M) + ez - 53) (-1074))
    by reflexivity.
  set (t := fexp prec emax (Zpos (digits2_pos M) + ez)) in *.
  assert (Hext : ex <= t) by lia.
  rewrite shl_align_id by lia.
  unfold binary_round_aux, shr_fexp.
  change (Zdigits2 (Zpos M)) with (Zpos (digits2_pos M)). fold t.
  destruct (shr_spec (shr_record_of_loc (Zpos M) loc_Exact) ez (t - ez))
    as [Hm1 He1]; [simpl; lia|].
  destruct (shr (shr_record_of_loc (Zpos M) loc_Exact) ez (t - ez))
    as [mrs1 e1] eqn:E1.
  simpl fst in Hm1. simpl snd in He1.
  rewrite shr_record_of_loc_m in Hm1.
  replace (Z.max (t - ez) 0) with (t - ez) in * by lia.
  assert (He1' : e1 = t) by lia. clear He1. subst e1.
  pose proof (pow2_pos (t - ez) ltac:(lia)) as Hp.
  assert (Hone : 2 ^ (t - ez) <= Zpos M).
  { destruct (Z.max_spec (Zpos (digits2_pos M) + ez - 53) (-1074)) as [[_ Hmax]|[_ Hmax]].
    - (* t = emin, hence t = ex *)
      assert (t = ex) by lia. subst t. rewrite H in *.
      eapply Z.le_trans; [|exact HM]. nia.
    - assert (Hle : 2 ^ (t - ez) <= 2 ^ (Zpos (digits2_pos M) - 1))
        by (apply Z.pow_le_mono_r; lia).
      lia. }
  assert (Hm1pos : 1 <= shr_m mrs1).
  { rewrite Hm1. apply Z.div_le_lower_bound; lia. }
  pose proof (round_nearest_even_ge (shr_m mrs1) (loc_of_shr_record mrs1)) as Hr.
  set (m2 := round_nearest_even (shr_m mrs1) (loc_of_shr_record mrs1)) in *.
  destruct m2 as [|p2|p2] eqn:Em2; try lia.
  change (Zdigits2 (Zpos p2)) with (Zpos (digits2_pos p2)).
  set (n := fexp prec emax (Zpos (digits2_pos p2) + t) - t).
  assert (Hn : n = Z.max (Zpos (digits2_pos p2) + t - 53) (-1074) - t) by reflexivity.
  destruct (shr_spec (shr_record_of_loc (Zpos p2) loc_Exact) t n)
    as [Hm3 He3]; [simpl; lia|].
  destruct (shr (shr_record_of_loc (Zpos p2) loc_Exact) t n) as [mrs2 e2] eqn:E2.
  simpl fst in Hm3. simpl snd in He3. rewrite shr_record_of_loc_m in Hm3.
  pose proof (digits2_bounds p2) as Hp2.
  assert (Hm3pos : 1 <= shr_m mrs2).
  { rewrite Hm3. apply Z.div_le_lower_bound.
    - apply pow2_pos. lia.
    - destruct (Z.max_spec n 0) as [[_ Hmax]|[_ Hmax]]; rewrite Hmax.
      + simpl. lia.
      + assert (Hle : 2 ^ n <= 2 ^ (Zpos (digits2_pos p2) - 1))
          by (apply Z.pow_le_mono_r; lia).
        lia. }
  destruct (shr_m mrs2) as [|m3|m3] eqn:Em3; try lia.
  destruct (e2 <=? emax - prec); [right | left; reflexivity].
  exists m3, e2. split; [reflexivity|].
  destruct (Z.eq_dec (Z.max n 0) 0) as [Hz|Hnz]; [|left; lia].
  rewrite Hz in *.
  destruct (Z.eq_dec t ex) as [Heq|Hne]; [right | left; lia].
  split; [lia|]. rewrite Z.div_1_r in Hm3.
  assert (Zpos mx <= shr_m mrs1).
  { rewrite Hm1, Heq. apply Z.div_le_lower_bound; [rewrite <- Heq; lia | lia]. }
  lia.
Qed.


Lemma SFleb_refl_finite (m : positive) (e : Z) :
  SFleb (S754_finite false m e) (S754_finite false m e) = true.
Proof.
  unfold SFleb, SFcompare. rewrite Z.compare_refl.
  rewrite Pos.compare_cont_refl. reflexivity.
Qed.

Lemma SFleb_finite_above (mx m : positive) (ex e : Z) :
  ex < e \/ (e = ex /\ Zpos mx <= Zpos m) ->
  SFleb (S754_finite false mx ex) (S754_finite false m e) = true.
Proof.
  unfold SFleb, SFcompare. intros [H|[-> H]].
  - apply Z.compare_lt_iff in H. rewrite H. reflexivity.
  - rewrite Z.compare_refl. change (Pos.compare_cont Eq mx m) with (Pos.compare mx m).
    destruct (Pos.compare_spec mx m); try reflexivity. lia.
Qed.

(** Adding two valid numbers that compare at or above zero gives a
    number at or above zero and at or above the first. *)
Lemma SFadd_nonneg (X A : spec_float) :
  valid_binary X = true -> valid_binary A = true ->
  SFleb (S754_zero false) X = true ->
  SFleb (S754_zero false) A = true ->
  SFleb (S754_zero false) (SF64add X A) = true /\
  SFleb X (SF64add X A) = true.
Proof.
  intros VX VA HX HA.
  destruct X as [sx|[|]| |[|] mx ex]; try discriminate HX;
  destruct A as [sa|[|]| |[|] ma ea]; try discriminate HA;
    try (destruct sx; destruct sa; split; reflexivity);
    try (destruct sx; split; reflexivity);
    try (destruct sa; split; reflexivity);
    try (split; reflexivity).
  - destruct sa; split; try reflexivity; apply SFleb_refl_finite.
  - (* finite + finite *)
    unfold SF64add, SFadd, cond_Zopp.
    set (ez := Z.min ex ea).
    pose proof (shl_align_val mx ex ez ltac:(lia)) as Hx.
    pose proof (shl_align_val ma ea ez ltac:(lia)) as Ha.
    set (px := fst (shl_align mx ex ez)) in *.
    set (pa := fst (shl_align ma ea ez)) in *.
    change (Zpos px + Zpos pa) with (Zpos (px + pa)).
    unfold binary_normalize.
    destruct (binary_round_ge (px + pa) mx ez ex VX ltac:(lia) ltac:(lia))
      as [->|(m & e & -> & Hord)].
    + split; reflexivity.
    + split; [reflexivity|]. apply SFleb_finite_above, Hord.
Qed.

Lemma Prim2SF_zero : Prim2SF 0%float = S754_zero false.
Proof. reflexivity. Qed.

(** The same on primitive floats. *)
Lemma add_nonneg (x a : float) :
  (0 <=? x)%float = true -> (0 <=? a)%float = true ->
  (0 <=? x + a)%float = true /\ (x <=? x + a)%float = true.
Proof.
  rewrite !leb_spec, add_spec, Prim2SF_zero.
  apply SFadd_nonneg; apply Prim2SF_valid.
Qed.


Ltac cmp_cases :=
  repeat match goal with
  | H : context [Z.compare ?a ?b] |- _ =>
      destruct (Z.compare_spec a b); try discriminate H
  | |- context [Z.compare ?a ?b] =>
      destruct (Z.compare_spec a b)
  | H : context [Pos.compare_cont Eq ?a ?b] |- _ =>
      change (Pos.compare_cont Eq a b) with (Pos.compare a b) in H;
      destruct (Pos.compare_spec a b); try discriminate H
  | |- context [Pos.compare_cont Eq ?a ?b] =>
      change (Pos.compare_cont Eq a b) with (Pos.compare a b);
      destruct (Pos.compare_spec a b)
  end.

Lemma SFleb_trans (X Y Z : spec_float) :
  SFleb X Y = true -> SFleb Y Z = true -> SFleb X Z = true.
Proof.
  unfold SFleb, SFcompare.
  destruct X as [[|]|[|]| |[|] mx ex]; destruct Y as [[|]|[|]| |[|] my ey];
    try discriminate; destruct Z as [[|]|[|]| |[|] mz ez];
    try discriminate; try reflexivity; intros H1 H2;
    cmp_cases; simpl in *; try reflexivity; try discriminate; try lia.
Qed.

Lemma leb_trans (x y z : float) :
  (x <=? y)%float = true -> (y <=? z)%float = true -> (x <=? z)%float = true.
Proof. rewrite !leb_spec. apply SFleb_trans. Qed.

Lemma leb_refl_nonneg (x : float) :
  (0 <=? x)%float = true -> (x <=? x)%float = true.
Proof.
  rewrite !leb_spec, Prim2SF_zero. unfold SFleb, SFcompare.
  destruct (Prim2SF x) as [[|]|[|]| |[|] m e]; try discriminate; try reflexivity.
  intros _. rewrite Z.compare_refl, Pos.compare_cont_refl. reflexivity.
Qed.

(** A running sum of amounts that compare at or above zero, started at
    or above zero, stays there and never goes below its start. *)
Lemma fold_add_nonneg (l : list float) (x : float) :
  (0 <=? x)%float = true ->
  forallb nonneg l = true ->
  (0 <=? fold_left PrimFloat.add l x)%float = true /\
  (x <=? fold_left PrimFloat.add l x)%float = true.
Proof.
  revert x. induction l as [|a l IH]; intros x Hx Hl; simpl.
  - split; [exact Hx | apply leb_refl_nonneg, Hx].
  - simpl in Hl. apply andb_prop in Hl. destruct Hl as [Ha Hl].
    destruct (add_nonneg x a Hx Ha) as [H0 H1].
    destruct (IH (x + a)%float H0 Hl) as [H2 H3].
    split; [exact H2 | eapply leb_trans; eassumption].
Qed.

End RoundingOrder.

(** ** The ledger *)

Ltac run_m :=
  unfold try_except, bind, lift, ret, reply_text, send, add_income,
    add_expense, get_balance, Py.index, PyFloat.float.

Section FinanceFacts.

Variable env : Env.

Lemma lets_in_admitted (u : Update) :
  lets_in env u = true <-> admitted (membership env u).
Proof.
  unfold lets_in, admitted. destruct (membership env u) as [s|e].
  - apply is_member_status_In.
  - split; [discriminate | tauto].
Qed.

Lemma lets_in_refused (u : Update) :
  lets_in env u = false <-> refused (membership env u).
Proof.
  unfold lets_in, refused. destruct (membership env u) as [s|e].
  - rewrite <- is_member_status_In. destruct (is_member_status s); split;
      intros H; try reflexivity; try discriminate; try congruence.
  - tauto.
Qed.

Lemma float_of_int_0 : Num.float_of_int 0 = Ok 0%float.
Proof. vm_compute. reflexivity. Qed.

Lemma add_total_ok (t : pynum) (a : float) :
  total_ok t -> Num.add t (NFloat a) = Ok (plus t a).
Proof.
  intros [->|[f ->]]; unfold Num.add, Num.binop, plus, as_float.
  - rewrite float_of_int_0. reflexivity.
  - reflexivity.
Qed.

Lemma plus_total_ok (t : pynum) (a : float) : total_ok (plus t a).
Proof. right. eexists. reflexivity. Qed.

Lemma finance_body_income_ok (u : Update) (args : list string) (w : World)
    (a : float) :
  Str.startswith (command_of args) "income" = true ->
  amount_of args = Some a ->
  total_ok (income (finance_data w)) ->
  finance_body u args w =
    (Ok tt,
     set_outbox
       (outbox w ++
        [(Chat (chat_id u),
          [Txt "Income of "; Val (VNum (NFloat a));
           Txt " added. Total income: ";
           Val (VNum (plus (income (finance_data w)) a))])])
       (set_finance_data
          {| income := plus (income (finance_data w)) a;
             expenses := expenses (finance_data w) |} w)).
Proof.
  intros Hs Ha Hok. unfold finance_body. rewrite Hs.
  unfold amount_of in Ha. run_m.
  destruct (Str.split Str.space (command_of args) !! 1%nat) as [tok|];
    [|discriminate].
  rewrite Ha, (add_total_ok _ a Hok). reflexivity.
Qed.

Lemma finance_body_income_bad (u : Update) (args : list string) (w : World) :
  Str.startswith (command_of args) "income" = true ->
  amount_of args = None ->
  finance_body u args w =
    (Ok tt,
     set_outbox
       (outbox w ++
        [(Chat (chat_id u), lit "Please provide a valid income amount.")]) w).
Proof.
  intros Hs Ha. unfold finance_body. rewrite Hs.
  unfold amount_of in Ha. run_m.
  destruct (Str.split Str.space (command_of args) !! 1%nat) as [tok|].
  - rewrite Ha. reflexivity.
  - reflexivity.
Qed.

Lemma finance_body_expense_ok (u : Update) (args : list string) (w : World)
    (a : float) :
  Str.startswith (command_of args) "income" = false ->
  Str.startswith (command_of args) "expense" = true ->
  amount_of args = Some a ->
  total_ok (expenses (finance_data w)) ->
  finance_body u args w =
    (Ok tt,
     set_outbox
       (outbox w ++
        [(Chat (chat_id u),
          [Txt "Expense of "; Val (VNum (NFloat a));
           Txt " added. Total expenses: ";
           Val (VNum (plus (expenses (finance_data w)) a))])])
       (set_finance_data
          {| income := income (finance_data w);
             expenses := plus (expenses (finance_data w)) a |} w)).
Proof.
  intros Hi Hs Ha Hok. unfold finance_body. rewrite Hi, Hs.
  unfold amount_of in Ha. run_m.
  destruct (Str.split Str.space (command_of args) !! 1%nat) as [tok|];
    [|discriminate].
  rewrite Ha, (add_total_ok _ a Hok). reflexivity.
Qed.

Lemma finance_body_expense_bad (u : Update) (args : list string) (w : World) :
  Str.startswith (command_of args) "income" = false ->
  Str.startswith (command_of args) "expense" = true ->
  amount_of args = None ->
  finance_body u args w =
    (Ok tt,
     set_outbox
       (outbox w ++
        [(Chat (chat_id u), lit "Please provide a valid expense amount.")]) w).
Proof.
  intros Hi Hs Ha. unfold finance_body. rewrite Hi, Hs.
  unfold amount_of in Ha. run_m.
  destruct (Str.split Str.space (command_of args) !! 1%nat) as [tok|].
  - rewrite Ha. reflexivity.
  - reflexivity.
Qed.

Lemma finance_body_balance (u : Update) (args : list string) (w : World)
    (b : pynum) :
  command_of args = "balance" ->
  Num.sub (income (finance_data w)) (expenses (finance_data w)) = Ok b ->
  finance_body u args w =
    (Ok tt,
     set_outbox
       (outbox w ++ [(Chat (chat_id u), [Txt "Your balance is: "; Val (VNum b)])])
       w).
Proof.
  intros Hc Hb. unfold finance_body. rewrite Hc. simpl. run_m.
  rewrite Hb. reflexivity.
Qed.

(** Without an income or expense sub-command the body leaves the ledger
    alone. *)
Lemma finance_body_other (u : Update) (args : list string) (w : World) :
  Str.startswith (command_of args) "income" = false ->
  Str.startswith (command_of args) "expense" = false ->
  finance_data (snd (finance_body u args w)) = finance_data w.
Proof.
  intros Hi Hs. unfold finance_body. rewrite Hi, Hs. run_m.
  destruct (String.eqb _ _); [|reflexivity].
  destruct (Num.sub _ _); reflexivity.
Qed.

(** The ledger after one [/finance] command. *)
Lemma finance_ledger_step (u : Update) (args : list string) (w : World) :
  total_ok (income (finance_data w)) ->
  total_ok (expenses (finance_data w)) ->
  finance_data (snd (finance env u args w)) =
    {| income :=
         match income_amount (env, u, args) with
         | Some a => plus (income (finance_data w)) a
         | None => income (finance_data w)
         end;
       expenses :=
         match expense_amount (env, u, args) with
         | Some a => plus (expenses (finance_data w)) a
         | None => expenses (finance_data w)
         end |}.
Proof.
  intros Hi He. unfold income_amount, expense_amount, finance. simpl.
  destruct (lets_in env u) eqn:El; simpl.
  - apply lets_in_admitted in El. rewrite (gated_admitted env u _ w El).
    destruct (Str.startswith (command_of args) "income") eqn:Ei; simpl.
    + destruct (amount_of args) as [a|] eqn:Ea.
      * rewrite (finance_body_income_ok u args w a Ei Ea Hi). reflexivity.
      * rewrite (finance_body_income_bad u args w Ei Ea).
        simpl. destruct (finance_data w); reflexivity.
    + destruct (Str.startswith (command_of args) "expense") eqn:Es; simpl.
      * destruct (amount_of args) as [a|] eqn:Ea.
        -- rewrite (finance_body_expense_ok u args w a Ei Es Ea He). reflexivity.
        -- rewrite (finance_body_expense_bad u args w Ei Es Ea).
           simpl. destruct (finance_data w); reflexivity.
      * rewrite (finance_body_other u args w Ei Es).
        simpl. destruct (finance_data w); reflexivity.
  - apply lets_in_refused in El. rewrite (gated_refused env u _ w El).
    unfold after_gate. destruct (membership env u); simpl;
      destruct (finance_data w); reflexivity.
Qed.

End FinanceFacts.

Section LedgerSequences.

Lemma fold_plus_float (l : list float) (f : float) :
  fold_left plus l (NFloat f) = NFloat (fold_left PrimFloat.add l f).
Proof.
  revert f. induction l as [|a l IH]; intros f; [reflexivity|].
  simpl. unfold plus at 2. simpl. apply IH.
Qed.

Lemma fold_plus_total (l : list float) : fold_left plus l (NInt 0) = total l.
Proof.
  destruct l as [|a l]; [reflexivity|].
  simpl. unfold plus at 2. simpl. apply fold_plus_float.
Qed.

Lemma fold_plus_ok (l : list float) (t : pynum) :
  total_ok t -> total_ok (fold_left plus l t).
Proof.
  revert t. induction l as [|a l IH]; intros t Ht; [exact Ht|].
  simpl. apply IH, plus_total_ok.
Qed.

(** The ledger after a sequence of [/finance] commands, from any world
    whose totals are the initial 0 or floats. *)
Lemma ledger_of_seq (calls : list call) (w : World) :
  total_ok (income (finance_data w)) ->
  total_ok (expenses (finance_data w)) ->
  finance_data (finance_seq calls w) =
    {| income := fold_left plus (omap income_amount calls) (income (finance_data w));
       expenses :=
         fold_left plus (omap expense_amount calls) (expenses (finance_data w)) |}.
Proof.
  revert w. induction calls as [|[[env u] args] calls IH]; intros w Hi He.
  - simpl. destruct (finance_data w); reflexivity.
  - unfold finance_seq in *. simpl fold_left.
    pose proof (finance_ledger_step env u args w Hi He) as Hstep.
    rewrite IH.
    + rewrite Hstep. simpl.
      destruct (income_amount (env, u, args)), (expense_amount (env, u, args));
        reflexivity.
    + rewrite Hstep. simpl.
      destruct (income_amount (env, u, args)); [apply plus_total_ok | exact Hi].
    + rewrite Hstep. simpl.
      destruct (expense_amount (env, u, args)); [apply plus_total_ok | exact He].
Qed.

Lemma perm3 {A} (a b c : A) (l : list A) :
  Permutation l [a; b; c] ->
  l = [a; b; c] \/ l = [a; c; b] \/ l = [b; a; c] \/
  l = [b; c; a] \/ l = [c; a; b] \/ l = [c; b; a].
Proof.
  intros H. symmetry in H. apply permutations_Permutation in H.
  cbn in H. rewrite !elem_of_cons in H. rewrite elem_of_nil in H. tauto.
Qed.

Lemma as_float_total (l : list float) :
  as_float (total l) = fold_left PrimFloat.add l 0%float.
Proof. destruct l; reflexivity. Qed.

(** The ledger after a sequence of [/finance] commands from program
    start. *)
Lemma ledger_at_start (calls : list call) :
  finance_data (finance_seq calls world0) =
    {| income := total (omap income_amount calls);
       expenses := total (omap expense_amount calls) |}.
Proof.
  rewrite ledger_of_seq by (left; reflexivity).
  simpl. rewrite !fold_plus_total. reflexivity.
Qed.

End LedgerSequences.

(** C4 as stated fails: a negative amount is accepted.  After
    [/finance income 10] and [/finance income -25] the income total is
    [-15]: below zero, and lower than it was. *)
Lemma negative_income_is_accepted :
  let c1 : call := (Sample.env_member, Sample.says "/finance income 10", ["income"; "10"]) in
  let c2 : call := (Sample.env_member, Sample.says "/finance income -25", ["income"; "-25"]) in
  amount_of ["income"; "-25"] = Some (-25)%float /\
  income (finance_data (finance_seq [c1] world0)) = NFloat 10 /\
  income (finance_data (finance_seq [c1; c2] world0)) = NFloat (-15) /\
  (-15 <? 0)%float = true /\ (-15 <? 10)%float = true.
Proof.
  cbv zeta. repeat split; vm_compute; reflexivity.
Qed.

(** C4, amended: the amounts the ledger accepts are all those [float]
    parses, of either sign.  After every sequence of [/finance] commands
    from the start of the program, the income total is the floating-point
    sum, in order, of the amounts the income sub-commands accepted, and
    the expenses total that of the expense sub-commands; a total to which
    nothing was added is still the integer 0.  As long as every accepted
    amount compares at or above zero, a total is at or above zero at
    every earlier point of the sequence and is not above its final
    value. *)
Theorem ledger_totals (calls : list call) :
  finance_data (finance_seq calls world0) =
    {| income := total (omap income_amount calls);
       expenses := total (omap expense_amount calls) |} /\
  (forall earlier later,
     calls = earlier ++ later ->
     forallb nonneg (omap income_amount calls) = true ->
     let t1 := as_float (income (finance_data (finance_seq earlier world0))) in
     let t2 := as_float (income (finance_data (finance_seq calls world0))) in
     (0 <=? t1)%float = true /\ (t1 <=? t2)%float = true) /\
  (forall earlier later,
     calls = earlier ++ later ->
     forallb nonneg (omap expense_amount calls) = true ->
     let t1 := as_float (expenses (finance_data (finance_seq earlier world0))) in
     let t2 := as_float (expenses (finance_data (finance_seq calls world0))) in
     (0 <=? t1)%float = true /\ (t1 <=? t2)%float = true).
Proof.
  split; [apply ledger_at_start|].
  split; intros earlier later -> Hall; cbv zeta;
    rewrite !ledger_at_start; simpl income; simpl expenses;
    rewrite !as_float_total, omap_app, fold_left_app;
    rewrite omap_app, forallb_app in Hall;
    apply andb_prop in Hall; destruct Hall as [H1 H2].
  - destruct (fold_add_nonneg (omap income_amount earlier) 0%float eq_refl H1)
      as [Hpos _].
    split; [exact Hpos|]. apply fold_add_nonneg; assumption.
  - destruct (fold_add_nonneg (omap expense_amount earlier) 0%float eq_refl H1)
      as [Hpos _].
    split; [exact Hpos|]. apply fold_add_nonneg; assumption.
Qed.

Lemma ledger_totals_witness :
  let c1 : call := (Sample.env_member, Sample.says "/finance income 10", ["income"; "10"]) in
  let c2 : call := (Sample.env_member, Sample.says "/finance income 0.5", ["income"; "0.5"]) in
  forallb nonneg (omap income_amount [c1; c2]) = true /\
  income (finance_data (finance_seq [c1] world0)) = NFloat 10 /\
  income (finance_data (finance_seq [c1; c2] world0)) = NFloat 10.5 /\
  (0 <=? 10)%float = true /\ (10 <=? 10.5)%float = true.
Proof.
  cbv zeta.
  assert (Hall : forallb nonneg
            (omap income_amount
               [(Sample.env_member, Sample.says "/finance income 10", ["income"; "10"]);
                (Sample.env_member, Sample.says "/finance income 0.5", ["income"; "0.5"])])
            = true) by (vm_compute; reflexivity).
  split; [exact Hall|].
  split; [vm_compute; reflexivity|]. split; [vm_compute; reflexivity|].
  exact (proj1 (proj2 (ledger_totals
           [(Sample.env_member, Sample.says "/finance income 10", ["income"; "10"]);
            (Sample.env_member, Sample.says "/finance income 0.5", ["income"; "0.5"])]))
         [(Sample.env_member, Sample.says "/finance income 10", ["income"; "10"])]
         [(Sample.env_member, Sample.says "/finance income 0.5", ["income"; "0.5"])]
         eq_refl Hall).
Defined.

(** C5: from a ledger with income 0 and expenses 0, the three commands
    income 50, income 25 and expense 30, issued in any order by a member,
    leave income 75.0 and expenses 30.0, and [/finance balance] then
    replies with the balance 45.0. *)
Theorem balance_of_50_25_30 (env : Env) (u : Update) (w : World)
    (ops : list (list string)) :
  admitted (membership env u) ->
  finance_data w = {| income := NInt 0; expenses := NInt 0 |} ->
  Permutation ops [["income"; "50"]; ["income"; "25"]; ["expense"; "30"]] ->
  let w' := finance_seq (map (fun args => (env, u, args)) ops) w in
  finance_data w' = {| income := NFloat 75; expenses := NFloat 30 |} /\
  finance env u ["balance"] w' =
    (Ok tt,
     set_outbox
       (outbox w' ++
        [(Chat (chat_id u), [Txt "Your balance is: "; Val (VNum (NFloat 45))])])
       w').
Proof.
  intros Hm Hw Hp. cbv zeta.
  assert (Hl : finance_data (finance_seq (map (fun args => (env, u, args)) ops) w)
               = {| income := NFloat 75; expenses := NFloat 30 |}).
  { rewrite ledger_of_seq by (rewrite Hw; left; reflexivity).
    rewrite Hw. apply lets_in_admitted in Hm.
    destruct (perm3 _ _ _ _ Hp) as [-> | [-> | [-> | [-> | [-> | ->]]]]];
      unfold income_amount, expense_amount; simpl;
      rewrite Hm; vm_compute; reflexivity. }
  split; [exact Hl|].
  unfold finance. rewrite (gated_admitted env u _ _ Hm).
  apply finance_body_balance; [reflexivity|].
  rewrite Hl. vm_compute. reflexivity.
Qed.

Lemma balance_of_50_25_30_witness :
  admitted (membership Sample.env_member (Sample.says "/finance")) /\
  finance_data world0 = {| income := NInt 0; expenses := NInt 0 |} /\
  Permutation [["expense"; "30"]; ["income"; "50"]; ["income"; "25"]]
              [["income"; "50"]; ["income"; "25"]; ["expense"; "30"]] /\
  let w' := finance_seq
              (map (fun args => (Sample.env_member, Sample.says "/finance", args))
                   [["expense"; "30"]; ["income"; "50"]; ["income"; "25"]])
              world0 in
  finance_data w' = {| income := NFloat 75; expenses := NFloat 30 |} /\
  finance Sample.env_member (Sample.says "/finance") ["balance"] w' =
    (Ok tt,
     set_outbox
       (outbox w' ++
        [(Chat (chat_id (Sample.says "/finance")),
          [Txt "Your balance is: "; Val (VNum (NFloat 45))])])
       w').
Proof.
  assert (Hp : Permutation [["expense"; "30"]; ["income"; "50"]; ["income"; "25"]]
                           [["income"; "50"]; ["income"; "25"]; ["expense"; "30"]]).
  { apply (Permutation_cons_app [_; _] []). reflexivity. }
  split; [simpl; auto|]. split; [reflexivity|]. split; [exact Hp|].
  apply (balance_of_50_25_30 Sample.env_member (Sample.says "/finance") world0
           _ (or_introl eq_refl) eq_refl Hp).
Defined.

(** ** Arguments and amounts *)

Section JoinSplit.

Lemma append_cons (c : ascii) (s t : string) :
  String c s +:+ t = String c (s +:+ t).
Proof. reflexivity. Qed.

Lemma append_nil (t : string) : EmptyString +:+ t = t.
Proof. reflexivity. Qed.

Lemma split_spaceless (s : string) :
  spaceless s = true -> Str.split Str.space s = [s].
Proof.
  induction s as [|c s IH]; [reflexivity|].
  unfold spaceless. simpl. intros H. apply andb_prop in H. destruct H as [Hc Hs].
  apply negb_true_iff in Hc. rewrite Hc, (IH Hs). reflexivity.
Qed.

Lemma split_append_space (s t : string) :
  spaceless s = true ->
  Str.split Str.space (s +:+ String Str.space t) = s :: Str.split Str.space t.
Proof.
  induction s as [|c s IH]; intros H.
  - rewrite append_nil. reflexivity.
  - unfold spaceless in H. simpl in H. apply andb_prop in H. destruct H as [Hc Hs].
    apply negb_true_iff in Hc. rewrite append_cons. simpl. rewrite Hc, (IH Hs).
    reflexivity.
Qed.

Lemma join_cons2 (a b : string) (l : list string) :
  Str.join " " (a :: b :: l) = a +:+ String Str.space (Str.join " " (b :: l)).
Proof. reflexivity. Qed.

(** [split(" ")] undoes [" ".join] on a non-empty list of space-free
    strings. *)
Lemma split_join (l : list string) :
  l <> [] -> forallb spaceless l = true ->
  Str.split Str.space (Str.join " " l) = l.
Proof.
  induction l as [|a l IH]; [congruence|]. intros _ H.
  simpl in H. apply andb_prop in H. destruct H as [Ha Hl].
  destruct l as [|b l].
  - apply split_spaceless, Ha.
  - rewrite join_cons2, split_append_space by exact Ha.
    rewrite IH by (congruence || exact Hl). reflexivity.
Qed.

Lemma lower_append (s t : string) :
  Str.lower (s +:+ t) = Str.lower s +:+ Str.lower t.
Proof.
  induction s as [|c s IH]; [reflexivity|].
  rewrite append_cons. simpl. rewrite IH. reflexivity.
Qed.

Lemma lower_join (l : list string) :
  Str.lower (Str.join " " l) = Str.join " " (map Str.lower l).
Proof.
  induction l as [|a l IH]; [reflexivity|].
  destruct l as [|b l]; [reflexivity|].
  rewrite join_cons2, lower_append.
  change (Str.lower (String Str.space (Str.join " " (b :: l))))
    with (String Str.space (Str.lower (Str.join " " (b :: l)))).
  rewrite IH. reflexivity.
Qed.

Lemma lower_char_space_all :
  forallb (fun c => Bool.eqb (Ascii.eqb (Str.lower_char c) Str.space)
                             (Ascii.eqb c Str.space)) Str.all_ascii = true.
Proof. vm_compute. reflexivity. Qed.

Lemma lower_char_space (c : ascii) :
  Ascii.eqb (Str.lower_char c) Str.space = Ascii.eqb c Str.space.
Proof.
  pose proof lower_char_space_all as H. rewrite forallb_forall in H.
  apply Bool.eqb_prop, H, all_ascii_complete.
Qed.

Lemma lower_spaceless (s : string) : spaceless (Str.lower s) = spaceless s.
Proof.
  unfold spaceless. induction s as [|c s IH]; [reflexivity|].
  simpl. rewrite lower_char_space. f_equal. exact IH.
Qed.

Lemma lower_all_spaceless (l : list string) :
  forallb spaceless (map Str.lower l) = forallb spaceless l.
Proof.
  induction l as [|a l IH]; [reflexivity|].
  simpl. rewrite lower_spaceless, IH. reflexivity.
Qed.

(** The pieces [finance] and [fitness] cut the command into are the
    lower-cased arguments. *)
Lemma command_pieces (args : list string) :
  args <> [] -> forallb spaceless args = true ->
  Str.split Str.space (command_of args) = map Str.lower args.
Proof.
  intros Hne Hs. unfold command_of. rewrite lower_join. apply split_join.
  - destruct args; [congruence | discriminate].
  - rewrite lower_all_spaceless. exact Hs.
Qed.

End JoinSplit.

(** ** What [float] accepts and rejects *)

Section FloatGrammar.

Lemma for_all_chars (P : ascii -> bool) :
  forallb P Str.all_ascii = true -> forall c, P c = true.
Proof.
  intros H c. rewrite forallb_forall in H. apply H, all_ascii_complete.
Qed.

Lemma lstrip_keeps_last (l : list ascii) (c : ascii) :
  PyFloat.is_space c = false ->
  exists k, PyFloat.lstrip (l ++ [c]) = k ++ [c].
Proof.
  intros Hc. induction l as [|a l IH]; simpl.
  - rewrite Hc. exists []. reflexivity.
  - destruct (PyFloat.is_space a); [exact IH|]. exists (a :: l). reflexivity.
Qed.

Lemma lstrip_app_last (l t : list ascii) (c : ascii) :
  PyFloat.is_space c = false ->
  PyFloat.lstrip ((l ++ [c]) ++ t) = PyFloat.lstrip (l ++ [c]) ++ t.
Proof.
  intros Hc. induction l as [|a l IH]; simpl.
  - rewrite Hc. reflexivity.
  - destruct (PyFloat.is_space a); [exact IH | reflexivity].
Qed.

(** Stripping a string that starts with [-] and then a non-space keeps
    the sign in front of the stripped rest. *)
Lemma strip_minus (c : ascii) (s : list ascii) :
  PyFloat.is_space c = false ->
  exists s',
    PyFloat.strip (c :: s) = c :: s' /\
    PyFloat.strip ("-"%char :: c :: s) = "-"%char :: c :: s'.
Proof.
  intros Hc. unfold PyFloat.strip.
  assert (H1 : PyFloat.lstrip (c :: s) = c :: s) by (simpl; rewrite Hc; reflexivity).
  assert (H2 : PyFloat.lstrip ("-"%char :: c :: s) = "-"%char :: c :: s)
    by reflexivity.
  rewrite H1, H2.
  change (rev ("-"%char :: c :: s)) with (rev (c :: s) ++ ["-"%char]).
  simpl rev. rewrite (lstrip_app_last (rev s) ["-"%char] c Hc).
  destruct (lstrip_keeps_last (rev s) c Hc) as [k Hk]. rewrite Hk.
  rewrite !rev_app_distr. simpl. exists (rev k). split; reflexivity.
Qed.

Lemma drop_underscores_after_minus (l : list ascii) :
  PyFloat.drop_underscores (Some "-"%char) l = PyFloat.drop_underscores None l.
Proof. destruct l as [|c l]; reflexivity. Qed.

Lemma plain_start_facts (c : ascii) :
  plain_start c = true ->
  PyFloat.is_space c = false /\ Ascii.eqb c "-"%char = false /\
  Ascii.eqb c "+"%char = false /\ PyFloat.is_underscore c = false.
Proof.
  unfold plain_start. intros H.
  repeat (apply andb_prop in H; destruct H as [H ?]).
  repeat split; apply negb_true_iff; assumption.
Qed.

(** A leading minus sign negates the value and changes nothing else. *)
Lemma parse_minus (c : ascii) (s : string) :
  plain_start c = true ->
  PyFloat.parse (String "-"%char (String c s)) =
    option_map PrimFloat.opp (PyFloat.parse (String c s)).
Proof.
  intros Hc. destruct (plain_start_facts c Hc) as (Hsp & Hm & Hp & Hu).
  unfold PyFloat.parse. simpl list_ascii_of_string.
  destruct (strip_minus c (list_ascii_of_string s) Hsp) as (s' & -> & ->).
  simpl PyFloat.drop_underscores. rewrite Hu. simpl.
  destruct (PyFloat.drop_underscores (Some c) s') as [r|]; simpl; [|reflexivity].
  rewrite Hm, Hp.
  destruct (PyFloat.decimal (c :: r)) as [f|]; simpl; [reflexivity|].
  destruct (PyFloat.special (c :: r)); reflexivity.
Qed.

Lemma digit_facts (c : ascii) :
  PyFloat.is_digit c = true ->
  PyFloat.is_space c = false /\ PyFloat.is_underscore c = false /\
  Ascii.eqb c "-"%char = false /\ Ascii.eqb c "+"%char = false /\
  Str.lower_char c = c.
Proof.
  intros H.
  pose proof (for_all_chars
    (fun c => implb (PyFloat.is_digit c)
                (negb (PyFloat.is_space c) && negb (PyFloat.is_underscore c)
                 && negb (Ascii.eqb c "-"%char) && negb (Ascii.eqb c "+"%char)
                 && Ascii.eqb (Str.lower_char c) c))
    ltac:(vm_compute; reflexivity) c) as F.
  cbv beta in F. rewrite H in F. simpl in F.
  repeat (apply andb_prop in F; destruct F as [F ?]).
  repeat split; try (apply negb_true_iff; assumption).
  apply Ascii.eqb_eq. assumption.
Qed.

Lemma lstrip_digits (l : list ascii) :
  forallb PyFloat.is_digit l = true -> PyFloat.lstrip l = l.
Proof.
  destruct l as [|c l]; [reflexivity|]. simpl. intros H.
  apply andb_prop in H. destruct H as [Hc _].
  destruct (digit_facts c Hc) as (-> & _). reflexivity.
Qed.

Lemma forallb_rev {A} (P : A -> bool) (l : list A) :
  forallb P (rev l) = forallb P l.
Proof.
  induction l as [|a l IH]; [reflexivity|].
  simpl. rewrite forallb_app, IH. simpl. rewrite andb_true_r. apply andb_comm.
Qed.

Lemma strip_digits (l : list ascii) :
  forallb PyFloat.is_digit l = true -> PyFloat.strip l = l.
Proof.
  intros H. unfold PyFloat.strip. rewrite (lstrip_digits l H).
  rewrite lstrip_digits by (rewrite forallb_rev; exact H). apply rev_involutive.
Qed.

Lemma drop_underscores_digits (prev : option ascii) (l : list ascii) :
  l <> [] -> forallb PyFloat.is_digit l = true ->
  PyFloat.drop_underscores prev l = Some l.
Proof.
  revert prev. induction l as [|c l IH]; intros prev Hne H; [congruence|].
  simpl in H. apply andb_prop in H. destruct H as [Hc Hl].
  destruct (digit_facts c Hc) as (_ & Hu & _).
  simpl. rewrite Hu, Hc, andb_false_r.
  destruct l as [|d l].
  - simpl. rewrite Hu. reflexivity.
  - rewrite IH by (discriminate || exact Hl). reflexivity.
Qed.

Lemma span_digits_all (l : list ascii) :
  forallb PyFloat.is_digit l = true -> PyFloat.span_digits l = (l, []).
Proof.
  induction l as [|c l IH]; [reflexivity|]. simpl. intros H.
  apply andb_prop in H. destruct H as [-> Hl]. rewrite (IH Hl). reflexivity.
Qed.

(** A non-empty string of digits is accepted and read as the double
    nearest to the integer it writes. *)
Lemma parse_digits (s : string) :
  s <> EmptyString ->
  forallb PyFloat.is_digit (list_ascii_of_string s) = true ->
  PyFloat.parse s =
    Some (Num.float_of_decimal (PyFloat.digits_val (list_ascii_of_string s)) 0).
Proof.
  intros Hne H. unfold PyFloat.parse.
  set (l := list_ascii_of_string s) in *.
  assert (Hl : l <> []) by (destruct s; [congruence | discriminate]).
  rewrite (strip_digits l H), (drop_underscores_digits None l Hl H).
  destruct l as [|c l']; [congruence|].
  pose proof H as H'. simpl in H'. apply andb_prop in H'. destruct H' as [Hc _].
  destruct (digit_facts c Hc) as (_ & _ & Hm & Hp & _).
  unfold PyFloat.take_sign. rewrite Hm, Hp.
  unfold PyFloat.decimal. rewrite (span_digits_all (c :: l') H). simpl.
  rewrite app_nil_r. reflexivity.
Qed.

Lemma lower_digits (s : string) :
  forallb PyFloat.is_digit (list_ascii_of_string s) = true -> Str.lower s = s.
Proof.
  induction s as [|c s IH]; [reflexivity|]. simpl. intros H.
  apply andb_prop in H. destruct H as [Hc Hs].
  destruct (digit_facts c Hc) as (_ & _ & _ & _ & ->). rewrite (IH Hs). reflexivity.
Qed.

Lemma digits_spaceless (s : string) :
  forallb PyFloat.is_digit (list_ascii_of_string s) = true -> spaceless s = true.
Proof.
  unfold spaceless. induction s as [|c s IH]; [reflexivity|]. simpl. intros H.
  apply andb_prop in H. destruct H as [Hc Hs]. rewrite (IH Hs), andb_true_r.
  pose proof (for_all_chars
    (fun c => implb (PyFloat.is_digit c) (negb (Ascii.eqb c Str.space)))
    ltac:(vm_compute; reflexivity) c) as F.
  cbv beta in F. rewrite Hc in F. exact F.
Qed.

End FloatGrammar.

Section Rejected.

Variable P : ascii -> bool.

Lemma lstrip_chars (l : list ascii) :
  (forall c, PyFloat.is_space c = true -> P c = true) ->
  forallb P (PyFloat.lstrip l) = true -> forallb P l = true.
Proof.
  intros Hs. induction l as [|c l IH]; [reflexivity|]. simpl.
  destruct (PyFloat.is_space c) eqn:E.
  - intros H. rewrite (Hs c E), (IH H). reflexivity.
  - intros H. exact H.
Qed.

Lemma strip_chars (l : list ascii) :
  (forall c, PyFloat.is_space c = true -> P c = true) ->
  forallb P (PyFloat.strip l) = true -> forallb P l = true.
Proof.
  intros Hs H. unfold PyFloat.strip in H. rewrite forallb_rev in H.
  apply (lstrip_chars _ Hs) in H. rewrite forallb_rev in H.
  apply (lstrip_chars _ Hs) in H. exact H.
Qed.

Lemma drop_underscores_chars (prev : option ascii) (l r : list ascii) :
  (forall c, PyFloat.is_underscore c = true -> P c = true) ->
  PyFloat.drop_underscores prev l = Some r ->
  forallb P r = true -> forallb P l = true.
Proof.
  intros Hu. revert prev r. induction l as [|c l IH]; intros prev r H Hr;
    [reflexivity|].
  simpl in H. simpl. destruct (PyFloat.is_underscore c) eqn:E.
  - rewrite (Hu c E). simpl. destruct prev as [p|]; [|discriminate].
    destruct (PyFloat.is_digit p); [|discriminate]. exact (IH _ _ H Hr).
  - destruct ((match prev with Some p => PyFloat.is_underscore p | None => false end)
              && negb (PyFloat.is_digit c)); [discriminate|].
    destruct (PyFloat.drop_underscores (Some c) l) as [r'|] eqn:E'; [|discriminate].
    injection H as <-. simpl in Hr. apply andb_prop in Hr. destruct Hr as [-> Hr].
    exact (IH _ _ E' Hr).
Qed.

Lemma take_sign_chars (l body : list ascii) (neg : bool) :
  P "-"%char = true -> P "+"%char = true ->
  PyFloat.take_sign l = (neg, body) ->
  forallb P body = true -> forallb P l = true.
Proof.
  intros Hm Hp H Hb. destruct l as [|c l]; [reflexivity|]. simpl in H.
  destruct (Ascii.eqb c "-"%char) eqn:E1.
  - apply Ascii.eqb_eq in E1. subst c. injection H as <- <-.
    simpl. rewrite Hm, Hb. reflexivity.
  - destruct (Ascii.eqb c "+"%char) eqn:E2.
    + apply Ascii.eqb_eq in E2. subst c. injection H as <- <-.
      simpl. rewrite Hp, Hb. reflexivity.
    + injection H as <- <-. exact Hb.
Qed.

Lemma span_digits_chars (l d r : list ascii) :
  (forall c, PyFloat.is_digit c = true -> P c = true) ->
  PyFloat.span_digits l = (d, r) ->
  forallb P r = true -> forallb P l = true.
Proof.
  intros Hd. revert d r. induction l as [|c l IH]; intros d r H Hr;
    [reflexivity|].
  simpl in H. destruct (PyFloat.is_digit c) eqn:E.
  - destruct (PyFloat.span_digits l) as [d' r'] eqn:E'. injection H as <- <-.
    simpl. rewrite (Hd c E), (IH _ _ eq_refl Hr). reflexivity.
  - injection H as <- <-. exact Hr.
Qed.

Hypothesis P_digit : forall c, PyFloat.is_digit c = true -> P c = true.
Hypothesis P_minus : P "-"%char = true.
Hypothesis P_plus : P "+"%char = true.
Hypothesis P_point : P "."%char = true.
Hypothesis P_e : P "e"%char = true.
Hypothesis P_E : P "E"%char = true.

Lemma exponent_chars (l : list ascii) (x : Z) :
  PyFloat.exponent l = Some (x, []) -> forallb P l = true.
Proof.
  destruct l as [|c l]; [reflexivity|]. unfold PyFloat.exponent.
  destruct (Ascii.eqb c "e"%char || Ascii.eqb c "E"%char) eqn:E;
    [|discriminate].
  destruct (PyFloat.take_sign l) as [neg r] eqn:Et.
  destruct (PyFloat.span_digits r) as [d r'] eqn:Ed.
  destruct d as [|d0 d]; [discriminate|]. intros H. injection H as _ ->.
  simpl. apply andb_true_intro. split.
  - apply orb_prop in E. destruct E as [E|E]; apply Ascii.eqb_eq in E; subst c;
      assumption.
  - apply (take_sign_chars _ _ _ P_minus P_plus Et).
    apply (span_digits_chars _ _ _ P_digit Ed). reflexivity.
Qed.

Lemma decimal_chars (l : list ascii) (f : float) :
  PyFloat.decimal l = Some f -> forallb P l = true.
Proof.
  unfold PyFloat.decimal.
  destruct (PyFloat.span_digits l) as [ip r1] eqn:E1.
  intros H. apply (span_digits_chars _ _ _ P_digit E1).
  destruct r1 as [|c r].
  - reflexivity.
  - destruct (Ascii.eqb c "."%char) eqn:Ec.
    + apply Ascii.eqb_eq in Ec. subst c.
      destruct (PyFloat.span_digits r) as [fp r2] eqn:E2.
      simpl. rewrite P_point. simpl.
      apply (span_digits_chars _ _ _ P_digit E2).
      destruct (ip ++ fp); [discriminate|].
      destruct (PyFloat.exponent r2) as [[x [|]]|] eqn:Ex; try discriminate.
      exact (exponent_chars _ _ Ex).
    + destruct (ip ++ []); [discriminate|].
      destruct (PyFloat.exponent (c :: r)) as [[x [|]]|] eqn:Ex; try discriminate.
      exact (exponent_chars _ _ Ex).
Qed.

End Rejected.

Section RejectedTokens.

Lemma forallb_lower (R : ascii -> bool) (s : string) :
  forallb R (list_ascii_of_string (Str.lower s))
  = forallb (fun c => R (Str.lower_char c)) (list_ascii_of_string s).
Proof.
  induction s as [|c s IH]; [reflexivity|]. simpl. rewrite IH. reflexivity.
Qed.

Lemma special_chars (l : list ascii) (f : float) :
  PyFloat.special l = Some f -> forallb float_char l = true.
Proof.
  unfold PyFloat.special. intros H.
  assert (Hw : forallb (fun c => existsb (Ascii.eqb c) float_marks)
                 (list_ascii_of_string (Str.lower (string_of_list_ascii l))) = true).
  { destruct (String.eqb _ "inf" || String.eqb _ "infinity") eqn:E.
    - apply orb_prop in E. destruct E as [E|E]; apply String.eqb_eq in E;
        rewrite E; reflexivity.
    - destruct (String.eqb _ "nan") eqn:E'; [|discriminate].
      apply String.eqb_eq in E'. rewrite E'. reflexivity. }
  rewrite forallb_lower, list_ascii_of_string_of_list_ascii in Hw.
  rewrite forallb_forall in Hw. apply forallb_forall. intros c Hc.
  unfold float_char. rewrite (Hw c Hc). apply orb_true_r.
Qed.

Lemma float_char_facts :
  (forall c, PyFloat.is_space c = true -> float_char c = true) /\
  (forall c, PyFloat.is_digit c = true -> float_char c = true) /\
  (forall c, PyFloat.is_underscore c = true -> float_char c = true) /\
  (forall c, float_char (Str.lower_char c) = true -> float_char c = true).
Proof.
  repeat split; intros c H.
  - unfold float_char. rewrite H. reflexivity.
  - unfold float_char. rewrite H, orb_true_r. reflexivity.
  - apply Ascii.eqb_eq in H. subst c. reflexivity.
  - pose proof (for_all_chars
      (fun c => implb (float_char (Str.lower_char c)) (float_char c))
      ltac:(vm_compute; reflexivity) c) as F.
    cbv beta in F. rewrite H in F. exact F.
Qed.

(** Every character of a string [float] accepts is a float character. *)
Lemma parse_chars (s : string) (f : float) :
  PyFloat.parse s = Some f ->
  forallb float_char (list_ascii_of_string s) = true.
Proof.
  destruct float_char_facts as (Hsp & Hd & Hu & _).
  unfold PyFloat.parse. intros H.
  apply (strip_chars _ _ Hsp).
  destruct (PyFloat.drop_underscores None _) as [l|] eqn:El; [|discriminate].
  apply (drop_underscores_chars _ _ _ _ Hu El).
  destruct (PyFloat.take_sign l) as [neg body] eqn:Et.
  apply (take_sign_chars _ _ _ _ eq_refl eq_refl Et).
  destruct (PyFloat.decimal body) as [m|] eqn:Em.
  - exact (decimal_chars _ Hd eq_refl eq_refl eq_refl eq_refl eq_refl _ _ Em).
  - destruct (PyFloat.special body) as [m|] eqn:Es; [|discriminate].
    exact (special_chars _ _ Es).
Qed.

(** A token with a character from outside is not an amount. *)
Lemma foreign_char_rejected (kw tok : string) (rest : list string) :
  forallb spaceless (kw :: tok :: rest) = true ->
  forallb float_char (list_ascii_of_string tok) = false ->
  amount_of (kw :: tok :: rest) = None.
Proof.
  intros Hs Hf. unfold amount_of.
  rewrite command_pieces by (discriminate || exact Hs). simpl.
  destruct (PyFloat.parse (Str.lower tok)) as [f|] eqn:E; [|reflexivity].
  apply parse_chars in E. rewrite forallb_lower in E.
  assert (H : forallb float_char (list_ascii_of_string tok) = true).
  { rewrite forallb_forall in E. apply forallb_forall. intros c Hc.
    apply float_char_facts, E, Hc. }
  congruence.
Qed.

Lemma missing_amount (kw : string) :
  spaceless kw = true -> amount_of [kw] = None.
Proof.
  intros Hs. unfold amount_of.
  rewrite command_pieces; [reflexivity | discriminate |].
  simpl. rewrite Hs. reflexivity.
Qed.

End RejectedTokens.

(** C6 as stated fails: a token that is not a non-negative decimal
    number can still be accepted.  [/finance income nan] and
    [/finance income -25] get no validation message: the amount is added
    and the income total changes. *)
Lemma malformed_amount_is_accepted :
  spec_amount "nan" = false /\ spec_amount "-25" = false /\
  finance Sample.env_member (Sample.says "/finance income nan")
    ["income"; "nan"] world0 =
    (Ok tt,
     set_outbox
       [(Chat 7%N,
         [Txt "Income of "; Val (VNum (NFloat nan));
          Txt " added. Total income: "; Val (VNum (NFloat nan))])]
       (set_finance_data {| income := NFloat nan; expenses := NInt 0 |} world0)) /\
  finance_data (snd (finance Sample.env_member (Sample.says "/finance income -25")
                       ["income"; "-25"] world0))
    = {| income := NFloat (-25); expenses := NInt 0 |} /\
  {| income := NFloat (-25); expenses := NInt 0 |} <> finance_data world0.
Proof.
  split; [reflexivity|]. split; [reflexivity|].
  split; [vm_compute; reflexivity|]. split; [vm_compute; reflexivity|].
  discriminate.
Qed.

(** C6, amended: when a member's [/finance] command starts with "income"
    or "expense" and [float] does not accept its amount, the handler
    returns normally, the world is the old one with one more reply, the
    validation message of the sub-command, and so both totals are what
    they were.  [float] accepts no amount when the command is the
    keyword alone, and none when the token after the keyword has a
    character that is no white space, digit, sign, point, underscore or
    letter of e, inf, infinity and nan.  An amount [float] does accept
    is added to the total of the sub-command, whatever its value. *)
Theorem bad_amount_is_rejected (env : Env) (u : Update) (args : list string)
    (w : World) :
  (admitted (membership env u) ->
   Str.startswith (command_of args) "income" = true \/
   Str.startswith (command_of args) "expense" = true ->
   amount_of args = None ->
   finance env u args w =
     (Ok tt,
      set_outbox
        (outbox w ++
         [(Chat (chat_id u),
           lit (if Str.startswith (command_of args) "income"
                then "Please provide a valid income amount."
                else "Please provide a valid expense amount."))]) w) /\
   finance_data (snd (finance env u args w)) = finance_data w) /\
  (forall kw, args = [kw] -> spaceless kw = true -> amount_of args = None) /\
  (forall kw tok rest,
     args = kw :: tok :: rest ->
     forallb spaceless args = true ->
     forallb float_char (list_ascii_of_string tok) = false ->
     amount_of args = None) /\
  (forall a,
     admitted (membership env u) ->
     Str.startswith (command_of args) "income" = true \/
     Str.startswith (command_of args) "expense" = true ->
     amount_of args = Some a ->
     total_ok (income (finance_data w)) ->
     total_ok (expenses (finance_data w)) ->
     finance_data (snd (finance env u args w)) =
       if Str.startswith (command_of args) "income"
       then {| income := plus (income (finance_data w)) a;
               expenses := expenses (finance_data w) |}
       else {| income := income (finance_data w);
               expenses := plus (expenses (finance_data w)) a |}).
Proof.
  split; [|split; [|split]]; cycle 3.
  - intros a Hm Hs Ha Hi He. unfold finance.
    rewrite (gated_admitted env u _ w Hm).
    destruct (Str.startswith (command_of args) "income") eqn:Ei.
    + rewrite (finance_body_income_ok u args w a Ei Ha Hi). reflexivity.
    + destruct Hs as [Hs|Hs]; [discriminate|].
      rewrite (finance_body_expense_ok u args w a Ei Hs Ha He). reflexivity.
  - intros Hm Hs Ha.
    assert (H : finance env u args w =
      (Ok tt,
       set_outbox
         (outbox w ++
          [(Chat (chat_id u),
            lit (if Str.startswith (command_of args) "income"
                 then "Please provide a valid income amount."
                 else "Please provide a valid expense amount."))]) w)).
    { unfold finance. rewrite (gated_admitted env u _ w Hm).
      destruct (Str.startswith (command_of args) "income") eqn:Ei.
      - apply finance_body_income_bad; assumption.
      - destruct Hs as [Hs|Hs]; [discriminate|].
        apply finance_body_expense_bad; assumption. }
    split; [exact H|]. rewrite H. reflexivity.
  - intros kw -> Hs. apply missing_amount, Hs.
  - intros kw tok rest -> Hs Hf. apply foreign_char_rejected; assumption.
Qed.

Lemma bad_amount_is_rejected_witness :
  admitted (membership Sample.env_member (Sample.says "/finance income abc")) /\
  forallb float_char (list_ascii_of_string "abc") = false /\
  amount_of ["income"; "abc"] = None /\
  amount_of ["expense"] = None /\
  finance Sample.env_member (Sample.says "/finance income abc")
    ["income"; "abc"] world0 =
    (Ok tt,
     set_outbox
       [(Chat 7%N, lit "Please provide a valid income amount.")] world0) /\
  finance_data (snd (finance Sample.env_member (Sample.says "/finance expense")
                       ["expense"] world0)) = finance_data world0.
Proof.
  pose (u1 := Sample.says "/finance income abc").
  pose (u2 := Sample.says "/finance expense").
  assert (Hm : admitted (membership Sample.env_member u1)) by (simpl; auto).
  assert (Hf : forallb float_char (list_ascii_of_string "abc") = false)
    by reflexivity.
  assert (H1 : amount_of ["income"; "abc"] = None).
  { exact (proj1 (proj2 (proj2 (bad_amount_is_rejected Sample.env_member u1
                                  ["income"; "abc"] world0)))
             "income" "abc" [] eq_refl eq_refl Hf). }
  assert (H2 : amount_of ["expense"] = None).
  { exact (proj1 (proj2 (bad_amount_is_rejected Sample.env_member u2
                           ["expense"] world0))
             "expense" eq_refl eq_refl). }
  split; [exact Hm|]. split; [exact Hf|]. split; [exact H1|]. split; [exact H2|].
  split.
  - exact (proj1 (proj1 (bad_amount_is_rejected Sample.env_member u1
                           ["income"; "abc"] world0)
                    Hm (or_introl eq_refl) H1)).
  - exact (proj2 (proj1 (bad_amount_is_rejected Sample.env_member u2
                           ["expense"] world0)
                    Hm (or_intror eq_refl) H2)).
Defined.

(** ** Gated handlers *)

Section GatedHandlers.

Variable env : Env.

(** The world after a refused command: the gate's world with the prompt
    appended to the outbox. *)
Lemma study_refused (u : Update) (args : list string) (fuel : nat) (w : World) :
  refused (membership env u) ->
  study env u args fuel w =
    (Returned,
     set_outbox (outbox (after_gate env u w)
                 ++ [(Chat (chat_id u), join_prompt env)]) (after_gate env u w)).
Proof.
  intros H. unfold study, study_setup, bind.
  rewrite (check_channel_member_refused env u w H). reflexivity.
Qed.

Lemma plain_gated_refused (u : Update) (args : list string) (fuel : nat)
    (w : World) (body : Update -> list string -> M unit) :
  refused (membership env u) ->
  plain (fun u args => gated env u (body u args)) u args fuel w =
    (Returned,
     set_outbox (outbox (after_gate env u w)
                 ++ [(Chat (chat_id u), join_prompt env)]) (after_gate env u w)).
Proof.
  intros H. unfold plain, run. rewrite (gated_refused env u _ w H). reflexivity.
Qed.

Lemma handlers_refuse (name : string) (h : Handler) (u : Update)
    (args : list string) (fuel : nat) (w : World) :
  In (name, h) (command_handlers env) ->
  refused (membership env u) ->
  h u args fuel w =
    (Returned,
     set_outbox (outbox (after_gate env u w)
                 ++ [(Chat (chat_id u), join_prompt env)]) (after_gate env u w)).
Proof.
  intros Hin Hr. unfold command_handlers in Hin. simpl in Hin.
  repeat (destruct Hin as [Hin|Hin];
          [injection Hin as _ <-;
           first [ apply study_refused, Hr
                 | apply (plain_gated_refused u args fuel w), Hr ] |]).
  destruct Hin.
Qed.

Lemma after_gate_frame (u : Update) (w : World) :
  finance_data (after_gate env u w) = finance_data w /\
  user_data (after_gate env u w) = user_data w /\
  jobs (after_gate env u w) = jobs w /\
  outbox (after_gate env u w) = outbox w.
Proof.
  unfold after_gate. destruct (membership env u); simpl; auto.
Qed.

Lemma find_handler_In (name : string) (h : Handler) (l : list (string * Handler)) :
  find_handler name l = Some h -> In (name, h) l.
Proof.
  induction l as [|[n h'] l IH]; simpl; [discriminate|].
  destruct (String.eqb name n) eqn:E.
  - apply String.eqb_eq in E. intros [= ->]. left. congruence.
  - intros H. right. apply IH, H.
Qed.

Lemma find_handler_known (name : string) (l : list (string * Handler)) :
  In name (map fst l) -> exists h, find_handler name l = Some h.
Proof.
  induction l as [|[n h'] l IH]; simpl; [tauto|].
  intros [->|Hin].
  - rewrite String.eqb_refl. eauto.
  - destruct (String.eqb name n); eauto.
Qed.

End GatedHandlers.

(** C7: when the membership collaborator raises or reports a status that
    is not a member status, [check_channel_member] returns [False]
    without raising, logging the exception in the first case and leaving
    the world alone in the second; each of the nine command handlers then
    returns after sending the join prompt and nothing else: ledger, user
    data and jobs are unchanged. *)
Theorem refused_sender_gets_prompt (env : Env) (u : Update) (w : World) :
  refused (membership env u) ->
  check_channel_member env u w = (Ok false, after_gate env u w) /\
  (forall e, membership env u = Raise e ->
             after_gate env u w = set_logged (logged w ++ [gate_log e]) w) /\
  (forall s, membership env u = Ok s -> after_gate env u w = w) /\
  map fst (command_handlers env) =
    ["start"; "confession"; "quiz"; "finance"; "study"; "weather"; "music";
     "fitness"; "language"] /\
  forall name h args fuel,
    In (name, h) (command_handlers env) ->
    exists w',
      h u args fuel w = (Returned, w') /\
      outbox w' = outbox w ++ [(Chat (chat_id u), join_prompt env)] /\
      finance_data w' = finance_data w /\
      user_data w' = user_data w /\
      jobs w' = jobs w /\
      logged w' = logged (after_gate env u w).
Proof.
  intros Hr. split; [apply check_channel_member_refused, Hr|].
  split; [intros e He; unfold after_gate; rewrite He; reflexivity|].
  split; [intros s Hs; unfold after_gate; rewrite Hs; reflexivity|].
  split; [reflexivity|].
  intros name h args fuel Hin.
  destruct (after_gate_frame env u w) as (Hf & Hu & Hj & Ho).
  eexists. split; [apply (handlers_refuse env name h u args fuel w Hin Hr)|].
  simpl. rewrite Ho. auto.
Qed.

Lemma refused_sender_gets_prompt_witness :
  refused (membership Sample.env_down (Sample.says "/finance income 5")) /\
  refused (membership Sample.env_left (Sample.says "/finance income 5")) /\
  finance Sample.env_down (Sample.says "/finance income 5") ["income"; "5"] world0 =
    (Ok tt,
     {| finance_data := finance_data world0; user_data := ∅; jobs := [];
        clock := 0%N; draws := 0%nat;
        outbox := [(Chat 7%N, [Txt "Please join the channel first: ";
                               Val (VStr "@superbot")])];
        logged := [gate_log (External "NetworkError")] |}) /\
  check_channel_member Sample.env_left (Sample.says "/finance income 5") world0 =
    (Ok false, world0).
Proof.
  split; [exact I|]. split; [simpl; intuition discriminate|].
  split; [vm_compute; reflexivity|].
  apply (refused_sender_gets_prompt Sample.env_left
           (Sample.says "/finance income 5") world0).
  simpl. intuition discriminate.
Defined.

(** ** Faults of the collaborators *)

Section Faults.

Variable env : Env.

Lemma check_channel_member_total (u : Update) (w : World) :
  exists b w', check_channel_member env u w = (Ok b, w').
Proof.
  destruct (membership env u) as [s|e] eqn:E.
  - rewrite (check_channel_member_ok env u w s E). eauto.
  - rewrite (check_channel_member_raise env u w e E). eauto.
Qed.

Lemma quiz_request_fails (u : Update) (args : list string) (w : World) (e : exn) :
  admitted (membership env u) ->
  requests_get_json env quiz_url = Raise e ->
  quiz env u args w = (Raise e, w).
Proof.
  intros Hm He. unfold quiz. rewrite (gated_admitted env u _ w Hm).
  unfold bind, lift. rewrite He. reflexivity.
Qed.

Lemma quiz_payload_malformed (u : Update) (args : list string) (w : World)
    (data : pyval) (e : exn) :
  admitted (membership env u) ->
  requests_get_json env quiz_url = Ok data ->
  Py.getitem data (KStr "results") = Raise e ->
  quiz env u args w = (Raise e, w).
Proof.
  intros Hm Hd He. unfold quiz. rewrite (gated_admitted env u _ w Hm).
  unfold bind, lift. rewrite Hd, He. reflexivity.
Qed.

Lemma weather_request_fails (u : Update) (args : list string) (w : World)
    (e : exn) :
  admitted (membership env u) ->
  Str.truthy (Str.join " " args) = true ->
  requests_get_json env (weather_url env (Str.join " " args)) = Raise e ->
  weather env u args w = (Raise e, w).
Proof.
  intros Hm Hc He. unfold weather. rewrite (gated_admitted env u _ w Hm).
  rewrite Hc. simpl. unfold bind, lift. rewrite He. reflexivity.
Qed.

Lemma weather_payload_malformed (u : Update) (args : list string) (w : World)
    (data : pyval) (e : exn) :
  admitted (membership env u) ->
  Str.truthy (Str.join " " args) = true ->
  requests_get_json env (weather_url env (Str.join " " args)) = Ok data ->
  Py.getitem data (KStr "cod") = Raise e ->
  weather env u args w = (Raise e, w).
Proof.
  intros Hm Hc Hd He. unfold weather. rewrite (gated_admitted env u _ w Hm).
  rewrite Hc. simpl. unfold bind, lift. rewrite Hd, He. reflexivity.
Qed.

Lemma dispatch_catches (ev : event) (u : Update) (fuel : nat) (w : World)
    (e : exn) :
  fst (dispatch env ev u fuel w) <> Raised e.
Proof.
  unfold dispatch. destruct (route env ev) as [h|]; [|discriminate].
  destruct (h u fuel w) as [[| e' |] w']; simpl; discriminate.
Qed.

Lemma dispatch_logs (ev : event) (u : Update) (fuel : nat) (w w' : World)
    (h : Update -> nat -> World -> outcome * World) (e : exn) :
  route env ev = Some h ->
  h u fuel w = (Raised e, w') ->
  dispatch env ev u fuel w =
    (Returned,
     set_logged (logged w' ++ [{| lvl := WARNING; what := "Update caused error";
                                  cause := e |}]) w').
Proof.
  intros Hr Hh. unfold dispatch. rewrite Hr, Hh. reflexivity.
Qed.

End Faults.

(** C8 as stated fails: with the HTTP collaborator down, [quiz] raises
    the collaborator's exception and sends nothing; with a payload that
    lacks the "cod" field, [weather] raises [KeyError] and sends nothing. *)
Lemma http_failure_escapes_quiz :
  quiz Sample.env_offline (Sample.says "/quiz") [] world0
    = (Raise (External "ConnectionError"), world0) /\
  weather Sample.env_member (Sample.says "/weather Paris") ["Paris"] world0
    = (Raise KeyError, world0) /\
  outbox (snd (dispatch Sample.env_offline (Command "quiz" [])
                 (Sample.says "/quiz") 0 world0)) = [].
Proof.
  repeat split; vm_compute; reflexivity.
Qed.

(** C8, amended: the faults caught inside the handlers are those of the
    membership collaborator, which the gate turns into [False].  In
    [quiz] and [weather] an exception raised by the HTTP collaborator, or
    by reading a payload without the expected field, leaves the handler
    with the world unchanged, so without a reply.  It is the dispatcher
    that stops it: [dispatch] never raises, and logs a warning for the
    exception that left the handler. *)
Theorem faults_stop_at_the_dispatcher (env : Env) :
  (forall u w, exists b w', check_channel_member env u w = (Ok b, w')) /\
  (forall u args w e,
     admitted (membership env u) ->
     requests_get_json env quiz_url = Raise e ->
     quiz env u args w = (Raise e, w)) /\
  (forall u args w data e,
     admitted (membership env u) ->
     requests_get_json env quiz_url = Ok data ->
     Py.getitem data (KStr "results") = Raise e ->
     quiz env u args w = (Raise e, w)) /\
  (forall u args w e,
     admitted (membership env u) ->
     Str.truthy (Str.join " " args) = true ->
     requests_get_json env (weather_url env (Str.join " " args)) = Raise e ->
     weather env u args w = (Raise e, w)) /\
  (forall u args w data e,
     admitted (membership env u) ->
     Str.truthy (Str.join " " args) = true ->
     requests_get_json env (weather_url env (Str.join " " args)) = Ok data ->
     Py.getitem data (KStr "cod") = Raise e ->
     weather env u args w = (Raise e, w)) /\
  (forall ev u fuel w e, fst (dispatch env ev u fuel w) <> Raised e) /\
  (forall ev u fuel w w' h e,
     route env ev = Some h ->
     h u fuel w = (Raised e, w') ->
     dispatch env ev u fuel w =
       (Returned,
        set_logged (logged w' ++ [{| lvl := WARNING; what := "Update caused error";
                                     cause := e |}]) w')).
Proof.
  split; [apply check_channel_member_total|].
  split; [apply quiz_request_fails|].
  split; [apply quiz_payload_malformed|].
  split; [apply weather_request_fails|].
  split; [apply weather_payload_malformed|].
  split; [apply dispatch_catches | apply dispatch_logs].
Qed.

Lemma faults_stop_at_the_dispatcher_witness :
  admitted (membership Sample.env_offline (Sample.says "/quiz")) /\
  requests_get_json Sample.env_offline quiz_url = Raise (External "ConnectionError") /\
  quiz Sample.env_offline (Sample.says "/quiz") [] world0
    = (Raise (External "ConnectionError"), world0).
Proof.
  split; [simpl; auto|]. split; [reflexivity|].
  apply (proj1 (proj2 (faults_stop_at_the_dispatcher Sample.env_offline))).
  - simpl. auto.
  - reflexivity.
Defined.

(** ** The Pomodoro jobs *)

Section StudyFacts.

Variable env : Env.

Lemma run_job_specs (i : nat) (w : World) :
  map Schedule.spec (jobs (Schedule.run_job i w)) = map Schedule.spec (jobs w).
Proof.
  unfold Schedule.run_job. destruct (jobs w !! i) as [j|] eqn:E; [|reflexivity].
  simpl. change (map Schedule.spec) with (fmap (M := list) Schedule.spec).
  rewrite list_fmap_insert. apply list_insert_id.
  rewrite list_lookup_fmap, E. reflexivity.
Qed.

Lemma run_jobs_specs (l : list nat) (w : World) :
  map Schedule.spec (jobs (fold_left (fun w i => Schedule.run_job i w) l w))
  = map Schedule.spec (jobs w).
Proof.
  revert w. induction l as [|i l IH]; intros w; [reflexivity|].
  simpl. rewrite IH. apply run_job_specs.
Qed.

Lemma study_turn_specs (w : World) :
  map Schedule.spec (jobs (study_turn w)) = map Schedule.spec (jobs w).
Proof.
  unfold study_turn, Schedule.sleep1, Schedule.run_pending. simpl.
  apply run_jobs_specs.
Qed.

Lemma study_turns_specs (fuel : nat) (w : World) :
  map Schedule.spec (jobs (Nat.iter fuel study_turn w))
  = map Schedule.spec (jobs w).
Proof.
  induction fuel as [|n IH]; [reflexivity|].
  change (Nat.iter (S n) study_turn w) with (study_turn (Nat.iter n study_turn w)).
  rewrite study_turn_specs. exact IH.
Qed.

Lemma study_setup_admitted (u : Update) (w : World) :
  admitted (membership env u) ->
  exists w',
    study_setup env u w = (Ok true, w') /\
    jobs w' = jobs w ++
      [{| interval := 25; job_chat := chat_id u; job_text := work_over;
          next_run := (clock w + 60 * 25)%N |};
       {| interval := 5; job_chat := chat_id u; job_text := break_over;
          next_run := (clock w + 60 * 5)%N |}].
Proof.
  intros Hm. unfold study_setup, bind.
  rewrite (check_channel_member_admitted env u w Hm). simpl.
  eexists. split; [reflexivity|]. simpl. rewrite <- app_assoc. reflexivity.
Qed.

(** One admitted [/study]: the handler is in its loop after any number of
    turns, and the jobs are the old ones followed by the new pair. *)
Lemma study_admitted (u : Update) (args : list string) (fuel : nat) (w : World) :
  admitted (membership env u) ->
  exists w',
    study env u args fuel w = (Looping, w') /\
    map Schedule.spec (jobs w') =
      map Schedule.spec (jobs w) ++
      [(25%N, chat_id u, work_over); (5%N, chat_id u, break_over)].
Proof.
  intros Hm. destruct (study_setup_admitted u w Hm) as (w1 & Hs & Hj).
  unfold study. rewrite Hs. eexists. split; [reflexivity|].
  rewrite study_turns_specs, Hj, map_app. reflexivity.
Qed.

End StudyFacts.

(** C9: every [/study] that passes the gate appends one 25-minute job
    and one 5-minute job to the scheduler's list, due 25 and 5 minutes
    after the registration, and never leaves its loop; whatever number of
    turns the loop has made, the jobs registered before are still there.
    A second [/study] appends a second pair behind the first. *)
Theorem study_registers_a_pair_each_time (env1 env2 : Env) (u1 u2 : Update)
    (args1 args2 : list string) (fuel1 fuel2 : nat) (w : World) :
  admitted (membership env1 u1) ->
  admitted (membership env2 u2) ->
  exists w0 w1 w2,
    study env1 u1 args1 0 w = (Looping, w0) /\
    jobs w0 = jobs w ++
      [{| interval := 25; job_chat := chat_id u1; job_text := work_over;
          next_run := (clock w + 60 * 25)%N |};
       {| interval := 5; job_chat := chat_id u1; job_text := break_over;
          next_run := (clock w + 60 * 5)%N |}] /\
    study env1 u1 args1 fuel1 w = (Looping, w1) /\
    map Schedule.spec (jobs w1) =
      map Schedule.spec (jobs w) ++
      [(25%N, chat_id u1, work_over); (5%N, chat_id u1, break_over)] /\
    study env2 u2 args2 fuel2 w1 = (Looping, w2) /\
    map Schedule.spec (jobs w2) =
      map Schedule.spec (jobs w) ++
      [(25%N, chat_id u1, work_over); (5%N, chat_id u1, break_over);
       (25%N, chat_id u2, work_over); (5%N, chat_id u2, break_over)].
Proof.
  intros H1 H2.
  destruct (study_setup_admitted env1 u1 w H1) as (w0 & Hs0 & Hj0).
  destruct (study_admitted env1 u1 args1 fuel1 w H1) as (w1 & Hs1 & Hj1).
  destruct (study_admitted env2 u2 args2 fuel2 w1 H2) as (w2 & Hs2 & Hj2).
  exists w0, w1, w2. split.
  { unfold study. rewrite Hs0. reflexivity. }
  split; [exact Hj0|]. split; [exact Hs1|]. split; [exact Hj1|].
  split; [exact Hs2|]. rewrite Hj2, Hj1, <- app_assoc. reflexivity.
Qed.

Lemma study_registers_a_pair_each_time_witness :
  admitted (membership Sample.env_member (Sample.says "/study")) /\
  exists w0 w1 w2,
    study Sample.env_member (Sample.says "/study") [] 0 world0 = (Looping, w0) /\
    jobs w0 = jobs world0 ++
      [{| interval := 25; job_chat := 7; job_text := work_over;
          next_run := (clock world0 + 60 * 25)%N |};
       {| interval := 5; job_chat := 7; job_text := break_over;
          next_run := (clock world0 + 60 * 5)%N |}] /\
    study Sample.env_member (Sample.says "/study") [] 2000 world0 = (Looping, w1) /\
    map Schedule.spec (jobs w1) =
      map Schedule.spec (jobs world0) ++
      [(25%N, 7%N, work_over); (5%N, 7%N, break_over)] /\
    study Sample.env_member (Sample.says "/study") [] 10 w1 = (Looping, w2) /\
    map Schedule.spec (jobs w2) =
      map Schedule.spec (jobs world0) ++
      [(25%N, 7%N, work_over); (5%N, 7%N, break_over);
       (25%N, 7%N, work_over); (5%N, 7%N, break_over)].
Proof.
  split; [simpl; auto|].
  apply (study_registers_a_pair_each_time Sample.env_member Sample.env_member
           (Sample.says "/study") (Sample.says "/study") [] [] 2000 10 world0);
    simpl; auto.
Defined.

(** ** Free text and the gate *)

Section Routing.

Variable env : Env.

Lemma dispatch_text_stored (u : Update) (fuel : nat) (w : World) (ans : string) :
  session u w !! "correct_answer" = Some (VStr ans) ->
  dispatch env Text u fuel w =
    (Returned,
     set_outbox (outbox w ++
                 [(Chat (chat_id u),
                   if Str.eq_upto_case (text u) ans then lit "Correct!"
                   else [Txt incorrect_prefix; Val (VStr ans)])]) w).
Proof.
  intros H. unfold dispatch, route, run.
  rewrite (check_answer_stored u w ans H). reflexivity.
Qed.

Lemma dispatch_command_refused (name : string) (args : list string)
    (u : Update) (fuel : nat) (w : World) :
  In name (map fst (command_handlers env)) ->
  refused (membership env u) ->
  dispatch env (Command name args) u fuel w =
    (Returned,
     set_outbox (outbox (after_gate env u w)
                 ++ [(Chat (chat_id u), join_prompt env)]) (after_gate env u w)).
Proof.
  intros Hn Hr. destruct (find_handler_known name _ Hn) as [h Hh].
  unfold dispatch, route. rewrite Hh.
  rewrite (handlers_refuse env name h u args fuel w (find_handler_In _ _ _ Hh) Hr).
  reflexivity.
Qed.

End Routing.

(** C10 as stated fails for the messages that meet an empty slot: a
    sender who has left the channel writes "hello" before any quiz, and
    no reply is sent. *)
Lemma free_text_without_quiz_gets_no_reply :
  refused (membership Sample.env_left (Sample.says "hello")) /\
  session (Sample.says "hello") world0 !! "correct_answer" = None /\
  outbox (snd (dispatch Sample.env_left Text (Sample.says "hello") 0 world0)) = [].
Proof.
  split; [simpl; intuition discriminate|]. split; [reflexivity|].
  vm_compute. reflexivity.
Qed.

(** C10, amended: free text is routed to [check_answer], which does not
    consult the gate.  Whatever the membership collaborator says about
    the sender, a free-text message that arrives while the session holds
    a quiz answer is evaluated and answered; a command of a refused
    sender, for each of the nine command names, only gets the join
    prompt. *)
Theorem free_text_is_not_gated (env : Env) (u : Update) (fuel : nat) (w : World)
    (ans : string) :
  session u w !! "correct_answer" = Some (VStr ans) ->
  dispatch env Text u fuel w =
    (Returned,
     set_outbox (outbox w ++
                 [(Chat (chat_id u),
                   if Str.eq_upto_case (text u) ans then lit "Correct!"
                   else [Txt incorrect_prefix; Val (VStr ans)])]) w) /\
  (refused (membership env u) ->
   forall name args,
     In name (map fst (command_handlers env)) ->
     outbox (snd (dispatch env (Command name args) u fuel w)) =
       outbox w ++ [(Chat (chat_id u), join_prompt env)]).
Proof.
  intros H. split; [apply dispatch_text_stored, H|].
  intros Hr name args Hn.
  rewrite (dispatch_command_refused env name args u fuel w Hn Hr). simpl.
  destruct (after_gate_frame env u w) as (_ & _ & _ & Ho). rewrite Ho.
  reflexivity.
Qed.

Lemma free_text_is_not_gated_witness :
  let w1 := snd (quiz Sample.env_member (Sample.says "/quiz") [] world0) in
  session (Sample.says "PARIS") w1 !! "correct_answer" = Some (VStr "Paris") /\
  refused (membership Sample.env_left (Sample.says "PARIS")) /\
  dispatch Sample.env_left Text (Sample.says "PARIS") 0 w1 =
    (Returned,
     set_outbox (outbox w1 ++ [(Chat 7%N, lit "Correct!")]) w1) /\
  outbox (snd (dispatch Sample.env_left (Command "quiz" []) (Sample.says "PARIS") 0 w1)) =
    outbox w1 ++ [(Chat 7%N, join_prompt Sample.env_left)].
Proof.
  cbv zeta.
  assert (Hs : session (Sample.says "PARIS")
                 (snd (quiz Sample.env_member (Sample.says "/quiz") [] world0))
                 !! "correct_answer" = Some (VStr "Paris"))
    by (vm_compute; reflexivity).
  assert (Hr : refused (membership Sample.env_left (Sample.says "PARIS")))
    by (simpl; intuition discriminate).
  split; [exact Hs|]. split; [exact Hr|].
  pose proof (free_text_is_not_gated Sample.env_left (Sample.says "PARIS") 0
                (snd (quiz Sample.env_member (Sample.says "/quiz") [] world0))
                "Paris" Hs) as [Ht Hc].
  split; [exact Ht|].
  apply (Hc Hr "quiz" []). simpl. auto.
Defined.

(** * Beyond the claims *)

(** ** One writer for each piece of state *)

Ltac crush_cases :=
  unfold bind, lift, ret, try_except, reply_text, send, log, user_data_get,
    user_data_set, shuffle, add_income, add_expense, get_balance;
  simpl;
  repeat (match goal with
          | |- context [match ?x with _ => _ end] =>
              lazymatch x with
              | context [match _ with _ => _ end] => fail
              | _ => destruct x eqn:?; simpl
              end
          end).

Ltac crush_m := crush_cases; repeat split; try reflexivity.

Ltac unfold_handler :=
  cbv zeta;
  unfold start, confession, quiz, finance, finance_body, weather, music,
    fitness, language, get_word_of_the_day, check_answer,
    send_confession_to_group, gated, check_channel_member.

Ltac open_handler := intros; unfold_handler.

Section Frames.
Variable env : Env.


Lemma start_frame u args w : frame3 w (snd (start env u args w)).
Proof. unfold frame3. open_handler. crush_m. Qed.

Lemma confession_frame u args w : frame3 w (snd (confession env u args w)).
Proof. unfold frame3. open_handler. crush_m. Qed.

Lemma weather_frame u args w : frame3 w (snd (weather env u args w)).
Proof. unfold frame3. open_handler. crush_m. Qed.

Lemma music_frame u args w : frame3 w (snd (music env u args w)).
Proof. unfold frame3. open_handler. crush_m. Qed.

Lemma fitness_frame u args w : frame3 w (snd (fitness env u args w)).
Proof. unfold frame3. open_handler. crush_m. Qed.

Lemma language_frame u args w : frame3 w (snd (language env u args w)).
Proof. unfold frame3. open_handler. crush_m. Qed.

Lemma quiz_frame u args w :
  finance_data (snd (quiz env u args w)) = finance_data w /\
  jobs (snd (quiz env u args w)) = jobs w.
Proof. open_handler. crush_m. Qed.

Lemma finance_frame u args w :
  user_data (snd (finance env u args w)) = user_data w /\
  jobs (snd (finance env u args w)) = jobs w.
Proof. open_handler. crush_m. Qed.


Lemma run_job_frame (i : nat) (w : World) :
  finance_data (Schedule.run_job i w) = finance_data w /\
  user_data (Schedule.run_job i w) = user_data w /\
  clock (Schedule.run_job i w) = clock w.
Proof. unfold Schedule.run_job. destruct (jobs w !! i); simpl; auto. Qed.

Lemma run_jobs_frame (l : list nat) (w : World) :
  let w' := fold_left (fun w i => Schedule.run_job i w) l w in
  finance_data w' = finance_data w /\ user_data w' = user_data w /\
  clock w' = clock w.
Proof.
  cbv zeta. revert w. induction l as [|i l IH]; intros w; [simpl; auto|].
  simpl. destruct (IH (Schedule.run_job i w)) as (-> & -> & ->).
  apply run_job_frame.
Qed.

Lemma study_turn_frame (w : World) :
  finance_data (study_turn w) = finance_data w /\
  user_data (study_turn w) = user_data w /\
  clock (study_turn w) = (clock w + 1)%N.
Proof.
  unfold study_turn, Schedule.sleep1, Schedule.run_pending. simpl.
  destruct (run_jobs_frame
              (Schedule.sorted
                 (fun i => match jobs w !! i with
                           | Some j => next_run j
                           | None => 0%N
                           end)
                 (Schedule.runnable (clock w) 0 (jobs w))) w) as (-> & -> & ->).
  auto.
Qed.

Lemma study_turns_frame (fuel : nat) (w : World) :
  finance_data (Nat.iter fuel study_turn w) = finance_data w /\
  user_data (Nat.iter fuel study_turn w) = user_data w /\
  clock (Nat.iter fuel study_turn w) = (clock w + N.of_nat fuel)%N.
Proof.
  induction fuel as [|n IH].
  - simpl. repeat split. lia.
  - change (Nat.iter (S n) study_turn w) with (study_turn (Nat.iter n study_turn w)).
    destruct (study_turn_frame (Nat.iter n study_turn w)) as (-> & -> & ->).
    destruct IH as (-> & -> & ->). repeat split. lia.
Qed.

Lemma study_setup_frame u w :
  finance_data (snd (study_setup env u w)) = finance_data w /\
  user_data (snd (study_setup env u w)) = user_data w.
Proof.
  unfold study_setup, check_channel_member, Schedule.every_minutes_do. crush_m.
Qed.

Lemma study_frame u args fuel w :
  finance_data (snd (study env u args fuel w)) = finance_data w /\
  user_data (snd (study env u args fuel w)) = user_data w.
Proof.
  unfold study. pose proof (study_setup_frame u w) as H.
  destruct (study_setup env u w) as [[[|]|e] w1]; simpl in *; try exact H.
  destruct (study_turns_frame fuel w1) as (-> & -> & _). exact H.
Qed.

Lemma check_answer_quiet u w :
  frame3 w (snd (check_answer u w)).
Proof. unfold frame3. open_handler. crush_m. Qed.

End Frames.

Section DispatchFrames.
Variable env : Env.

Lemma snd_run (m : M unit) (w : World) : snd (run m w) = snd (m w).
Proof. unfold run. destruct (m w) as [[|] w']; reflexivity. Qed.

Lemma after_error {X} (proj : World -> X) (u : Update) (r : outcome * World) :
  (forall l w, proj (set_logged l w) = proj w) ->
  proj (snd (let (o, w') := r in
             match o with
             | Returned => (Returned, w')
             | Raised e => run (error u e) w'
             | Looping => (Looping, w')
             end)) = proj (snd r).
Proof.
  intros H. destruct r as [[| e |] w']; try reflexivity.
  unfold error, log, run. simpl. apply H.
Qed.

Ltac by_handler E :=
  apply find_handler_In in E; unfold command_handlers in E; simpl in E;
  repeat (destruct E as [E|E]; [injection E as <- <-|]); [..|destruct E].

Lemma dispatch_keeps_ledger (ev : event) (u : Update) (fuel : nat) (w : World) :
  is_command "finance" ev = false ->
  finance_data (snd (dispatch env ev u fuel w)) = finance_data w.
Proof.
  intros H. unfold dispatch, route.
  destruct ev as [name args|].
  - destruct (find_handler name (command_handlers env)) as [h|] eqn:E;
      [|reflexivity].
    cbv beta. rewrite (after_error finance_data) by reflexivity.
    by_handler E; try discriminate H; unfold plain; rewrite ?snd_run.
    + apply start_frame.
    + apply confession_frame.
    + apply quiz_frame.
    + apply study_frame.
    + apply weather_frame.
    + apply music_frame.
    + apply fitness_frame.
    + apply language_frame.
  - rewrite (after_error finance_data) by reflexivity. rewrite snd_run.
    apply check_answer_quiet.
Qed.


Lemma dispatch_keeps_user_data (ev : event) (u : Update) (fuel : nat) (w : World) :
  is_command "quiz" ev = false ->
  user_data (snd (dispatch env ev u fuel w)) = user_data w.
Proof.
  intros H. unfold dispatch, route.
  destruct ev as [name args|].
  - destruct (find_handler name (command_handlers env)) as [h|] eqn:E;
      [|reflexivity].
    cbv beta. rewrite (after_error user_data) by reflexivity.
    by_handler E; try discriminate H; unfold plain; rewrite ?snd_run.
    + apply start_frame.
    + apply confession_frame.
    + apply finance_frame.
    + apply study_frame.
    + apply weather_frame.
    + apply music_frame.
    + apply fitness_frame.
    + apply language_frame.
  - rewrite (after_error user_data) by reflexivity. rewrite snd_run.
    apply check_answer_quiet.
Qed.

Lemma dispatch_keeps_jobs (ev : event) (u : Update) (fuel : nat) (w : World) :
  is_command "study" ev = false ->
  jobs (snd (dispatch env ev u fuel w)) = jobs w.
Proof.
  intros H. unfold dispatch, route.
  destruct ev as [name args|].
  - destruct (find_handler name (command_handlers env)) as [h|] eqn:E;
      [|reflexivity].
    cbv beta. rewrite (after_error jobs) by reflexivity.
    by_handler E; try discriminate H; unfold plain; rewrite ?snd_run.
    + apply start_frame.
    + apply confession_frame.
    + apply quiz_frame.
    + apply finance_frame.
    + apply weather_frame.
    + apply music_frame.
    + apply fitness_frame.
    + apply language_frame.
  - rewrite (after_error jobs) by reflexivity. rewrite snd_run.
    apply check_answer_quiet.
Qed.

End DispatchFrames.

Section Replies.
Variable env : Env.


Ltac answered :=
  unfold answers; intros w w'; unfold_handler; crush_cases;
  intros H; try discriminate H; injection H as <-;
  unfold sent; simpl; rewrite <- ?app_assoc;
  eexists _, _; split; reflexivity.

Lemma start_answers u args : answers u (start env u args).
Proof. answered. Qed.
Lemma confession_answers u args : answers u (confession env u args).
Proof. answered. Qed.
Lemma quiz_answers u args : answers u (quiz env u args).
Proof. answered. Qed.
Lemma finance_answers u args : answers u (finance env u args).
Proof. answered. Qed.
Lemma weather_answers u args : answers u (weather env u args).
Proof. answered. Qed.
Lemma music_answers u args : answers u (music env u args).
Proof. answered. Qed.
Lemma fitness_answers u args : answers u (fitness env u args).
Proof. answered. Qed.
Lemma language_answers u args : answers u (language env u args).
Proof. answered. Qed.
Lemma check_answer_answers u : answers u (check_answer u).
Proof. answered. Qed.

End Replies.

Section Routed.
Variable env : Env.

Lemma plain_answers (u : Update) (args : list string) (fuel : nat) (w w' : World)
    (h : Update -> list string -> M unit) :
  answers u (h u args) ->
  (plain h u args fuel w = (Returned, w') ->
   exists l t, sent w w' l /\ chat_messages l = [(chat_id u, t)]) /\
  fst (plain h u args fuel w) <> Looping.
Proof.
  intros H. unfold plain, run. specialize (H w).
  destruct (h u args w) as [[[]|e] w1]; split; try discriminate.
  intros E. injection E as <-. apply H. reflexivity.
Qed.

(** Every handler but [study]: a return means exactly one message went
    to the sender's chat, and the handler does not loop. *)
Lemma routed_answers (ev : event) (u : Update) (fuel : nat) (w w' : World)
    (h : Update -> nat -> World -> outcome * World) :
  is_command "study" ev = false ->
  route env ev = Some h ->
  (h u fuel w = (Returned, w') ->
   exists l t, sent w w' l /\ chat_messages l = [(chat_id u, t)]) /\
  fst (h u fuel w) <> Looping.
Proof.
  intros Hs Hr. unfold route in Hr. destruct ev as [name args|].
  - destruct (find_handler name (command_handlers env)) as [h0|] eqn:E;
      [|discriminate].
    injection Hr as <-.
    apply find_handler_In in E; unfold command_handlers in E; simpl in E.
    repeat (destruct E as [E|E]; [injection E as <- <-|]); [..|destruct E];
      try discriminate Hs; apply plain_answers.
    + apply start_answers.
    + apply confession_answers.
    + apply quiz_answers.
    + apply finance_answers.
    + apply weather_answers.
    + apply music_answers.
    + apply fitness_answers.
    + apply language_answers.
  - injection Hr as <-. pose proof (check_answer_answers u w) as H.
    unfold run. destruct (check_answer u w) as [[[]|e] w1]; split;
      try discriminate.
    intros E. injection E as <-. apply H. reflexivity.
Qed.

End Routed.

Section QuizSlot.
Variable env : Env.

Lemma quiz_user_data (u : Update) (args : list string) (w : World) :
  user_data (snd (quiz env u args w)) = user_data w \/
  exists v,
    user_data (snd (quiz env u args w)) =
      <[from_user u := <["correct_answer" := v]> (session u w)]> (user_data w).
Proof.
  open_handler. unfold session. crush_m;
    first [left; reflexivity | right; eexists; reflexivity].
Qed.

Lemma quiz_touches_one_slot (u : Update) (args : list string) (w : World) :
  (forall u', from_user u' <> from_user u ->
              session u' (snd (quiz env u args w)) = session u' w) /\
  (forall k, k <> "correct_answer" ->
             session u (snd (quiz env u args w)) !! k = session u w !! k).
Proof.
  destruct (quiz_user_data u args w) as [H|[v H]]; unfold session; rewrite H.
  - split; reflexivity.
  - split.
    + intros u' Hu. rewrite lookup_insert_ne by congruence. reflexivity.
    + intros k Hk. rewrite lookup_insert_eq. simpl.
      rewrite lookup_insert_ne by congruence. reflexivity.
Qed.

End QuizSlot.

(** ** Extra properties of the dispatcher and the handlers *)

(** X1: each piece of state has one writer.  An event that is not
    [/finance] leaves the ledger as it was, one that is not [/quiz]
    leaves every user's data as it was, and one that is not [/study]
    leaves the scheduler's jobs as they were, whatever the collaborators
    answer and whether or not the handler raises. *)
Theorem one_writer_per_state (env : Env) (ev : event) (u : Update) (fuel : nat)
    (w : World) :
  (is_command "finance" ev = false ->
   finance_data (snd (dispatch env ev u fuel w)) = finance_data w) /\
  (is_command "quiz" ev = false ->
   user_data (snd (dispatch env ev u fuel w)) = user_data w) /\
  (is_command "study" ev = false ->
   jobs (snd (dispatch env ev u fuel w)) = jobs w).
Proof.
  split; [|split].
  - apply dispatch_keeps_ledger.
  - apply dispatch_keeps_user_data.
  - apply dispatch_keeps_jobs.
Qed.

Lemma one_writer_per_state_witness :
  is_command "finance" (Command "quiz" []) = false /\
  finance_data (snd (dispatch Sample.env_member (Command "quiz" [])
                       (Sample.says "/quiz") 0 world0)) = finance_data world0.
Proof.
  split; [reflexivity|].
  apply (proj1 (one_writer_per_state Sample.env_member (Command "quiz" [])
                  (Sample.says "/quiz") 0 world0)).
  reflexivity.
Defined.

(** X2: [quiz] writes one slot only.  Whatever it does, the user data of
    every other user is untouched, and so is every key of the sender's
    data other than "correct_answer". *)
Theorem quiz_touches_only_its_slot (env : Env) (u : Update) (args : list string)
    (w : World) :
  (forall u', from_user u' <> from_user u ->
              session u' (snd (quiz env u args w)) = session u' w) /\
  (forall k, k <> "correct_answer" ->
             session u (snd (quiz env u args w)) !! k = session u w !! k).
Proof. apply quiz_touches_one_slot. Qed.

Lemma quiz_touches_only_its_slot_witness :
  {| from_user := 8%N; chat_id := 8%N; text := "hi" |}.(from_user)
    <> (Sample.says "/quiz").(from_user) /\
  session {| from_user := 8%N; chat_id := 8%N; text := "hi" |}
    (snd (quiz Sample.env_member (Sample.says "/quiz") [] world0))
  = session {| from_user := 8%N; chat_id := 8%N; text := "hi" |} world0.
Proof.
  assert (H : {| from_user := 8%N; chat_id := 8%N; text := "hi" |}.(from_user)
              <> (Sample.says "/quiz").(from_user)) by (simpl; discriminate).
  split; [exact H|].
  exact (proj1 (quiz_touches_only_its_slot Sample.env_member (Sample.says "/quiz")
                  [] world0) _ H).
Defined.

(** X3: a handler other than [study] that returns has sent exactly one
    message to a chat, the chat of the sender (a confession sends one
    more, to the group); and none of these handlers keeps running. *)
Theorem one_reply_on_return (env : Env) (ev : event) (u : Update) (fuel : nat)
    (w w' : World) (h : Update -> nat -> World -> outcome * World) :
  is_command "study" ev = false ->
  route env ev = Some h ->
  (h u fuel w = (Returned, w') ->
   exists l t, sent w w' l /\ chat_messages l = [(chat_id u, t)]) /\
  fst (h u fuel w) <> Looping.
Proof. apply routed_answers. Qed.

Lemma one_reply_on_return_witness :
  is_command "study" (Command "fitness" ["log"; "run"]) = false /\
  exists l t,
    sent world0
      (snd (plain (fitness Sample.env_member) (Sample.says "/fitness log run")
              ["log"; "run"] 0%nat world0)) l /\
    chat_messages l = [(7%N, t)].
Proof.
  split; [reflexivity|].
  exact (proj1 (one_reply_on_return Sample.env_member
                  (Command "fitness" ["log"; "run"])
                  (Sample.says "/fitness log run") 0%nat world0 _ _
                  eq_refl eq_refl) eq_refl).
Defined.

(** X4: a confession whose group send fails is lost without a word.
    When the sender is let in, the text is not empty and building the
    [Updater] or sending to the group raises, [confession] raises the
    same exception with nothing sent and nothing changed; the dispatcher
    stops the exception and logs one warning, so the sender gets no
    reply. *)
Theorem failed_group_send_is_silent (env : Env) (u : Update) (args : list string)
    (fuel : nat) (w : World) (e : exn) :
  admitted (membership env u) ->
  Str.truthy (Str.join " " args) = true ->
  send_message env (TOKEN env) (GROUP_ID env) (Str.join " " args) = Raise e ->
  confession env u args w = (Raise e, w) /\
  dispatch env (Command "confession" args) u fuel w =
    (Returned,
     set_logged (logged w ++ [{| lvl := WARNING; what := "Update caused error";
                                 cause := e |}]) w).
Proof.
  intros Hm Ht Hs.
  assert (H : confession env u args w = (Raise e, w)).
  { unfold confession. rewrite (gated_admitted env u _ w Hm). cbv zeta.
    rewrite Ht. unfold send_confession_to_group, bind, lift. rewrite Hs.
    reflexivity. }
  split; [exact H|].
  apply (dispatch_logs env (Command "confession" args) u fuel w w
           (fun u => plain (confession env) u args) e); [reflexivity|].
  unfold plain, run. rewrite H. reflexivity.
Qed.

Lemma failed_group_send_is_silent_witness :
  admitted (membership Sample.env_group_down (Sample.says "/confession I did it")) /\
  confession Sample.env_group_down (Sample.says "/confession I did it")
    ["I"; "did"; "it"] world0 = (Raise (External "NetworkError"), world0) /\
  outbox (snd (dispatch Sample.env_group_down (Command "confession" ["I"; "did"; "it"])
                 (Sample.says "/confession I did it") 0 world0)) = [].
Proof.
  assert (Hm : admitted (membership Sample.env_group_down
                           (Sample.says "/confession I did it")))
    by (simpl; auto).
  destruct (failed_group_send_is_silent Sample.env_group_down
              (Sample.says "/confession I did it") ["I"; "did"; "it"] 0 world0
              (External "NetworkError") Hm eq_refl eq_refl) as [H1 H2].
  split; [exact Hm|]. split; [exact H1|]. rewrite H2. reflexivity.
Defined.

(** ** States the bot can reach *)

Section Reachable.

Lemma sub_total_ok (a b : pynum) :
  total_ok a -> total_ok b -> exists r, Num.sub a b = Ok r.
Proof.
  intros [->|[x ->]] [->|[y ->]]; unfold Num.sub, Num.binop;
    rewrite ?float_of_int_0; eexists; reflexivity.
Qed.

Lemma dispatch_total_ok (env : Env) (ev : event) (u : Update) (fuel : nat)
    (w : World) :
  total_ok (income (finance_data w)) /\ total_ok (expenses (finance_data w)) ->
  total_ok (income (finance_data (snd (dispatch env ev u fuel w)))) /\
  total_ok (expenses (finance_data (snd (dispatch env ev u fuel w)))).
Proof.
  intros [Hi He]. destruct (is_command "finance" ev) eqn:Ec.
  - destruct ev as [name args|]; [|discriminate].
    simpl in Ec. apply String.eqb_eq in Ec. subst name.
    assert (Hd : finance_data (snd (dispatch env (Command "finance" args) u fuel w))
                 = finance_data (snd (finance env u args w))).
    { unfold dispatch, route.
      replace (find_handler "finance" (command_handlers env))
        with (Some (plain (finance env))) by reflexivity.
      cbv beta.
      rewrite (after_error finance_data) by reflexivity.
      unfold plain. rewrite snd_run. reflexivity. }
    rewrite Hd, (finance_ledger_step env u args w Hi He). simpl.
    split.
    + destruct (income_amount (env, u, args)); [apply plus_total_ok | exact Hi].
    + destruct (expense_amount (env, u, args)); [apply plus_total_ok | exact He].
  - rewrite (dispatch_keeps_ledger env ev u fuel w Ec). auto.
Qed.

Lemma run_events_total_ok (steps : list step) (w : World) :
  total_ok (income (finance_data w)) /\ total_ok (expenses (finance_data w)) ->
  total_ok (income (finance_data (run_events steps w))) /\
  total_ok (expenses (finance_data (run_events steps w))).
Proof.
  revert w. induction steps as [|[[[env ev] u] fuel] steps IH]; intros w H;
    [exact H|].
  unfold run_events. simpl. apply IH, dispatch_total_ok, H.
Qed.

End Reachable.

(** X5: in every state the bot can reach from its start, through any
    sequence of updates and whatever the collaborators answered, each
    ledger total is the initial integer 0 or a float; so the additions
    [finance_data[...] += amount] and the subtraction of the balance
    raise neither [TypeError] nor [OverflowError] there. *)
Theorem reachable_ledger_is_numeric (steps : list step) :
  let ledger := finance_data (run_events steps world0) in
  total_ok (income ledger) /\
  total_ok (expenses ledger) /\
  (forall a, Num.add (income ledger) (NFloat a) = Ok (plus (income ledger) a)) /\
  (forall a, Num.add (expenses ledger) (NFloat a)
             = Ok (plus (expenses ledger) a)) /\
  exists b, Num.sub (income ledger) (expenses ledger) = Ok b.
Proof.
  cbv zeta. destruct (run_events_total_ok steps world0) as [Hi He].
  { split; left; reflexivity. }
  split; [exact Hi|]. split; [exact He|].
  split; [intros a; apply add_total_ok, Hi|].
  split; [intros a; apply add_total_ok, He|].
  apply sub_total_ok; assumption.
Qed.

(** ** Joining and splitting the arguments *)


(** X6: on a non-empty list of space-free strings, as Telegram delivers
    the arguments, [split(" ")] undoes [" ".join], and the pieces of the
    lower-cased command are the lower-cased arguments, one for one.  With
    no argument at all the command is the empty string and its only
    piece is the empty string. *)
Theorem split_undoes_join (args : list string) :
  args <> [] ->
  forallb spaceless args = true ->
  Str.split Str.space (Str.join " " args) = args /\
  Str.split Str.space (command_of args) = map Str.lower args /\
  Str.split Str.space (command_of []) = [EmptyString].
Proof.
  intros Hne Hs. split; [apply split_join; assumption|].
  split; [apply command_pieces; assumption | reflexivity].
Qed.

Lemma split_undoes_join_witness :
  ["Income"; "12.50"; "EUR"] <> [] /\
  forallb spaceless ["Income"; "12.50"; "EUR"] = true /\
  Str.split Str.space (command_of ["Income"; "12.50"; "EUR"])
    = ["income"; "12.50"; "eur"].
Proof.
  assert (Hne : ["Income"; "12.50"; "EUR"] <> []) by discriminate.
  split; [exact Hne|]. split; [reflexivity|].
  exact (proj1 (proj2 (split_undoes_join ["Income"; "12.50"; "EUR"] Hne eq_refl))).
Defined.

(** X7: [finance] takes the amount from the second argument alone, after
    lower-casing it: what follows the amount is ignored, and a command of
    one argument has no amount. *)
Theorem finance_amount_is_second_argument (kw tok : string) (rest : list string) :
  forallb spaceless (kw :: tok :: rest) = true ->
  amount_of (kw :: tok :: rest) = PyFloat.parse (Str.lower tok) /\
  amount_of [kw] = None.
Proof.
  intros Hs. unfold amount_of. split.
  - rewrite command_pieces by (discriminate || exact Hs). reflexivity.
  - rewrite command_pieces; [reflexivity | discriminate |].
    simpl in *. apply andb_prop in Hs. destruct Hs as [-> _]. reflexivity.
Qed.

Lemma finance_amount_is_second_argument_witness :
  forallb spaceless ["income"; "1E3"; "euros"] = true /\
  amount_of ["income"; "1E3"; "euros"] = Some 1000%float.
Proof.
  split; [reflexivity|].
  rewrite (proj1 (finance_amount_is_second_argument "income" "1E3" ["euros"] eq_refl)).
  vm_compute. reflexivity.
Defined.

(** X8: for a member, [/fitness] with a first argument that starts with
    "log" (in any case) replies that the workout is logged, and the
    workout it names is the rest of the arguments, lower-cased and joined
    by single spaces. *)
Theorem fitness_logs_the_rest (env : Env) (u : Update) (kw : string)
    (rest : list string) (w : World) :
  admitted (membership env u) ->
  forallb spaceless (kw :: rest) = true ->
  Str.startswith (Str.lower kw) "log" = true ->
  fitness env u (kw :: rest) w =
    (Ok tt,
     set_outbox
       (outbox w ++
        [(Chat (chat_id u),
          [Txt "Workout '"; Val (VStr (Str.join " " (map Str.lower rest)));
           Txt "' logged!"])]) w).
Proof.
  intros Hm Hs Hk. unfold fitness. rewrite (gated_admitted env u _ w Hm).
  assert (Hc : Str.startswith (command_of (kw :: rest)) "log" = true).
  { unfold command_of. rewrite lower_join.
    destruct rest as [|r rest]; [exact Hk|].
    cbn [map]. rewrite join_cons2. revert Hk. generalize (Str.lower kw) as a.
    intros a. generalize "log"%string as p. revert a.
    induction a as [|c a IH]; intros [|d p] H; try reflexivity; try discriminate.
    rewrite append_cons. simpl in *. apply andb_prop in H. destruct H as [-> H].
    apply IH, H. }
  cbv zeta.
  change (Str.lower (Str.join " " (kw :: rest))) with (command_of (kw :: rest)).
  rewrite Hc, command_pieces by (discriminate || exact Hs). reflexivity.
Qed.

Lemma fitness_logs_the_rest_witness :
  admitted (membership Sample.env_member (Sample.says "/fitness Log Morning RUN")) /\
  fitness Sample.env_member (Sample.says "/fitness Log Morning RUN")
    ["Log"; "Morning"; "RUN"] world0 =
    (Ok tt,
     set_outbox
       (outbox world0 ++
        [(Chat 7%N, [Txt "Workout '"; Val (VStr "morning run"); Txt "' logged!"])])
       world0).
Proof.
  assert (Hm : admitted (membership Sample.env_member
                           (Sample.says "/fitness Log Morning RUN")))
    by (simpl; auto).
  split; [exact Hm|].
  exact (fitness_logs_the_rest Sample.env_member (Sample.says "/fitness Log Morning RUN")
           "Log" ["Morning"; "RUN"] world0 Hm eq_refl eq_refl).
Defined.

(** ** The options of a quiz *)

Section Shuffle.

Variable env : Env.

Lemma insert_perm (i : nat) (x : list pyval) (a b : pyval) :
  x !! i = Some a ->
  Permutation (<[i := b]> x) (b :: take i x ++ drop (S i) x) /\
  Permutation x (a :: take i x ++ drop (S i) x).
Proof.
  intros H. pose proof (lookup_lt_Some _ _ _ H) as Hlt. split.
  - rewrite insert_take_drop by exact Hlt. symmetry. apply Permutation_middle.
  - rewrite <- (take_drop_middle x i a H) at 1. symmetry. apply Permutation_middle.
Qed.

Lemma swap_perm (i j : nat) (x : list pyval) : Permutation (swap i j x) x.
Proof.
  unfold swap. destruct (x !! i) as [a|] eqn:Ei; [|reflexivity].
  destruct (x !! j) as [b|] eqn:Ej; [|reflexivity].
  destruct (decide (i = j)) as [->|Hne].
  - rewrite list_insert_insert_eq. rewrite list_insert_id by exact Ei. reflexivity.
  - destruct (insert_perm i x a b Ei) as [Hy Hx].
    assert (Ey : <[i := b]> x !! j = Some b)
      by (rewrite list_lookup_insert_ne by exact Hne; exact Ej).
    destruct (insert_perm j (<[i := b]> x) b a Ey) as [Hs Hy'].
    eapply Permutation_trans; [exact Hs|].
    eapply Permutation_trans; [|apply Permutation_sym; exact Hx].
    apply perm_skip. apply (Permutation_cons_inv (a := b)).
    eapply Permutation_trans; [apply Permutation_sym; exact Hy' | exact Hy].
Qed.

Lemma shuffle_from_perm (i : nat) (x : list pyval) (n : nat) :
  Permutation (fst (shuffle_from env i x n)) x.
Proof.
  revert x n. induction i as [|i IH]; intros x n; simpl; [reflexivity|].
  eapply Permutation_trans; [apply IH | apply swap_perm].
Qed.

Lemma strings_map (l : list pyval) (r : list string) :
  Py.strings l = Ok r -> l = map VStr r.
Proof.
  revert r. induction l as [|v l IH]; intros r H; simpl in H.
  - injection H as <-. reflexivity.
  - destruct v; try discriminate.
    destruct (Py.strings l) as [r'|]; [|discriminate].
    injection H as <-. simpl. f_equal. apply IH. reflexivity.
Qed.

End Shuffle.

(** X9: when [quiz] returns for a member, its one message shows the
    question of the payload and, joined by ", ", a list of options that
    is a permutation of the payload's incorrect answers followed by its
    correct answer: every option is shown, once, and nothing else is. *)
Theorem quiz_shows_every_option_once (env : Env) (u : Update) (args : list string)
    (w w' : World) :
  admitted (membership env u) ->
  quiz env u args w = (Ok tt, w') ->
  exists data results question question_text incorrect ans shown,
    requests_get_json env quiz_url = Ok data /\
    Py.getitem data (KStr "results") = Ok results /\
    Py.getitem results (KIdx 0) = Ok question /\
    Py.getitem question (KStr "question") = Ok question_text /\
    Py.getitem question (KStr "incorrect_answers") = Ok (VList incorrect) /\
    Py.getitem question (KStr "correct_answer") = Ok (VStr ans) /\
    Permutation (map VStr shown) (incorrect ++ [VStr ans]) /\
    outbox w' = outbox w ++
      [(Chat (chat_id u),
        [Txt "Question: "; Val question_text;
         Txt (String Str.newline "Options: "); Txt (Str.join ", " shown)])].
Proof.
  intros Hm. unfold quiz. rewrite (gated_admitted env u _ w Hm).
  unfold bind, lift.
  destruct (requests_get_json env quiz_url) as [data|] eqn:E1; [|discriminate].
  destruct (Py.getitem data (KStr "results")) as [results|] eqn:E2; [|discriminate].
  destruct (Py.getitem results (KIdx 0)) as [question|] eqn:E3; [|discriminate].
  destruct (Py.getitem question (KStr "question")) as [qt|] eqn:E4; [|discriminate].
  destruct (Py.getitem question (KStr "incorrect_answers")) as [inc|] eqn:E5;
    [|discriminate].
  destruct (Py.getitem question (KStr "correct_answer")) as [c|] eqn:E6;
    [|discriminate].
  destruct (Py.add_list inc [c]) as [opts|] eqn:E7; [|discriminate].
  unfold shuffle.
  pose proof (shuffle_from_perm env (length opts - 1) opts (draws w)) as Hp.
  destruct (shuffle_from env (length opts - 1) opts (draws w)) as [opts' n].
  simpl in Hp.
  destruct (Py.strings opts') as [shown|] eqn:E9; [|discriminate].
  unfold reply_text, send, user_data_set. intros [= <-].
  destruct inc as [| | | |incorrect|]; try discriminate. injection E7 as <-.
  apply strings_map in E9. subst opts'.
  assert (Hc : exists ans, c = VStr ans).
  { assert (Hin : In c (map VStr shown)).
    { apply (Permutation_in c (Permutation_sym Hp)), in_or_app. right. left.
      reflexivity. }
    apply in_map_iff in Hin. destruct Hin as (ans & <- & _). eauto. }
  destruct Hc as [ans ->].
  exists data, results, question, qt, incorrect, ans, shown.
  repeat split; try assumption; reflexivity.
Qed.

Lemma quiz_shows_every_option_once_witness :
  admitted (membership Sample.env_member (Sample.says "/quiz")) /\
  exists shown,
    Permutation (map VStr shown) [VStr "Rome"; VStr "Oslo"; VStr "Bern"; VStr "Paris"].
Proof.
  assert (Hm : admitted (membership Sample.env_member (Sample.says "/quiz")))
    by (simpl; auto).
  split; [exact Hm|].
  destruct (quiz_shows_every_option_once Sample.env_member (Sample.says "/quiz") []
              world0 (snd (quiz Sample.env_member (Sample.says "/quiz") [] world0))
              Hm ltac:(vm_compute; reflexivity))
    as (data & results & question & qt & incorrect & ans & shown
        & E1 & E2 & E3 & _ & E5 & E6 & Hp & _).
  exists shown.
  injection E1 as <-. injection E2 as <-. injection E3 as <-.
  injection E5 as <-. injection E6 as <-. exact Hp.
Defined.

(** ** Confessions and repeated answers *)

(** X10: a confession that returns has sent a message to the group
    exactly when the sender was let in and the text is not empty, and
    then it is the arguments joined by spaces, sent to [GROUP_ID]. *)
Theorem confession_reaches_group_iff (env : Env) (u : Update) (args : list string)
    (w w' : World) :
  confession env u args w = (Ok tt, w') ->
  exists l,
    sent w w' l /\
    group_messages l =
      if lets_in env u && Str.truthy (Str.join " " args)
      then [(GROUP_ID env, lit (Str.join " " args))] else [].
Proof.
  unfold confession. intros H. destruct (lets_in env u) eqn:El.
  - apply lets_in_admitted in El. rewrite (gated_admitted env u _ w El) in H.
    cbv zeta in H. destruct (Str.truthy (Str.join " " args)); simpl.
    + unfold send_confession_to_group, bind, lift, send, reply_text in H.
      destruct (send_message env (TOKEN env) (GROUP_ID env)
                  (Str.join " " args)) as [[]|e]; [|discriminate H].
      injection H as <-.
      exists [(Group (GROUP_ID env), lit (Str.join " " args));
              (Chat (chat_id u),
               lit "Your confession has been sent anonymously!")].
      split; [|reflexivity].
      unfold sent. simpl. rewrite <- app_assoc. reflexivity.
    + injection H as <-.
      exists [(Chat (chat_id u),
               lit "Please provide a confession after the command.")].
      split; reflexivity.
  - apply lets_in_refused in El. rewrite (gated_refused env u _ w El) in H.
    injection H as <-.
    exists [(Chat (chat_id u), join_prompt env)].
    split; [|reflexivity].
    unfold sent, after_gate. simpl. destruct (membership env u); reflexivity.
Qed.

Lemma confession_reaches_group_iff_witness :
  exists l,
    sent world0
      (snd (confession Sample.env_member (Sample.says "/confession I did it")
              ["I"; "did"; "it"] world0)) l /\
    group_messages l = [(VStr "-1001234567890", lit "I did it")].
Proof.
  exact (confession_reaches_group_iff Sample.env_member
           (Sample.says "/confession I did it") ["I"; "did"; "it"] world0
           _ eq_refl).
Defined.

Section Answers.

Lemma eq_upto_case_lower_eq (s t : string) :
  Str.eq_upto_case s t = true <-> Str.lower s = Str.lower t.
Proof. rewrite <- lower_eqb_upto_case. apply String.eqb_eq. Qed.

Lemma verdict_upto_case (ans s t : string) :
  Str.eq_upto_case s t = true -> verdict ans s = verdict ans t.
Proof.
  intros H. apply eq_upto_case_lower_eq in H. unfold verdict.
  rewrite <- !lower_eqb_upto_case, H. reflexivity.
Qed.

Lemma check_answer_verdict (u : Update) (w : World) (ans : string) :
  session u w !! "correct_answer" = Some (VStr ans) ->
  check_answer u w =
    (Ok tt, set_outbox (outbox w ++ [(Chat (chat_id u), verdict ans (text u))]) w).
Proof. apply check_answer_stored. Qed.

Lemma answer_all_stored (x : N) (ans : string) (us : list Update) (w : World) :
  default ∅ (user_data w !! x) !! "correct_answer" = Some (VStr ans) ->
  Forall (fun u => from_user u = x) us ->
  outbox (answer_all us w) =
    outbox w ++ map (fun u => (Chat (chat_id u), verdict ans (text u))) us /\
  user_data (answer_all us w) = user_data w.
Proof.
  revert w. induction us as [|u us IH]; intros w Hs Hall.
  - simpl. rewrite app_nil_r. auto.
  - inversion Hall as [|? ? Hu Hus]; subst.
    assert (Hs' : session u w !! "correct_answer" = Some (VStr ans))
      by (unfold session; exact Hs).
    unfold answer_all. simpl fold_left.
    rewrite (check_answer_verdict u w ans Hs'). simpl snd.
    destruct (IH (set_outbox (outbox w ++ [(Chat (chat_id u), verdict ans (text u))]) w))
      as [Ho Hd]; [exact Hs | exact Hus |].
    unfold answer_all in Ho, Hd. rewrite Ho, Hd. simpl.
    rewrite <- app_assoc. auto.
Qed.

End Answers.

(** X11: once an answer is stored for a user, every later free-text
    message of that user is judged against that same answer: a run of
    such messages raises nothing, adds one reply per message, in order,
    each "Correct!" or the incorrect message, and leaves the user data as
    it was. *)
Theorem answers_can_be_repeated (x : N) (ans : string) (us : list Update)
    (w : World) :
  default ∅ (user_data w !! x) !! "correct_answer" = Some (VStr ans) ->
  Forall (fun u => from_user u = x) us ->
  outbox (answer_all us w) =
    outbox w ++ map (fun u => (Chat (chat_id u), verdict ans (text u))) us /\
  user_data (answer_all us w) = user_data w.
Proof. apply answer_all_stored. Qed.

Lemma answers_can_be_repeated_witness :
  let w1 := snd (quiz Sample.env_member (Sample.says "/quiz") [] world0) in
  outbox (answer_all [Sample.says "Rome"; Sample.says "PARIS"] w1) =
    outbox w1 ++
    [(Chat 7%N, [Txt incorrect_prefix; Val (VStr "Paris")]);
     (Chat 7%N, lit "Correct!")].
Proof.
  cbv zeta.
  exact (proj1 (answers_can_be_repeated 7%N "Paris"
                  [Sample.says "Rome"; Sample.says "PARIS"]
                  (snd (quiz Sample.env_member (Sample.says "/quiz") [] world0))
                  ltac:(vm_compute; reflexivity)
                  ltac:(repeat constructor))).
Defined.

(** X12: the verdict of [check_answer] does not depend on the letter
    case of the message: two messages of one sender that are equal up to
    case get the same result in the same world, whatever is stored. *)
Theorem verdict_ignores_case (u u' : Update) (w : World) :
  from_user u' = from_user u ->
  chat_id u' = chat_id u ->
  Str.eq_upto_case (text u) (text u') = true ->
  check_answer u' w = check_answer u w.
Proof.
  intros Hf Hc Ht. apply eq_upto_case_lower_eq in Ht.
  unfold check_answer, bind, user_data_get, lift, reply_text, session.
  rewrite Hf, Hc, Ht. reflexivity.
Qed.

Lemma verdict_ignores_case_witness :
  let asked := snd (quiz Sample.env_member (Sample.says "/quiz") [] world0) in
  session (Sample.says "PARIS") asked !! "correct_answer" = Some (VStr "Paris") /\
  Str.eq_upto_case (text (Sample.says "pArIs")) (text (Sample.says "PARIS")) = true /\
  check_answer (Sample.says "PARIS") asked = check_answer (Sample.says "pArIs") asked /\
  check_answer (Sample.says "pArIs") asked =
    (Ok tt, set_outbox (outbox asked ++ [(Chat 7%N, lit "Correct!")]) asked).
Proof.
  cbv zeta. split; [reflexivity|]. split; [reflexivity|]. split; [|reflexivity].
  exact (verdict_ignores_case (Sample.says "pArIs") (Sample.says "PARIS")
           (snd (quiz Sample.env_member (Sample.says "/quiz") [] world0))
           eq_refl eq_refl eq_refl).
Defined.

(** ** What [float] accepts *)


(** X13: [finance] accepts a negative amount exactly when it accepts the
    amount without the sign, and reads the opposite value: for a token
    whose first character, lower-cased, is not a space, a sign or an
    underscore, putting a minus sign in front negates the amount read, or
    leaves the token rejected. *)
Theorem negative_amounts_mirror_positive (kw : string) (c : ascii) (s : string)
    (rest : list string) :
  forallb spaceless (kw :: String c s :: rest) = true ->
  plain_start (Str.lower_char c) = true ->
  amount_of (kw :: String "-"%char (String c s) :: rest) =
    option_map PrimFloat.opp (amount_of (kw :: String c s :: rest)).
Proof.
  intros Hs Hc. unfold amount_of.
  assert (Hs' : forallb spaceless (kw :: String "-"%char (String c s) :: rest) = true).
  { simpl in *. apply andb_prop in Hs. destruct Hs as [-> Hs].
    apply andb_prop in Hs. destruct Hs as [Ht ->].
    unfold spaceless in *. simpl in *. rewrite Ht. reflexivity. }
  rewrite !command_pieces by (discriminate || assumption).
  simpl. apply parse_minus, Hc.
Qed.

Lemma negative_amounts_mirror_positive_witness :
  forallb spaceless ["income"; "2.5"] = true /\
  plain_start (Str.lower_char "2"%char) = true /\
  amount_of ["income"; "-2.5"] = option_map PrimFloat.opp (amount_of ["income"; "2.5"]) /\
  amount_of ["income"; "2.5"] = Some 2.5%float.
Proof.
  split; [reflexivity|]. split; [reflexivity|]. split; [|vm_compute; reflexivity].
  exact (negative_amounts_mirror_positive "income" "2"%char ".5" [] eq_refl eq_refl).
Defined.

(** X14: every non-empty string of decimal digits is an amount
    [finance] accepts, read as the double nearest to the integer the
    digits write. *)
Theorem whole_numbers_are_accepted (kw tok : string) (rest : list string) :
  tok <> EmptyString ->
  forallb PyFloat.is_digit (list_ascii_of_string tok) = true ->
  forallb spaceless (kw :: rest) = true ->
  amount_of (kw :: tok :: rest) =
    Some (Num.float_of_decimal (PyFloat.digits_val (list_ascii_of_string tok)) 0).
Proof.
  intros Hne Hd Hs. unfold amount_of.
  rewrite command_pieces.
  - simpl. rewrite (lower_digits tok Hd). apply parse_digits; assumption.
  - discriminate.
  - simpl in *. apply andb_prop in Hs. destruct Hs as [-> ->].
    rewrite (digits_spaceless tok Hd). reflexivity.
Qed.

Lemma whole_numbers_are_accepted_witness :
  "0075"%string <> EmptyString /\
  amount_of ["expense"; "0075"; "now"] = Some 75%float.
Proof.
  assert (Hne : "0075"%string <> EmptyString) by discriminate.
  split; [exact Hne|].
  rewrite (whole_numbers_are_accepted "expense" "0075" ["now"] Hne eq_refl eq_refl).
  vm_compute. reflexivity.
Defined.

(** ** The Pomodoro loop *)

Section Pomodoro.

Lemma next_due_step (p n : N) :
  (0 < p)%N ->
  ((next_due p n <=? n)%N = due p n) /\
  (due p n = true -> next_due p n = n /\ next_due p (n + 1) = (n + p)%N) /\
  (due p n = false -> next_due p (n + 1) = next_due p n).
Proof.
  intros Hp. unfold next_due, due.
  destruct (N.eq_dec n 0%N) as [->|Hn].
  - assert (Hz : (0 / p)%N = 0%N) by (apply N.div_small; lia).
    replace (0 + 1 - 1)%N with 0%N by lia.
    change (0 - 1)%N with 0%N. rewrite Hz, N.add_0_r, N.mul_1_r.
    split; [|split].
    + simpl. apply N.leb_gt. lia.
    + discriminate.
    + intros _. reflexivity.
  - assert (H0 : (0 <? n)%N = true) by (apply N.ltb_lt; lia).
    rewrite H0. simpl andb.
    replace (n + 1 - 1)%N with n by lia.
    pose proof (N.div_mod (n - 1)%N p ltac:(lia)) as D1.
    pose proof (N.mod_lt (n - 1)%N p ltac:(lia)) as M1.
    pose proof (N.div_mod n p ltac:(lia)) as D0.
    pose proof (N.mod_lt n p ltac:(lia)) as M0.
    set (d := ((n - 1) / p)%N) in *. set (r := ((n - 1) mod p)%N) in *.
    set (d0 := (n / p)%N) in *. set (r0 := (n mod p)%N) in *.
    assert (Hcases : (r0 = 0 /\ d0 = d + 1 /\ r = p - 1)%N \/
                     (r0 = r + 1 /\ d0 = d /\ r + 1 < p)%N).
    { destruct (N.eq_dec (r + 1)%N p) as [E|E].
      - left. assert (n = p * (d + 1) + 0)%N by nia.
        assert (d0 = d + 1 /\ r0 = 0)%N.
        { split.
          - symmetry; apply (N.div_unique n p (d + 1)%N 0%N); lia.
          - symmetry; apply (N.mod_unique n p (d + 1)%N 0%N); lia. }
        lia.
      - right. assert (n = p * d + (r + 1))%N by nia.
        assert (d0 = d /\ r0 = r + 1)%N.
        { split.
          - symmetry; apply (N.div_unique n p d (r + 1)%N); lia.
          - symmetry; apply (N.mod_unique n p d (r + 1)%N); lia. }
        lia. }
    destruct Hcases as [(E0 & Ed & Er)|(E0 & Ed & Er)].
    + rewrite E0. simpl. split; [|split].
      * apply N.leb_le. nia.
      * intros _. split; nia.
      * discriminate.
    + assert (Hr0 : (r0 =? 0)%N = false) by (apply N.eqb_neq; lia).
      rewrite Hr0. split; [|split].
      * apply N.leb_gt. nia.
      * discriminate.
      * intros _. rewrite Ed. reflexivity.
Qed.


(** One turn of the loop on a world whose jobs are the pair of one
    [/study], each job due now or later. *)
Lemma study_turn_pair (w : World) (c a b : N) :
  jobs w =
    [{| interval := 25; job_chat := c; job_text := work_over; next_run := a |};
     {| interval := 5; job_chat := c; job_text := break_over; next_run := b |}] ->
  ((a <=? clock w)%N = true -> a = clock w) ->
  ((b <=? clock w)%N = true -> b = clock w) ->
  jobs (study_turn w) =
    [{| interval := 25; job_chat := c; job_text := work_over;
        next_run := if (a <=? clock w)%N then (clock w + 1500)%N else a |};
     {| interval := 5; job_chat := c; job_text := break_over;
        next_run := if (b <=? clock w)%N then (clock w + 300)%N else b |}] /\
  outbox (study_turn w) =
    outbox w ++
    (if (a <=? clock w)%N then [(Chat c, work_over)] else []) ++
    (if (b <=? clock w)%N then [(Chat c, break_over)] else []) /\
  clock (study_turn w) = (clock w + 1)%N.
Proof.
  destruct w as [fd ud js ck dr ob lg]. simpl. intros -> Ha Hb.
  unfold study_turn, Schedule.sleep1, Schedule.run_pending, Schedule.should_run.
  simpl. unfold Schedule.should_run. simpl.
  destruct (a <=? ck)%N eqn:Ea; destruct (b <=? ck)%N eqn:Eb; simpl.
  - rewrite (Ha eq_refl), (Hb eq_refl).
    unfold Schedule.sorted. cbn [fold_left Schedule.insert_by lookup list_lookup next_run].
    rewrite N.ltb_irrefl. simpl.
    rewrite <- app_assoc. repeat split.
  - unfold Schedule.sorted. simpl. rewrite ?app_nil_r. repeat split.
  - unfold Schedule.sorted. simpl. repeat split.
  - rewrite ?app_nil_r. repeat split.
Qed.

Lemma leb_shift (t a n : N) : (t + a <=? t + n)%N = (a <=? n)%N.
Proof.
  destruct (a <=? n)%N eqn:E.
  - apply N.leb_le in E. apply N.leb_le. lia.
  - apply N.leb_gt in E. apply N.leb_gt. lia.
Qed.

(** The loop after [n] turns, started with the pair of one [/study] and
    nothing else. *)
Lemma study_turns_pair (t c : N) (n : nat) (w : World) :
  jobs w =
    [{| interval := 25; job_chat := c; job_text := work_over;
        next_run := (t + next_due 1500 0)%N |};
     {| interval := 5; job_chat := c; job_text := break_over;
        next_run := (t + next_due 300 0)%N |}] ->
  clock w = t ->
  jobs (Nat.iter n study_turn w) =
    [{| interval := 25; job_chat := c; job_text := work_over;
        next_run := (t + next_due 1500 (N.of_nat n))%N |};
     {| interval := 5; job_chat := c; job_text := break_over;
        next_run := (t + next_due 300 (N.of_nat n))%N |}] /\
  clock (Nat.iter n study_turn w) = (t + N.of_nat n)%N /\
  outbox (Nat.iter n study_turn w) = outbox w ++ flat_map (fired c) (seq 0 n).
Proof.
  intros Hj Hc. induction n as [|n (IHj & IHc & IHo)].
  - simpl. rewrite app_nil_r, N.add_0_r. auto.
  - change (Nat.iter (S n) study_turn w) with (study_turn (Nat.iter n study_turn w)).
    set (wn := Nat.iter n study_turn w) in *.
    destruct (next_due_step 1500 (N.of_nat n) ltac:(lia)) as (L25 & D25 & K25).
    destruct (next_due_step 300 (N.of_nat n) ltac:(lia)) as (L5 & D5 & K5).
    destruct (study_turn_pair wn c _ _ IHj) as (Hj' & Ho' & Hc').
    + rewrite IHc, leb_shift, L25. intros H. destruct (D25 H) as [-> _]. reflexivity.
    + rewrite IHc, leb_shift, L5. intros H. destruct (D5 H) as [-> _]. reflexivity.
    + rewrite Hj', Ho', Hc', IHc, IHo, !leb_shift, L25, L5.
      replace (N.of_nat (S n)) with (N.of_nat n + 1)%N by lia.
      split; [|split].
      * f_equal; [|f_equal]; f_equal.
        -- destruct (due 1500 (N.of_nat n)) eqn:E.
           ++ destruct (D25 eq_refl) as [_ ->]. lia.
           ++ rewrite (K25 eq_refl). reflexivity.
        -- destruct (due 300 (N.of_nat n)) eqn:E.
           ++ destruct (D5 eq_refl) as [_ ->]. lia.
           ++ rewrite (K5 eq_refl). reflexivity.
      * lia.
      * rewrite seq_S, flat_map_app. simpl. rewrite app_nil_r, <- app_assoc.
        reflexivity.
Qed.

End Pomodoro.

(** X15: the schedule of one [/study].  When a member starts the timer
    and no other job is registered, then after any number [fuel] of turns
    of the loop (one second each) the handler is still looping and its
    messages are the start message followed, turn by turn, by
    "Break time is over" in every turn whose number is a positive
    multiple of 300 and, before it, "Work session is over" in every turn
    whose number is a positive multiple of 1500: nothing else is sent and
    nothing is sent in between. *)
Theorem study_fires_on_schedule (env : Env) (u : Update) (args : list string)
    (fuel : nat) (w : World) :
  admitted (membership env u) ->
  jobs w = [] ->
  exists w',
    study env u args fuel w = (Looping, w') /\
    outbox w' =
      outbox w ++
      [(Chat (chat_id u),
        lit "Pomodoro timer started! Work for 25 minutes, then take a 5-minute break.")]
      ++ flat_map (fired (chat_id u)) (seq 0 fuel) /\
    clock w' = (clock w + N.of_nat fuel)%N.
Proof.
  intros Hm Hj. unfold study, study_setup, bind.
  rewrite (check_channel_member_admitted env u w Hm). simpl.
  eexists. split; [reflexivity|].
  match goal with
  | |- context [Nat.iter fuel study_turn ?w1] =>
      destruct (study_turns_pair (clock w) (chat_id u) fuel w1) as (_ & Hc & Ho)
  end.
  - simpl. rewrite Hj. reflexivity.
  - reflexivity.
  - rewrite Ho, Hc. simpl. rewrite <- app_assoc. split; reflexivity.
Qed.

Lemma study_fires_on_schedule_witness :
  admitted (membership Sample.env_member (Sample.says "/study")) /\
  jobs world0 = [] /\
  exists w',
    study Sample.env_member (Sample.says "/study") [] 1501 world0 = (Looping, w') /\
    outbox w' =
      outbox world0 ++
      [(Chat 7%N,
        lit "Pomodoro timer started! Work for 25 minutes, then take a 5-minute break.")]
      ++ flat_map (fired 7%N) (seq 0 1501) /\
    clock w' = (clock world0 + N.of_nat 1501)%N.
Proof.
  assert (Hm : admitted (membership Sample.env_member (Sample.says "/study")))
    by (simpl; auto).
  split; [exact Hm|]. split; [reflexivity|].
  exact (study_fires_on_schedule Sample.env_member (Sample.says "/study") [] 1501
           world0 Hm eq_refl).
Defined.

Lemma fired_first_25_minutes :
  flat_map (fired 7%N) (seq 0 1501) =
    [(Chat 7%N, break_over); (Chat 7%N, break_over); (Chat 7%N, break_over);
     (Chat 7%N, break_over); (Chat 7%N, work_over); (Chat 7%N, break_over)].
Proof. vm_compute. reflexivity. Qed.

(** ** Order of the amounts *)

Section AmountOrder.

Lemma SFadd_comm (X Y : spec_float) : SF64add X Y = SF64add Y X.
Proof.
  unfold SF64add, SFadd.
  destruct X as [[|]|[|]| |sx mx ex]; destruct Y as [[|]|[|]| |sy my ey];
    try reflexivity.
  rewrite Z.min_comm, Z.add_comm. reflexivity.
Qed.

Lemma SFadd_zero_swap (A B : spec_float) :
  SF64add (SF64add (S754_zero false) A) B
  = SF64add (SF64add (S754_zero false) B) A.
Proof.
  destruct A as [[|]|[|]| |sa ma ea]; destruct B as [[|]|[|]| |sb mb eb];
    try reflexivity.
  change (SF64add (S754_zero false) (S754_finite sa ma ea))
    with (S754_finite sa ma ea).
  change (SF64add (S754_zero false) (S754_finite sb mb eb))
    with (S754_finite sb mb eb).
  apply SFadd_comm.
Qed.

(** From a total of zero, two amounts can be added in either order. *)
Lemma add_zero_swap (a b : float) :
  (0 + a + b)%float = (0 + b + a)%float.
Proof.
  apply Prim2SF_inj. rewrite !add_spec, Prim2SF_zero. apply SFadd_zero_swap.
Qed.

Lemma total_perm (l l' : list float) :
  Permutation l l' -> (length l <= 2)%nat -> total l = total l'.
Proof.
  intros Hp Hlen. pose proof (Permutation_length Hp) as Hl.
  destruct l as [|a [|b [|? ?]]]; simpl in Hlen; try lia.
  - apply Permutation_nil in Hp. subst. reflexivity.
  - apply Permutation_length_1_inv in Hp. subst. reflexivity.
  - apply Permutation_length_2_inv in Hp. destruct Hp as [->| ->]; [reflexivity|].
    unfold total. simpl. f_equal. apply add_zero_swap.
Qed.

End AmountOrder.

(** X16: with at most two accepted incomes and at most two accepted
    expenses, the ledger reached from the start of the program does not
    depend on the order of the [/finance] commands: any permutation of
    the sequence, with whatever other commands are mixed in, leaves the
    same two totals. *)
Theorem ledger_ignores_order_of_two (calls calls' : list call) :
  Permutation calls calls' ->
  (length (omap income_amount calls) <= 2)%nat ->
  (length (omap expense_amount calls) <= 2)%nat ->
  finance_data (finance_seq calls' world0) = finance_data (finance_seq calls world0).
Proof.
  intros Hp Hi He. rewrite !ledger_at_start. f_equal.
  - symmetry. apply total_perm; [|exact Hi].
    apply omap_Permutation, Hp.
  - symmetry. apply total_perm; [|exact He].
    apply omap_Permutation, Hp.
Qed.

Lemma ledger_ignores_order_of_two_witness :
  let c (t : list string) : call := (Sample.env_member, Sample.says "/finance", t) in
  finance_data (finance_seq [c ["expense"; "0.3"]; c ["income"; "0.2"];
                             c ["balance"]; c ["income"; "0.1"]] world0)
  = finance_data (finance_seq [c ["income"; "0.1"]; c ["income"; "0.2"];
                               c ["expense"; "0.3"]; c ["balance"]] world0).
Proof.
  cbv zeta.
  apply ledger_ignores_order_of_two; [|vm_compute; lia|vm_compute; lia].
  apply (Permutation_cons_app [_; _; _] []). simpl.
  apply (Permutation_cons_app [_] [_]). reflexivity.
Defined.

(** X17: the order of three incomes can matter: 0.1, 0.2, 0.3 added in
    this order and in the opposite order leave different income totals
    (0.6000000000000001 and 0.6), so the accumulation is not commutative
    in general. *)
Theorem three_incomes_do_not_commute :
  exists calls calls' : list call,
    Permutation calls calls' /\
    income (finance_data (finance_seq calls world0)) = NFloat 0x1.3333333333334p-1 /\
    income (finance_data (finance_seq calls' world0)) = NFloat 0x1.3333333333333p-1 /\
    (0x1.3333333333333p-1 <? 0x1.3333333333334p-1)%float = true.
Proof.
  exists [(Sample.env_member, Sample.says "/finance", ["income"; "0.1"]);
          (Sample.env_member, Sample.says "/finance", ["income"; "0.2"]);
          (Sample.env_member, Sample.says "/finance", ["income"; "0.3"])],
         [(Sample.env_member, Sample.says "/finance", ["income"; "0.3"]);
          (Sample.env_member, Sample.says "/finance", ["income"; "0.2"]);
          (Sample.env_member, Sample.says "/finance", ["income"; "0.1"])].
  split.
  - apply Permutation_rev.
  - repeat split; vm_compute; reflexivity.
Qed.

(** ** The HTTP handlers on the payloads they get *)

(** X18: what [weather] answers a member.  Without a city it asks for
    one, whatever the HTTP collaborator would do.  With a city and a
    payload whose "cod" is not the number 200 (a string, as in "404" or
    even "200", counts as not 200) it replies "City not found!" without
    reading the rest of the payload.  With "cod" equal to 200 and the
    three fields present it replies with "Weather in <city>:" and, on
    two more lines, the description and the temperature of the
    payload. *)
Theorem weather_outcomes (env : Env) (u : Update) (args : list string) (w : World) :
  admitted (membership env u) ->
  (Str.truthy (Str.join " " args) = false ->
   weather env u args w =
     (Ok tt, set_outbox (outbox w ++ [(Chat (chat_id u),
                                       lit "Please provide a city name.")]) w)) /\
  (forall data cod,
     Str.truthy (Str.join " " args) = true ->
     requests_get_json env (weather_url env (Str.join " " args)) = Ok data ->
     Py.getitem data (KStr "cod") = Ok cod ->
     (Py.eq_int cod 200 = false ->
      weather env u args w =
        (Ok tt, set_outbox (outbox w ++ [(Chat (chat_id u),
                                          lit "City not found!")]) w)) /\
     (forall main w0 w1 desc temp,
        Py.eq_int cod 200 = true ->
        Py.getitem data (KStr "main") = Ok main ->
        Py.getitem data (KStr "weather") = Ok w0 ->
        Py.getitem w0 (KIdx 0) = Ok w1 ->
        Py.getitem w1 (KStr "description") = Ok desc ->
        Py.getitem main (KStr "temp") = Ok temp ->
        weather env u args w =
          (Ok tt,
           set_outbox
             (outbox w ++
              [(Chat (chat_id u),
                [Txt "Weather in "; Val (VStr (Str.join " " args));
                 Txt (String ":" (String Str.newline "")); Val desc;
                 Txt (String Str.newline "Temperature: "); Val temp;
                 Txt (String (ascii_of_N 176) "C")])]) w))) /\
  (forall s, Py.eq_int (VStr s) 200 = false).
Proof.
  intros Hm. split; [|split].
  - intros Hc. unfold weather. rewrite (gated_admitted env u _ w Hm).
    cbv zeta. rewrite Hc. reflexivity.
  - intros data cod Hc Hd Hcod. split.
    + intros Hne. unfold weather. rewrite (gated_admitted env u _ w Hm).
      cbv zeta. rewrite Hc. simpl negb. cbv iota.
      unfold bind, lift. rewrite Hd, Hcod, Hne. reflexivity.
    + intros main w0 w1 desc temp Heq H1 H2 H3 H4 H5.
      unfold weather. rewrite (gated_admitted env u _ w Hm).
      cbv zeta. rewrite Hc. simpl negb. cbv iota.
      unfold bind, lift. rewrite Hd, Hcod, Heq, H1, H2, H3, H4, H5. reflexivity.
  - reflexivity.
Qed.

Lemma weather_outcomes_witness :
  admitted (membership (env_with sample_not_found) (Sample.says "/weather Atlantis")) /\
  weather (env_with sample_not_found) (Sample.says "/weather Atlantis") ["Atlantis"] world0
  = (Ok tt, set_outbox (outbox world0 ++ [(Chat 7%N, lit "City not found!")]) world0).
Proof.
  assert (Hm : admitted (membership (env_with sample_not_found)
                           (Sample.says "/weather Atlantis"))) by (simpl; auto).
  split; [exact Hm|].
  exact (proj1 (proj1 (proj2 (weather_outcomes (env_with sample_not_found)
                                (Sample.says "/weather Atlantis") ["Atlantis"] world0 Hm))
                  sample_not_found (VStr "404") eq_refl eq_refl eq_refl) eq_refl).
Defined.

(** X19: what [music] answers a member.  Without a genre it asks for
    one.  With a genre and a payload that is a dictionary with an "error"
    key it replies that no music was found, without reading anything
    else; with a dictionary without that key it replies with the name and
    the artist of the first track, provided the payload holds them. *)
Theorem music_outcomes (env : Env) (u : Update) (args : list string) (w : World) :
  admitted (membership env u) ->
  (Str.truthy (Str.join " " args) = false ->
   music env u args w =
     (Ok tt, set_outbox (outbox w ++ [(Chat (chat_id u),
                                       lit "Please provide a genre (e.g., /music pop).")]) w)) /\
  (forall d,
     Str.truthy (Str.join " " args) = true ->
     requests_get_json env (music_url env (Str.join " " args)) = Ok (VDict d) ->
     (is_Some (Py.assoc "error" d) ->
      music env u args w =
        (Ok tt, set_outbox (outbox w ++ [(Chat (chat_id u),
                                          lit "Could not find music for that genre.")]) w)) /\
     (forall tracks track first name artist artist_name,
        Py.assoc "error" d = None ->
        Py.assoc "tracks" d = Some tracks ->
        Py.getitem tracks (KStr "track") = Ok track ->
        Py.getitem track (KIdx 0) = Ok first ->
        Py.getitem first (KStr "name") = Ok name ->
        Py.getitem first (KStr "artist") = Ok artist ->
        Py.getitem artist (KStr "name") = Ok artist_name ->
        music env u args w =
          (Ok tt,
           set_outbox
             (outbox w ++
              [(Chat (chat_id u),
                [Txt "Top "; Val (VStr (Str.join " " args)); Txt " track: ";
                 Val name; Txt " by "; Val artist_name])]) w))).
Proof.
  intros Hm. split.
  - intros Hc. unfold music. rewrite (gated_admitted env u _ w Hm).
    cbv zeta. rewrite Hc. reflexivity.
  - intros d Hc Hd. split.
    + intros He. unfold music. rewrite (gated_admitted env u _ w Hm).
      cbv zeta. rewrite Hc. simpl negb. cbv iota.
      unfold bind, lift. rewrite Hd. simpl.
      rewrite bool_decide_eq_true_2 by exact He. reflexivity.
    + intros tracks track first name artist artist_name He H0 H1 H2 H3 H4 H5.
      unfold music. rewrite (gated_admitted env u _ w Hm).
      cbv zeta. rewrite Hc. simpl negb. cbv iota.
      unfold bind, lift. rewrite Hd. simpl.
      rewrite bool_decide_eq_false_2 by (rewrite He; intros [? ?]; discriminate).
      rewrite H0. simpl. rewrite H1, H2, H3, H4, H5. reflexivity.
Qed.

Lemma music_outcomes_witness :
  admitted (membership (env_with sample_music_error) (Sample.says "/music zzz")) /\
  music (env_with sample_music_error) (Sample.says "/music zzz") ["zzz"] world0
  = (Ok tt, set_outbox (outbox world0 ++
                        [(Chat 7%N, lit "Could not find music for that genre.")]) world0).
Proof.
  assert (Hm : admitted (membership (env_with sample_music_error)
                           (Sample.says "/music zzz"))) by (simpl; auto).
  split; [exact Hm|].
  refine (proj1 (proj2 (music_outcomes (env_with sample_music_error)
                          (Sample.says "/music zzz") ["zzz"] world0 Hm)
                   _ eq_refl eq_refl) _).
  simpl. eauto.
Defined.

(** X20: what [language] answers a member: the value under "word" when
    the payload is a dictionary that has it; [KeyError] when the
    dictionary lacks it and [TypeError] when the payload is a list, and
    then nothing is sent. *)
Theorem language_outcomes (env : Env) (u : Update) (args : list string) (w : World) :
  admitted (membership env u) ->
  (forall d word,
     requests_get_json env word_url = Ok (VDict d) ->
     Py.assoc "word" d = Some word ->
     language env u args w =
       (Ok tt, set_outbox (outbox w ++ [(Chat (chat_id u),
                                         [Txt "Word of the Day: "; Val word])]) w)) /\
  (forall d,
     requests_get_json env word_url = Ok (VDict d) ->
     Py.assoc "word" d = None ->
     language env u args w = (Raise KeyError, w)) /\
  (forall l,
     requests_get_json env word_url = Ok (VList l) ->
     language env u args w = (Raise TypeError, w)).
Proof.
  intros Hm. repeat split.
  - intros d word Hd Hw. unfold language. rewrite (gated_admitted env u _ w Hm).
    unfold get_word_of_the_day, bind, lift. rewrite Hd. simpl. rewrite Hw. reflexivity.
  - intros d Hd Hw. unfold language. rewrite (gated_admitted env u _ w Hm).
    unfold get_word_of_the_day, bind, lift. rewrite Hd. simpl. rewrite Hw. reflexivity.
  - intros l Hd. unfold language. rewrite (gated_admitted env u _ w Hm).
    unfold get_word_of_the_day, bind, lift. rewrite Hd. reflexivity.
Qed.

Lemma language_outcomes_witness :
  admitted (membership (env_with (VList [])) (Sample.says "/language")) /\
  language (env_with (VList [])) (Sample.says "/language") [] world0
  = (Raise TypeError, world0).
Proof.
  assert (Hm : admitted (membership (env_with (VList [])) (Sample.says "/language")))
    by (simpl; auto).
  split; [exact Hm|].
  exact (proj2 (proj2 (language_outcomes (env_with (VList [])) (Sample.says "/language")
                         [] world0 Hm)) [] eq_refl).
Defined.
